(** * Teacher-student gesture pipeline: model lifecycle

    A shallow embedding of the offline scripts
    ([scripts/eval_cosmos.py], [scripts/build_calibration.py],
    [scripts/train_student.py]) and of the serving runtime
    ([student/service.py]), followed by the properties of the
    specification that are settled against them.

    JSON documents are kept as dynamically typed Python values, Python
    floats are IEEE binary64 numbers (Rocq's primitive floats), dictionaries
    are finite maps, and an uncaught exception is an explicit [Raise]. *)

From Stdlib Require Import ZArith Floats Ascii.
From stdpp Require Import gmap strings list fin_maps pretty.

Set Warnings "-inexact-float,-register-all".

Open Scope Z_scope.

(** ** The fragment of Python the scripts rely on *)

Module Py.

Inductive exn : Type :=
  | TypeError
  | ValueError
  | KeyError
  | AttributeError
  | OverflowError
  | IndexError
  | SystemExit (code : Z).

Inductive result (A : Type) : Type :=
  | Ok (a : A)
  | Raise (e : exn).

Arguments Ok {A} a.
Arguments Raise {A} e.

#[global] Instance result_bind : MBind result := λ A B k r,
  match r with
  | Ok a => k a
  | Raise e => Raise e
  end.

#[global] Instance result_ret : MRet result := λ A a, Ok a.

Definition is_ok {A : Type} (r : result A) : bool :=
  match r with
  | Ok _ => true
  | Raise _ => false
  end.

(** Evaluation of a list comprehension whose body may raise: left to
    right, the first exception wins. *)
Fixpoint traverse {A B : Type} (f : A → result B) (l : list A) : result (list B) :=
  match l with
  | [] => Ok []
  | a :: l' =>
      b ← f a; bs ← traverse f l'; Ok (b :: bs)
  end.

(** What [json.loads] produces (and what a handler finds in a request). *)
Inductive pyval : Type :=
  | PNone
  | PBool (b : bool)
  | PInt (z : Z)
  | PFloat (x : float)
  | PStr (s : string)
  | PList (l : list pyval)
  | PDict (d : gmap string pyval).

(** [bool(v)], the test performed by [if v], [not v] and [v or w]. *)
Definition truthy (v : pyval) : bool :=
  match v with
  | PNone => false
  | PBool b => b
  | PInt z => negb (z =? 0)
  | PFloat x => negb (PrimFloat.eqb x 0)
  | PStr s => negb (String.eqb s EmptyString)
  | PList l => negb (Nat.eqb (length l) 0)
  | PDict d => negb (Nat.eqb (size d) 0)
  end.

(** [v or w] *)
Definition py_or (v w : pyval) : pyval := if truthy v then v else w.

Definition is_None (v : pyval) : bool :=
  match v with PNone => true | _ => false end.

(** [v is True] and [v is False]: identity with the two boolean
    singletons, so [1] is not [True]. *)
Definition is_True (v : pyval) : bool :=
  match v with PBool true => true | _ => false end.

Definition is_False (v : pyval) : bool :=
  match v with PBool false => true | _ => false end.

(** [v == s] for a string literal [s]. *)
Definition eq_str (v : pyval) (s : string) : bool :=
  match v with PStr t => String.eqb t s | _ => false end.

(** [v.get(k, dflt)]: only dictionaries have the method. *)
Definition get (v : pyval) (k : string) (dflt : pyval) : result pyval :=
  match v with
  | PDict d => Ok (default dflt (d !! k))
  | _ => Raise AttributeError
  end.

(** [float(z)] for an integer: nearest binary64, or [OverflowError]. *)
Definition int_to_float (z : Z) : result float :=
  let x := SF2Prim (binary_normalize prec emax z 0 false) in
  if PrimFloat.is_infinity x then Raise OverflowError else Ok x.

(** The exact comparison [z < c] between an integer and a float. *)
Definition int_lt_float (z : Z) (c : float) : bool :=
  match Prim2SF c with
  | S754_zero _ => z <? 0
  | S754_infinity neg => negb neg
  | S754_nan => false
  | S754_finite neg m e =>
      let n := if neg then Z.neg m else Z.pos m in
      if 0 <=? e then z <? n * 2 ^ e else z * 2 ^ (- e) <? n
  end.

(** [int(x)] for a float: truncation toward zero. *)
Definition float_to_int (x : float) : result Z :=
  match Prim2SF x with
  | S754_zero _ => Ok 0
  | S754_infinity _ => Raise OverflowError
  | S754_nan => Raise ValueError
  | S754_finite neg m e =>
      let n := if 0 <=? e then Z.pos m * 2 ^ e else Z.pos m / 2 ^ (- e) in
      Ok (if neg then - n else n)
  end.

(** [l[0]] *)
Definition first {A : Type} (l : list A) : result A :=
  match l with
  | [] => Raise IndexError
  | a :: _ => Ok a
  end.

(** [max(l)]: the first element not exceeded by a later one. *)
Definition py_max (l : list float) : result float :=
  match l with
  | [] => Raise ValueError
  | x :: l' => Ok (fold_left (λ m y, if PrimFloat.ltb m y then y else m) l' x)
  end.

(** Library functions that are used but not part of the repository:
    string parsing and decimal rounding of the interpreter, numpy's
    single-precision cast, what numpy does with an integer that does not
    fit 32 bits (an [OverflowError], or a wrapped value, by its version),
    and scikit-learn's estimators. [estimator] is a fitted classifier;
    [fit] stands for the split, the two fits and the selection of
    [train_and_pick] and may raise. *)
Class Runtime : Type := {
  str_to_float : string → option float;
  str_to_int : string → option Z;
  round : float → Z → float;
  float32 : float → float;
  int32_out_of_range : Z → result Z;
  estimator : Type;
  predict : estimator → list float → Z;
  predict_proba : estimator → list float → list float;
  fit : list (list float) → list Z → bool → result (estimator * string * float);
}.

Section Conversions.
Context `{Runtime}.

(** [float(v)] *)
Definition to_float (v : pyval) : result float :=
  match v with
  | PFloat x => Ok x
  | PInt z => int_to_float z
  | PBool b => Ok (if b then 1%float else 0%float)
  | PStr s =>
      match str_to_float s with
      | Some x => Ok x
      | None => Raise ValueError
      end
  | PNone | PList _ | PDict _ => Raise TypeError
  end.

(** [int(v)] *)
Definition to_int (v : pyval) : result Z :=
  match v with
  | PInt z => Ok z
  | PBool b => Ok (if b then 1 else 0)
  | PFloat x => float_to_int x
  | PStr s =>
      match str_to_int s with
      | Some z => Ok z
      | None => Raise ValueError
      end
  | PNone | PList _ | PDict _ => Raise TypeError
  end.

(** An element of [np.array(..., dtype=np.int32)] built from the Python
    integer [z]: [z] itself when it fits 32 bits. *)
Definition int32 (z : Z) : result Z :=
  if (- 2 ^ 31 <=? z) && (z <? 2 ^ 31) then Ok z else int32_out_of_range z.

(** [v < c] for a float literal [c]. *)
Definition lt_float (v : pyval) (c : float) : result bool :=
  match v with
  | PFloat x => Ok (PrimFloat.ltb x c)
  | PInt z => Ok (int_lt_float z c)
  | PBool b => Ok (int_lt_float (if b then 1 else 0) c)
  | PNone | PStr _ | PList _ | PDict _ => Raise TypeError
  end.

End Conversions.

End Py.

Import Py.

(** ** Feature Codec ([features_to_row], [_features_to_vector]) *)

Module Codec.

(** The two lists of scripts/train_student.py. *)
Definition FEATURE_NAMES : list string :=
  [ "swipeDisplacement"; "swipeDuration"; "peakVelocity";
    "fingersExtended"; "handSide"; "handSpan";
    "wristX"; "wristY"; "palmFacing";
    "wristVelocityX"; "wristVelocityY"; "stateConfidence" ]%string.

Definition GESTURE_TYPES : list string :=
  [ "OPEN_MENU"; "CLOSE_MENU"; "SWITCH_RIGHT"; "SWITCH_LEFT" ]%string.

(** student/service.py has lists of its own under the same names. *)
Module Serving.

Definition FEATURE_NAMES : list string :=
  [ "swipeDisplacement"; "swipeDuration"; "peakVelocity";
    "fingersExtended"; "handSide"; "handSpan";
    "wristX"; "wristY"; "palmFacing";
    "wristVelocityX"; "wristVelocityY"; "stateConfidence" ]%string.

Definition GESTURE_TYPES : list string :=
  [ "OPEN_MENU"; "CLOSE_MENU"; "SWITCH_RIGHT"; "SWITCH_LEFT" ]%string.

End Serving.

Section Encoders.
Context `{Runtime}.

(** [[float(features.get(n, 0.0)) for n in FEATURE_NAMES]] *)
Definition numeric (features : pyval) : result (list float) :=
  traverse (λ n, v ← get features n (PFloat 0%float); to_float v) FEATURE_NAMES.

(** [[1.0 if gesture_type == g else 0.0 for g in GESTURE_TYPES]] *)
Definition onehot (gesture_type : pyval) : list float :=
  (λ g, if eq_str gesture_type g then 1%float else 0%float) <$> GESTURE_TYPES.

(** scripts/train_student.py *)
Definition features_to_row (features gesture_type : pyval) : result (list float) :=
  num ← numeric features;
  Ok (num ++ onehot gesture_type).

(** student/service.py: the two comprehensions again, over the lists of
    the service; the result is cast to single precision and reshaped to
    one row. *)
Definition _features_to_vector (features gesture_type : pyval)
  : result (list (list float)) :=
  numeric ←
    traverse (λ n, v ← get features n (PFloat 0%float); to_float v)
      Serving.FEATURE_NAMES;
  let onehot :=
    (λ g, if eq_str gesture_type g then 1%float else 0%float)
      <$> Serving.GESTURE_TYPES in
  Ok [float32 <$> (numeric ++ onehot)].

End Encoders.

End Codec.

(** ** Recorded clips and the files that hold them *)

Module Clip.

(** A recorded clip, with the keys the scripts read. *)
Record clip : Type := {
  clip_id : string;
  label : pyval;
  gesture_detected : pyval;
  features : pyval;
}.

(** [json.load] of a clip or session file: a list of clips, or one clip. *)
Inductive clip_file : Type :=
  | ClipList (data : list clip)
  | OneClip (data : clip).

End Clip.

(** ** Evaluation Harness ([scripts/eval_cosmos.py]) *)

Module Harness.
Import Clip.

(** [clip_files] and the session files are listed in sorted path order;
    [sessions] is [None] when the sessions directory does not exist. *)
Definition load_clips (extra_path : option clip_file)
    (clip_files : list clip_file) (sessions : option (list clip_file))
  : list clip :=
  match extra_path with
  | Some data =>
      match data with ClipList l => l | OneClip c => [c] end
  | None =>
      let add (clips : list clip) (data : clip_file) :=
        match data with
        | ClipList l => clips ++ l
        | OneClip c => clips ++ [c]
        end in
      let clips := fold_left add clip_files [] in
      match sessions with
      | Some files => fold_left add files clips
      | None => clips
      end
  end.

(** [[c for c in clips if c.get("label") and c["label"] != "unlabeled"]]:
    the clips that [main] sends to the teacher. *)
Definition labeled (clips : list clip) : list clip :=
  filter (λ c, truthy (label c) && negb (eq_str (label c) "unlabeled") = true) clips.

(** One entry of [results] in eval_results.json, as [main] writes it. *)
Record eval_result : Type := {
  clip_id : string;
  user_label : string;
  cosmos_intentional : pyval;
  cosmos_final_intent : pyval;
  cosmos_error : bool;
}.

End Harness.

(** ** Calibration Builder ([scripts/build_calibration.py]) *)

Module Builder.

Definition TP_LABELS : gset string :=
  {[ "TP_OPEN_MENU"; "TP_CLOSE_MENU"; "TP_SWITCH_RIGHT"; "TP_SWITCH_LEFT" ]}%string.

Definition LABEL_TO_INTENT : gmap string string :=
  list_to_map
    [ ("TP_OPEN_MENU", "OPEN_MENU");
      ("TP_CLOSE_MENU", "CLOSE_MENU");
      ("TP_SWITCH_RIGHT", "SWITCH_RIGHT");
      ("TP_SWITCH_LEFT", "SWITCH_LEFT") ]%string.

Definition load_clips_by_id (clip_files : list Clip.clip_file)
    (sessions : option (list Clip.clip_file)) : gmap string Clip.clip :=
  let put (clips : gmap string Clip.clip) (c : Clip.clip) :=
    <[Clip.clip_id c := c]> clips in
  let clips :=
    fold_left (λ clips data,
      match data with
      | Clip.ClipList l => fold_left put l clips
      | Clip.OneClip c => put clips c
      end) clip_files ∅ in
  match sessions with
  | Some files =>
      fold_left (λ clips data,
        match data with
        | Clip.ClipList l => fold_left put l clips
        | Clip.OneClip _ => clips
        end) files clips
  | None => clips
  end.

(** A line of calibration.jsonl. *)
Record record : Type := {
  clip_id : string;
  features : pyval;
  gesture_type : pyval;
  label : Z;
  user_label : string;
  cosmos_intent : pyval;
}.

(** The loop variables of [main]. *)
Record tally : Type := {
  accepted : list record;
  skipped_error : Z;
  skipped_disagree : Z;
  skipped_no_feat : Z;
}.

Definition start : tally :=
  {| accepted := []; skipped_error := 0; skipped_disagree := 0; skipped_no_feat := 0 |}.

(** The first half of the loop body: [Some (label_int, gesture_type)]
    when the human label and the teacher agree, [None] on the three
    [skipped_disagree] exits. *)
Definition agreement (clips_by_id : gmap string Clip.clip) (r : Harness.eval_result)
  : result (option (Z * pyval)) :=
  let user_label := Harness.user_label r in
  let cosmos_intl := Harness.cosmos_intentional r in
  let cosmos_intent := Harness.cosmos_final_intent r in
  let is_tp := bool_decide (user_label ∈ TP_LABELS) in
  let is_neg := String.prefix "NEG_" user_label in
  if is_tp then
    match LABEL_TO_INTENT !! user_label with
    | None => Raise KeyError
    | Some expected_intent =>
        if negb (is_True cosmos_intl && eq_str cosmos_intent expected_intent)
        then Ok None
        else Ok (Some (1, PStr expected_intent))
    end
  else if is_neg then
    if negb (is_False cosmos_intl) then Ok None
    else
      let detected :=
        match clips_by_id !! Harness.clip_id r with
        | Some clip => Clip.gesture_detected clip
        | None => PNone
        end in
      Ok (Some (0, py_or detected (PStr "SWITCH_RIGHT")))
  else Ok None.

Definition count_error (t : tally) : tally :=
  {| accepted := accepted t; skipped_error := skipped_error t + 1;
     skipped_disagree := skipped_disagree t;
     skipped_no_feat := skipped_no_feat t |}.

Definition count_disagree (t : tally) : tally :=
  {| accepted := accepted t; skipped_error := skipped_error t;
     skipped_disagree := skipped_disagree t + 1;
     skipped_no_feat := skipped_no_feat t |}.

Definition count_no_feat (t : tally) : tally :=
  {| accepted := accepted t; skipped_error := skipped_error t;
     skipped_disagree := skipped_disagree t;
     skipped_no_feat := skipped_no_feat t + 1 |}.

Definition accept (t : tally) (rec : record) : tally :=
  {| accepted := accepted t ++ [rec]; skipped_error := skipped_error t;
     skipped_disagree := skipped_disagree t;
     skipped_no_feat := skipped_no_feat t |}.

(** One iteration of [for r in results]. *)
Definition step (clips_by_id : gmap string Clip.clip) (t : tally)
    (r : Harness.eval_result) : result tally :=
  if Harness.cosmos_error r then Ok (count_error t)
  else
    agreed ← agreement clips_by_id r;
    match agreed with
    | None => Ok (count_disagree t)
    | Some (label_int, gesture_type) =>
        match clips_by_id !! Harness.clip_id r with
        | None => Ok (count_no_feat t)
        | Some clip =>
            if negb (truthy (Clip.features clip)) then Ok (count_no_feat t)
            else
              Ok (accept t
                    {| clip_id := Harness.clip_id r;
                       features := Clip.features clip;
                       gesture_type := gesture_type;
                       label := label_int;
                       user_label := Harness.user_label r;
                       cosmos_intent := Harness.cosmos_final_intent r |})
        end
    end.

(** The whole loop. *)
Fixpoint loop (clips_by_id : gmap string Clip.clip) (t : tally)
    (results : list Harness.eval_result) : result tally :=
  match results with
  | [] => Ok t
  | r :: rest => t' ← step clips_by_id t r; loop clips_by_id t' rest
  end.

(** [main]: exits with status 1 when eval_results.json is missing
    ([results = None]); otherwise the calibration file is rewritten with
    the accepted records and the counters are reported. *)
Definition main (results : option (list Harness.eval_result))
    (clip_files : list Clip.clip_file) (sessions : option (list Clip.clip_file))
  : result tally :=
  match results with
  | None => Raise (SystemExit 1)
  | Some results => loop (load_clips_by_id clip_files sessions) start results
  end.

End Builder.

(** ** Model Registry: the files of models/student *)

Module Registry.

Section Files.
Context `{Runtime}.

(** The dictionary pickled by the trainer. A dictionary written by
    another tool may lack the [model] or [version] key. *)
Record bundle : Type := {
  model : option estimator;
  version : option string;
  model_type : string;
  timestamp : string;
  num_samples : Z;
  test_accuracy : float;
  calib_accuracy : option float;
  feature_names : list string;
}.

(** What [joblib.load] returns: a bundle, or a bare estimator. *)
Inductive artifact : Type :=
  | Bundle (b : bundle)
  | Bare (m : estimator).

End Files.

(** One entry of training_log.json. *)
Module Audit.

Record run : Type := {
  version : string;
  timestamp : string;
  num_samples : Z;
  pos_samples : Z;
  neg_samples : Z;
  model_type : string;
  test_accuracy : float;
  calib_accuracy : option float;
  calib_acc_old : option float;
  feature_names : list string;
}.

(** training_log.json as [json.loads] sees it: a list of runs, a JSON
    value without [append], or text that does not parse. *)
Inductive log_file : Type :=
  | Runs (l : list run)
  | NotAList
  | Unparseable.

End Audit.

Section Directory.
Context `{Runtime}.

Record registry : Type := {
  model_dir : gmap string artifact;
  training_log : option Audit.log_file;
}.

Definition empty : registry := {| model_dir := ∅; training_log := None |}.

Definition current_model : string := "current_model.joblib".

(** The pattern [v*_model.joblib]. *)
Definition is_versioned (name : string) : bool :=
  let n := String.length name in
  String.prefix "v" name && (14 <=? n)%nat
  && String.eqb (String.substring (n - 13) 13 name) "_model.joblib".

(** [MODEL_DIR.glob("v*_model.joblib")] *)
Definition versioned (reg : registry) : gmap string artifact :=
  filter (λ kv, is_versioned kv.1 = true) (model_dir reg).

End Directory.

End Registry.

(** ** Label Distiller, Trainer and Regression Gate
       ([scripts/train_student.py]) *)

Module Trainer.
Import Registry.

Definition MIN_SAMPLES : Z := 20.
Definition REGRESS_LIMIT : float := 0.02%float.

(** A line of a JSON-lines file after [strip] and [json.loads]: blank,
    refused with [json.JSONDecodeError], read as a JSON value, or a line
    on which reading or [json.loads] raises an exception that the loop
    does not catch (a plain [ValueError] for an integer literal beyond
    the digit limit of the interpreter, or for bytes that do not
    decode). *)
Inductive line : Type :=
  | Blank
  | Malformed
  | Json (record : pyval)
  | Fails (e : exn).

(** What [build_matrix] reads of an event. *)
Record sample : Type := {
  features : pyval;
  gesture_type : pyval;
  label : Z;
}.

(** An entry of the list returned by [load_labeled_events]. *)
Record event : Type := {
  labeled :> sample;
  cosmos_conf : pyval;
  reason : pyval;
  event_id : pyval;
}.

Section Script.
Context `{Runtime}.

(** The body of the inner loop of [load_labeled_events] for a parsed
    line: [None] on each [continue]. *)
Definition labeled_event (record : pyval) : result (option event) :=
  resp ← get record "response_json" PNone;
  let resp := py_or resp (PDict ∅) in
  features ← get record "features" PNone;
  if negb (truthy features) || negb (truthy resp) then Ok None else
  schema_valid ← get resp "schema_valid" (PBool true);
  if negb (truthy schema_valid) then Ok None else
  cosmos_conf ← get resp "confidence" (PFloat 0%float);
  reason ← get resp "reason_category" (PStr "unknown");
  intentional ← get resp "intentional" PNone;
  detected ← get features "gestureType" PNone;
  gesture_type ←
    (if truthy detected then Ok detected else get record "proposed_intent" PNone);
  low ← lt_float cosmos_conf 0.75%float;
  if low : bool then Ok None else
  if eq_str reason "unknown" then Ok None else
  if is_None intentional || is_None gesture_type then Ok None else
  event_id ← get record "event_id" (PStr EmptyString);
  Ok (Some {| labeled := {| features := features;
                            gesture_type := gesture_type;
                            label := if truthy intentional then 1 else 0 |};
              cosmos_conf := cosmos_conf;
              reason := reason;
              event_id := event_id |}).

(** [for line in f] with the list of events built so far. *)
Fixpoint scan_lines {A : Type} (parse : pyval → result (option A))
    (events : list A) (lines : list line) : result (list A) :=
  match lines with
  | [] => Ok events
  | Blank :: rest | Malformed :: rest => scan_lines parse events rest
  | Json record :: rest =>
      e ← parse record;
      scan_lines parse (events ++ from_option (λ e, [e]) [] e) rest
  | Fails e :: _ => Raise e
  end.

Fixpoint scan_logs (events : list event) (logs : list (list line))
  : result (list event) :=
  match logs with
  | [] => Ok events
  | f :: rest => events' ← scan_lines labeled_event events f; scan_logs events' rest
  end.

(** [logs] holds the lines of every verifier_events.jsonl found. *)
Definition load_labeled_events (logs : list (list line)) : result (list event) :=
  match logs with
  | [] => Raise (SystemExit 1)
  | _ => scan_logs [] logs
  end.

Definition build_matrix (events : list sample)
  : result (list (list float) * list Z) :=
  rows ← traverse (λ e, Codec.features_to_row (features e) (gesture_type e)) events;
  y ← traverse int32 (map label events);
  Ok (map (map float32) rows, y).

(** The loop body of [load_calibration]. *)
Definition calibration_sample (record : pyval) : result (option sample) :=
  features ← get record "features" PNone;
  detected ← get (py_or features (PDict ∅)) "gestureType" PNone;
  gesture_type ←
    (if truthy detected then Ok detected else get record "gesture_type" PNone);
  label ← get record "label" PNone;
  if is_None features || is_None gesture_type || is_None label then Ok None else
  label ← to_int label;
  Ok (Some {| features := features; gesture_type := gesture_type; label := label |}).

(** [calib] is [None] when calibration.jsonl does not exist. *)
Definition load_calibration (calib : option (list line))
  : result (option (list (list float) * list Z)) :=
  match calib with
  | None => Ok None
  | Some lines =>
      events ← scan_lines calibration_sample [] lines;
      match events with
      | [] => Ok None
      | _ => m ← build_matrix events; Ok (Some m)
      end
  end.

Definition float_of_nat (n : nat) : float :=
  PrimFloat.of_uint63 (Uint63.of_Z (Z.of_nat n)).

(** [(m.predict(X) == y).mean()] *)
Definition accuracy (m : estimator) (X : list (list float)) (y : list Z) : float :=
  let hits := zip_with (λ x l, predict m x =? l) X y in
  PrimFloat.div (float_of_nat (length (filter (λ b, b = true) hits)))
                (float_of_nat (length hits)).

Definition next_version_num (reg : registry) : Z :=
  Z.of_nat (size (versioned reg)) + 1.

(** What a run reads besides the registry. *)
Record inputs : Type := {
  verifier_logs : list (list line);
  calibration : option (list line);
  now : string;
}.

(** The variables of [main] that are live when training is over. *)
Record trained : Type := {
  events : list event;
  pos : Z;
  neg : Z;
  calib : option (list (list float) * list Z);
  new_model : estimator;
  model_type : string;
  test_acc : float;
}.

(** [main] up to the reports on the test set: loading, the minimum
    sample count, the calibration set and the fit. *)
Definition train (inp : inputs) : result trained :=
  events ← load_labeled_events (verifier_logs inp);
  if Z.of_nat (length events) <? MIN_SAMPLES then Raise (SystemExit 0) else
  let pos := foldr Z.add 0 (map (λ e : event, label e) events) in
  let neg := Z.of_nat (length events) - pos in
  Xy ← build_matrix (map labeled events);
  calib ← load_calibration (calibration inp);
  fitted ← fit Xy.1 Xy.2 (bool_decide (1 < pos) && bool_decide (1 < neg));
  Ok {| events := events; pos := pos; neg := neg; calib := calib;
        new_model := fitted.1.1; model_type := fitted.1.2;
        test_acc := fitted.2 |}.

(** The lines printed from the regression check on. *)
Inductive msg : Type :=
  | CalibAccuracyNew (acc : float)
  | CalibAccuracyOld (acc : float)
  | RegressionWarning (acc_new acc_old : float)
  | NotSaved
  | Saved (path : string)
  | Appended
  | Done (version : string).

(** [calib_acc_new < calib_acc_old - REGRESS_LIMIT] *)
Definition regresses (calib_acc_new calib_acc_old : float) : bool :=
  PrimFloat.ltb calib_acc_new (PrimFloat.sub calib_acc_old REGRESS_LIMIT).

(** [old_data.get("model") if isinstance(old_data, dict) else old_data] *)
Definition old_model_of (old_data : artifact) : option estimator :=
  match old_data with
  | Bundle b => model b
  | Bare m => Some m
  end.

(** The calibration regression check: what is printed, and either
    [(calib_acc_old, calib_acc_new)] or the exit taken. *)
Definition regression_check (t : trained) (reg : registry)
  : list msg * result (option float * option float) :=
  match calib t with
  | None => ([], Ok (None, None))
  | Some (calib_X, calib_y) =>
      let calib_acc_new := accuracy (new_model t) calib_X calib_y in
      match model_dir reg !! current_model with
      | None => ([CalibAccuracyNew calib_acc_new], Ok (None, Some calib_acc_new))
      | Some old_data =>
          match old_model_of old_data with
          | None => ([CalibAccuracyNew calib_acc_new], Raise AttributeError)
          | Some old_model =>
              let calib_acc_old := accuracy old_model calib_X calib_y in
              if regresses calib_acc_new calib_acc_old then
                ([CalibAccuracyNew calib_acc_new; CalibAccuracyOld calib_acc_old;
                  RegressionWarning calib_acc_new calib_acc_old; NotSaved],
                 Raise (SystemExit 0))
              else
                ([CalibAccuracyNew calib_acc_new; CalibAccuracyOld calib_acc_old],
                 Ok (Some calib_acc_old, Some calib_acc_new))
          end
      end
  end.

(** The state of a run when it ends. *)
Record outcome : Type := {
  status : result unit;
  files : registry;
  stdout : list msg;
}.

Definition versioned_name (version_str : string) : string :=
  version_str +:+ "_model.joblib".

Definition model_bundle (t : trained) (stamp : string) (version_str : string)
    (calib_acc_new : option float) : bundle :=
  {| model := Some (new_model t);
     version := Some version_str;
     Registry.model_type := model_type t;
     timestamp := stamp;
     num_samples := Z.of_nat (length (events t));
     test_accuracy := round (test_acc t) 4;
     calib_accuracy := (λ a, round a 4) <$> calib_acc_new;
     feature_names :=
       Codec.FEATURE_NAMES ++ map (λ g, "gesture_" +:+ g) Codec.GESTURE_TYPES |}.

Definition training_log_entry (t : trained) (b : bundle) (version_str : string)
    (calib_acc_old : option float) : Audit.run :=
  {| Audit.version := version_str;
     Audit.timestamp := timestamp b;
     Audit.num_samples := Z.of_nat (length (events t));
     Audit.pos_samples := pos t;
     Audit.neg_samples := neg t;
     Audit.model_type := model_type t;
     Audit.test_accuracy := test_accuracy b;
     Audit.calib_accuracy := calib_accuracy b;
     Audit.calib_acc_old := (λ a, round a 4) <$> calib_acc_old;
     Audit.feature_names := feature_names b |}.

(** The save section of [main]: the versioned artifact, the current
    artifact, then the training log. *)
Definition save (t : trained) (stamp : string)
    (calib_acc_old calib_acc_new : option float) (reg : registry) : outcome :=
  let version_num := next_version_num reg in
  let version_str := "v" +:+ pretty version_num in
  let b := model_bundle t stamp version_str calib_acc_new in
  let versioned_path := versioned_name version_str in
  let dir :=
    <[current_model := Bundle b]> (<[versioned_path := Bundle b]> (model_dir reg)) in
  let printed := [Saved versioned_path; Saved current_model] in
  let entry := training_log_entry t b version_str calib_acc_old in
  let existing_log :=
    match training_log reg with
    | None => Ok []
    | Some (Audit.Runs l) => Ok l
    | Some Audit.Unparseable => Ok []
    | Some Audit.NotAList => Raise AttributeError
    end in
  match existing_log with
  | Raise e =>
      {| status := Raise e;
         files := {| model_dir := dir; training_log := training_log reg |};
         stdout := printed |}
  | Ok l =>
      {| status := Ok ();
         files := {| model_dir := dir;
                     training_log := Some (Audit.Runs (l ++ [entry])) |};
         stdout := printed ++ [Appended; Done version_str] |}
  end.

Definition main (inp : inputs) (reg : registry) : outcome :=
  match train inp with
  | Raise e => {| status := Raise e; files := reg; stdout := [] |}
  | Ok t =>
      match regression_check t reg with
      | (printed, Raise e) =>
          {| status := Raise e; files := reg; stdout := printed |}
      | (printed, Ok (calib_acc_old, calib_acc_new)) =>
          let o := save t (now inp) calib_acc_old calib_acc_new reg in
          {| status := status o; files := files o;
             stdout := printed ++ stdout o |}
      end
  end.

(** The exit status of the process. *)
Definition exit_status (o : outcome) : Z :=
  match status o with
  | Ok _ => 0
  | Raise (SystemExit code) => code
  | Raise _ => 1
  end.

(** Successive runs, each on the files the previous one left; every run
    is listed with the registry it started from. *)
Fixpoint runs (inps : list inputs) (reg : registry) : list (registry * outcome) :=
  match inps with
  | [] => []
  | inp :: rest =>
      let o := main inp reg in
      (reg, o) :: runs rest (files o)
  end.

Definition final (reg : registry) (history : list (registry * outcome)) : registry :=
  from_option (λ ro, files ro.2) reg (last history).

End Script.

End Trainer.

(** ** Serving Runtime ([student/service.py]) *)

Module Service.
Import Registry.

Section Server.
Context `{Runtime}.

(** The module-level variables. *)
Record server : Type := {
  _model : option estimator;
  _model_mtime : option float;
  _model_version : option string;
  _total_preds : Z;
}.

Definition boot : server :=
  {| _model := None; _model_mtime := None; _model_version := None;
     _total_preds := 0 |}.

(** [model_file] is what is found at MODEL_PATH when the request
    arrives: nothing, or a modification time and the pickled object. *)
Definition _load_model_if_needed (model_file : option (float * artifact))
    (s : server) : server :=
  match model_file with
  | None =>
      {| _model := None; _model_mtime := None; _model_version := None;
         _total_preds := _total_preds s |}
  | Some (mtime, data) =>
      let stale :=
        match _model_mtime s with
        | Some loaded => negb (PrimFloat.eqb mtime loaded)
        | None => true
        end in
      if negb (bool_decide (is_Some (_model s))) || stale then
        match data with
        | Bundle b =>
            {| _model := model b;
               _model_version := Some (default "unknown" (version b));
               _model_mtime := Some mtime;
               _total_preds := _total_preds s |}
        | Bare m =>
            {| _model := Some m;
               _model_version := Some "v?";
               _model_mtime := Some mtime;
               _total_preds := _total_preds s |}
        end
      else s
  end.

(** The JSON object sent back by [/predict]. *)
Record prediction : Type := {
  execute : bool;
  confidence : float;
  model_version : option string;
  mode : string;
}.

(** The JSON object sent back by [/status]. *)
Record report : Type := {
  model_loaded : bool;
  status_model_version : option string;
  status_mode : string;
  total_predictions : Z;
}.

Definition count_prediction (s : server) : server :=
  {| _model := _model s; _model_mtime := _model_mtime s;
     _model_version := _model_version s;
     _total_preds := _total_preds s + 1 |}.

(** [request_body] is the result of
    [request.get_json(force=True, silent=True)]: [None] when the body is
    missing or is not JSON. The server state is returned next to the
    response because it persists when the handler raises. *)
Definition predict (STUDENT_MODE : string) (model_file : option (float * artifact))
    (request_body : option pyval) (s : server) : server * result prediction :=
  let s := _load_model_if_needed model_file s in
  let body := py_or (default PNone request_body) (PDict ∅) in
  match get body "features" (PDict ∅) with
  | Raise e => (s, Raise e)
  | Ok features =>
  match get body "type" (PStr "SWITCH_RIGHT") with
  | Raise e => (s, Raise e)
  | Ok gesture_type =>
  match _model s with
  | None =>
      (s, Ok {| execute := true; confidence := 0%float;
                model_version := None; mode := STUDENT_MODE |})
  | Some m =>
  match Codec._features_to_vector features gesture_type with
  | Raise e => (s, Raise e)
  | Ok x =>
  match first (map (predict m) x), first (map (predict_proba m) x) with
  | Raise e, _ | Ok _, Raise e => (s, Raise e)
  | Ok verdict, Ok proba =>
      let pred := negb (verdict =? 0) in
      match py_max proba with
      | Raise e => (s, Raise e)
      | Ok conf =>
          let s := count_prediction s in
          let execute :=
            if String.eqb STUDENT_MODE "active" then pred else true in
          (s, Ok {| execute := execute; confidence := round conf 3;
                    model_version := _model_version s;
                    mode := STUDENT_MODE |})
      end
  end end end end end.

Definition status (STUDENT_MODE : string) (model_file : option (float * artifact))
    (s : server) : server * report :=
  let s := _load_model_if_needed model_file s in
  (s, {| model_loaded := bool_decide (is_Some (_model s));
         status_model_version := _model_version s;
         status_mode := STUDENT_MODE;
         total_predictions := _total_preds s |}).

End Server.

End Service.

(** ** A concrete runtime

    A runtime on which the statements below can be evaluated: an
    estimator is a threshold on the first column, rounding and the
    single-precision cast are the identity, an integer that does not
    fit 32 bits raises, and strings do not parse as numbers. The fit
    returns the number of training rows as threshold. *)

Module Demo.

Definition threshold_predict (k : nat) (row : list float) : Z :=
  if PrimFloat.ltb (hd 0%float row) (Trainer.float_of_nat k) then 1 else 0.

#[local] Instance runtime : Runtime := {|
  str_to_float := λ _, None;
  str_to_int := λ _, None;
  round := λ x _, x;
  float32 := λ x, x;
  int32_out_of_range := λ _, Raise OverflowError;
  estimator := nat;
  predict := threshold_predict;
  predict_proba := λ _ _, [0.25%float; 0.75%float];
  fit := λ X _ _, Ok (length X, "LogisticRegression"%string, 1%float);
|}.

End Demo.

(** * Vocabulary of the statements *)

Section CodecTerms.
Context `{Runtime}.
Import Codec.

(** The values [float] accepts without consulting the string parser. *)
Definition is_number (v : pyval) : bool :=
  match v with
  | PFloat _ | PBool _ => true
  | PInt z => is_ok (int_to_float z)
  | PNone | PStr _ | PList _ | PDict _ => false
  end.

(** A feature bag in the sense of the data model: every named feature
    that is present holds a number. *)
Definition feature_bag (bag : gmap string pyval) : Prop :=
  ∀ n v, n ∈ FEATURE_NAMES → bag !! n = Some v → is_number v = true.

(** The bag can be encoded: every named feature that is present holds a
    value that [float] accepts. *)
Definition convertible (bag : gmap string pyval) : Prop :=
  ∀ n v, n ∈ FEATURE_NAMES → bag !! n = Some v → is_ok (to_float v) = true.

(** The codec returns on every finite map of names to values. *)
Definition encodes_every_map : Prop :=
  ∀ (bag : gmap string pyval) (gesture_type : pyval),
    is_ok (features_to_row (PDict bag) gesture_type) = true.

(** A bag with a null feature. *)
Definition null_bag : gmap string pyval := {[ "wristX"%string := PNone ]}.

(** The numeric column of a feature, [0.0] when the bag lacks it. *)
Definition column (bag : gmap string pyval) (n : string) : float :=
  match to_float (default (PFloat 0%float) (bag !! n)) with
  | Ok x => x
  | Raise _ => 0%float
  end.

End CodecTerms.

Section BuilderTerms.
Import Builder.

(** The record a result contributes to the calibration file, if any. *)
Definition emitted (clips_by_id : gmap string Clip.clip) (r : Harness.eval_result)
  : option record :=
  match step clips_by_id start r with
  | Ok t => last (accepted t)
  | Raise _ => None
  end.

(** The clip of the result is known and carries a feature bag. *)
Definition has_feature_bag (clips_by_id : gmap string Clip.clip)
    (r : Harness.eval_result) : bool :=
  match clips_by_id !! Harness.clip_id r with
  | Some clip => truthy (Clip.features clip)
  | None => false
  end.

Definition positive_agreement (r : Harness.eval_result) : Prop :=
  Harness.user_label r ∈ TP_LABELS
  ∧ Harness.cosmos_intentional r = PBool true
  ∧ ∃ intent, LABEL_TO_INTENT !! Harness.user_label r = Some intent
      ∧ Harness.cosmos_final_intent r = PStr intent.

Definition negative_agreement (r : Harness.eval_result) : Prop :=
  String.prefix "NEG_" (Harness.user_label r) = true
  ∧ Harness.cosmos_intentional r = PBool false.

(** Everything the loop has counted. *)
Definition counted (t : tally) : Z :=
  Z.of_nat (length (accepted t))
  + skipped_error t + skipped_disagree t + skipped_no_feat t.

Definition agrees_positive (r : Harness.eval_result) : bool :=
  bool_decide (Harness.user_label r ∈ TP_LABELS)
  && is_True (Harness.cosmos_intentional r)
  && match LABEL_TO_INTENT !! Harness.user_label r with
     | Some intent => eq_str (Harness.cosmos_final_intent r) intent
     | None => false
     end.

Definition agrees_negative (r : Harness.eval_result) : bool :=
  String.prefix "NEG_" (Harness.user_label r)
  && is_False (Harness.cosmos_intentional r).

End BuilderTerms.

Section ClipTerms.
Import Clip.

(** The clips of a file, in order. *)
Definition contents (data : clip_file) : list clip :=
  match data with
  | ClipList l => l
  | OneClip c => [c]
  end.

(** The clips of a session file that the builder indexes. *)
Definition session_contents (data : clip_file) : list clip :=
  match data with
  | ClipList l => l
  | OneClip _ => []
  end.

(** The last clip of a list that carries the identifier. *)
Definition latest (id : string) (l : list clip) : option clip :=
  last (filter (λ c, clip_id c = id) l).

(** The merge by clip identity, as a property of the harness: no two
    entries of its working set share a clip identifier. *)
Definition merged_by_identity : Prop :=
  ∀ clip_files sessions,
    NoDup (map clip_id (Harness.load_clips None clip_files sessions)).

Definition clip_001_recorded : clip :=
  {| clip_id := "clip_001"; label := PStr "TP_OPEN_MENU";
     gesture_detected := PStr "OPEN_MENU"; features := PNone |}.

Definition clip_001_in_session : clip :=
  {| clip_id := "clip_001"; label := PStr "NEG_WAVE";
     gesture_detected := PNone; features := PNone |}.

End ClipTerms.

Section DistillerTerms.
Import Trainer.

(** A field of the teacher response logged in a record. *)
Definition teacher_field (record : pyval) (k : string) : pyval :=
  match record with
  | PDict d =>
      match d !! "response_json" with
      | Some (PDict resp) => default PNone (resp !! k)
      | _ => PNone
      end
  | _ => PNone
  end.

(** The teacher asserted intentional for the intent of the event. *)
Definition asserts_matching_intent (record : pyval) (e : event) : Prop :=
  teacher_field record "intentional" = PBool true
  ∧ teacher_field record "final_intent" = gesture_type e.

(** The label rule of the data model, read on the distiller. *)
Definition label_follows_matching_intent : Prop :=
  ∀ record e,
    labeled_event record = Ok (Some e) →
    (label e = 1 ↔ asserts_matching_intent record e).

Definition mismatched_record : pyval :=
  PDict (list_to_map
    [ ("event_id", PStr "evt-17");
      ("proposed_intent", PStr "OPEN_MENU");
      ("features", PDict (list_to_map
         [ ("swipeDisplacement", PFloat 0.4%float);
           ("gestureType", PStr "OPEN_MENU") ]));
      ("response_json", PDict (list_to_map
         [ ("intentional", PBool true);
           ("final_intent", PStr "CLOSE_MENU");
           ("confidence", PFloat 0.9%float);
           ("reason_category", PStr "intentional_command") ])) ])%string.

End DistillerTerms.

Section GateTerms.
Context `{Runtime}.
Import Registry Trainer.


(** The candidate was written as the next versioned artifact and as the
    current artifact. *)
Definition published (t : trained) (reg : registry) (o : outcome) : Prop :=
  ∃ b, model b = Some (new_model t)
    ∧ model_dir (files o) !! current_model = Some (Bundle b)
    ∧ model_dir (files o) !! versioned_name ("v" +:+ pretty (next_version_num reg))
      = Some (Bundle b).

End GateTerms.

Section ServiceTerms.
Context `{Runtime}.
Import Registry Service.


(** The two fields read from the body. *)
Definition request_fields (request_body : option pyval) : result (pyval * pyval) :=
  let body := py_or (default PNone request_body) (PDict ∅) in
  features ← get body "features" (PDict ∅);
  gesture_type ← get body "type" (PStr "SWITCH_RIGHT");
  Ok (features, gesture_type).


End ServiceTerms.

Section RegistryTerms.
Context `{Runtime}.
Import Registry Trainer.

(** The file name of version [k]. *)
Definition vname (k : Z) : string := versioned_name ("v" +:+ pretty k).

(** The registry holds exactly the versions 1 to [n], its log is a list
    of [n] runs (no log file before the first run), and there is a
    current artifact only if something was published. *)
Record well_formed (n : nat) (reg : registry) : Prop := {
  wf_names : ∀ name, is_Some (versioned reg !! name) →
               ∃ k, 1 ≤ k ≤ Z.of_nat n ∧ name = vname k;
  wf_present : ∀ k, 1 ≤ k ≤ Z.of_nat n → is_Some (model_dir reg !! vname k);
  wf_size : size (versioned reg) = n;
  wf_log : match training_log reg with
           | None => n = 0%nat
           | Some (Audit.Runs l) => length l = n ∧ n ≠ 0%nat
           | Some _ => False
           end;
  wf_current : n = 0%nat → model_dir reg !! current_model = None;
}.

Definition successful (o : outcome) : bool := is_ok (status o).

Definition log_entries (reg : registry) : list Audit.run :=
  match training_log reg with
  | Some (Audit.Runs l) => l
  | _ => []
  end.

(** The log is absent or a list of runs, so that [log_entries] is all
    that it holds. *)
Definition log_intact (reg : registry) : Prop :=
  training_log reg = None ∨ ∃ l, training_log reg = Some (Audit.Runs l).

(** What a run that returns normally has done to the registry. *)
Definition publishes (reg : registry) (o : outcome) : Prop :=
  ∃ b entry,
    let version_str := "v" +:+ pretty (Z.of_nat (size (versioned reg)) + 1) in
    version b = Some version_str
    ∧ model_dir (files o)
      = <[current_model := Bundle b]>
          (<[versioned_name version_str := Bundle b]> (model_dir reg))
    ∧ model_dir reg !! versioned_name version_str = None
    ∧ size (versioned (files o)) = S (size (versioned reg))
    ∧ log_entries (files o) = log_entries reg ++ [entry]
    ∧ Audit.version entry = version_str.

Definition accepted_runs (history : list (registry * outcome))
  : list (registry * outcome) :=
  filter (λ ro, successful ro.2 = true) history.

End RegistryTerms.

(** * Concrete inputs

    Small inputs on the runtime of [Demo], on which the statements are
    evaluated. *)

Module Scenario.

#[local] Existing Instance Demo.runtime.

(** A feature bag with a float, an integer and a boolean feature; the
    other nine named features are missing. *)
Definition bag : gmap string pyval :=
  list_to_map
    [ ("swipeDisplacement", PFloat 0.42%float);
      ("fingersExtended", PInt 3);
      ("palmFacing", PBool true);
      ("gestureType", PStr "OPEN_MENU") ]%string.

(** Eight recorded clips, and the evaluation results of the end-to-end
    scenario: four OPEN_MENU clips the teacher agrees with and four
    negative clips it rejects. *)
Definition clip_n (i : Z) : Clip.clip :=
  {| Clip.clip_id := "clip_" +:+ pretty i;
     Clip.label := PStr (if i <=? 4 then "TP_OPEN_MENU" else "NEG_WAVE");
     Clip.gesture_detected := if i <=? 4 then PStr "OPEN_MENU" else PNone;
     Clip.features := PDict bag |}.

Definition clip_files : list Clip.clip_file :=
  [Clip.ClipList (clip_n <$> seqZ 1 8)].

Definition result_n (i : Z) : Harness.eval_result :=
  {| Harness.clip_id := "clip_" +:+ pretty i;
     Harness.user_label := if i <=? 4 then "TP_OPEN_MENU" else "NEG_WAVE";
     Harness.cosmos_intentional := PBool (i <=? 4);
     Harness.cosmos_final_intent := PStr (if i <=? 4 then "OPEN_MENU" else "NONE");
     Harness.cosmos_error := false |}.

Definition results : list Harness.eval_result := result_n <$> seqZ 1 8.

(** The same results with the teacher rejecting the first clip. *)
Definition results_with_disagreement : list Harness.eval_result :=
  {| Harness.clip_id := "clip_1";
     Harness.user_label := "TP_OPEN_MENU";
     Harness.cosmos_intentional := PBool false;
     Harness.cosmos_final_intent := PStr "NONE";
     Harness.cosmos_error := false |} :: (result_n <$> seqZ 2 7).

(** The labels accepted and the three skip counters of a build. *)
Definition summary (r : result Builder.tally) : option (list Z * Z * Z * Z) :=
  match r with
  | Ok t =>
      Some (map Builder.label (Builder.accepted t), Builder.skipped_error t,
            Builder.skipped_disagree t, Builder.skipped_no_feat t)
  | Raise _ => None
  end.


(** A line of verifier_events.jsonl on which teacher and event agree. *)
Definition agreeing_record : pyval :=
  PDict (list_to_map
    [ ("event_id", PStr "evt-18");
      ("proposed_intent", PStr "OPEN_MENU");
      ("schema_valid", PBool true);
      ("features", PDict bag);
      ("response_json", PDict (list_to_map
         [ ("intentional", PBool true);
           ("final_intent", PStr "OPEN_MENU");
           ("confidence", PFloat 0.9%float);
           ("reason_category", PStr "intentional_command") ])) ])%string.

(** A calibration file of one hundred positive samples whose first
    column runs from 0 to 99: the estimator with threshold [k] scores
    [k/100] on it. *)
Definition calibration_line (i : Z) : Trainer.line :=
  Trainer.Json (PDict (list_to_map
    [ ("clip_id", PStr ("clip_" +:+ pretty i));
      ("features", PDict {[ "swipeDisplacement" := PInt i ]});
      ("gesture_type", PStr "OPEN_MENU");
      ("label", PInt 1) ]))%string.

Definition calibration_file : list Trainer.line := calibration_line <$> seqZ 0 100.

(** A run over [n] log lines; the fit of [Demo] returns threshold [n]. *)
Definition run_inputs (n : nat) : Trainer.inputs :=
  {| Trainer.verifier_logs := [replicate n (Trainer.Json agreeing_record)];
     Trainer.calibration := Some calibration_file;
     Trainer.now := "2026-03-01T12:00:00Z" |}.

Definition untrained : Trainer.trained :=
  {| Trainer.events := []; Trainer.pos := 0; Trainer.neg := 0;
     Trainer.calib := None; Trainer.new_model := 0%nat;
     Trainer.model_type := EmptyString; Trainer.test_acc := 0%float |}.

Definition trained_on (n : nat) : Trainer.trained :=
  match Trainer.train (run_inputs n) with
  | Ok t => t
  | Raise _ => untrained
  end.

Definition calibration_set : list (list float) * list Z :=
  match Trainer.load_calibration (Some calibration_file) with
  | Ok (Some c) => c
  | _ => ([], [])
  end.



(** The current artifact seen by the server, holding an estimator that
    rejects every row, and a well-formed request. *)
Definition rejecting : estimator := 0%nat.

Definition model_file : option (float * Registry.artifact) :=
  Some (1772366400%float, Registry.Bare rejecting).

Definition request_body : option pyval :=
  Some (PDict (list_to_map
    [ ("features", PDict bag); ("type", PStr "OPEN_MENU") ]))%string.

End Scenario.

(** * More of the scripts *)

(** ** Metrics of the harness ([compute_metrics],
       [print_confusion_matrix]) *)

Module Metrics.
Import Harness.

Definition gesture_types : list string :=
  [ "OPEN_MENU"; "CLOSE_MENU"; "SWITCH_RIGHT"; "SWITCH_LEFT" ]%string.

(** The four counters of one gesture type. *)
Record cells : Type := {
  tp : Z;
  fp : Z;
  fn : Z;
  tn : Z;
}.

Definition no_cells : cells := {| tp := 0; fp := 0; fn := 0; tn := 0 |}.

(** [cosmos_intl and cosmos_intent == g], as a condition. *)
Definition cosmos_fired (g : string) (r : eval_result) : bool :=
  truthy (cosmos_intentional r) && eq_str (cosmos_final_intent r) g.

(** The body of [for r in results] for the gesture type [g]. *)
Definition count (g : string) (c : cells) (r : eval_result) : cells :=
  if cosmos_error r then c
  else
    let user_is_this := String.eqb (user_label r) ("TP_" +:+ g) in
    let user_is_neg := String.prefix "NEG_" (user_label r) in
    if user_is_this then
      if cosmos_fired g r
      then {| tp := tp c + 1; fp := fp c; fn := fn c; tn := tn c |}
      else {| tp := tp c; fp := fp c; fn := fn c + 1; tn := tn c |}
    else if cosmos_fired g r
      then {| tp := tp c; fp := fp c + 1; fn := fn c; tn := tn c |}
    else if user_is_neg && negb (truthy (cosmos_intentional r))
      then {| tp := tp c; fp := fp c; fn := fn c; tn := tn c + 1 |}
    else c.

Definition count_all (g : string) (results : list eval_result) : cells :=
  fold_left (count g) results no_cells.

(** An entry of the dictionary returned by [compute_metrics]. *)
Record metric : Type := {
  counts : cells;
  precision : float;
  recall : float;
  f1 : float;
}.

(** [a / b] for two counters; the quotient of two integers below 2^53
    is the quotient of their floats. *)
Definition ratio (a b : Z) : float :=
  PrimFloat.div (PrimFloat.of_uint63 (Uint63.of_Z a))
                (PrimFloat.of_uint63 (Uint63.of_Z b)).

Definition metric_of (c : cells) : metric :=
  let precision := if 0 <? tp c + fp c then ratio (tp c) (tp c + fp c) else 0%float in
  let recall := if 0 <? tp c + fn c then ratio (tp c) (tp c + fn c) else 0%float in
  let f1 :=
    if PrimFloat.ltb 0%float (PrimFloat.add precision recall)
    then PrimFloat.div (PrimFloat.mul (PrimFloat.mul 2%float precision) recall)
                       (PrimFloat.add precision recall)
    else 0%float in
  {| counts := c; precision := precision; recall := recall; f1 := f1 |}.

(** The dictionary, in the order of its keys. *)
Definition compute_metrics (results : list eval_result) : list (string * metric) :=
  map (λ g, (g, metric_of (count_all g results))) gesture_types.

Definition cosmos_cols : list string :=
  [ "OPEN_MENU"; "CLOSE_MENU"; "SWITCH_RIGHT"; "SWITCH_LEFT"; "NONE/reject" ]%string.

(** [ci if (ci_intl and ci in cosmos_cols) else "NONE/reject"] *)
Definition column (r : eval_result) : string :=
  match cosmos_final_intent r with
  | PStr ci =>
      if truthy (cosmos_intentional r) && bool_decide (ci ∈ cosmos_cols)
      then ci else "NONE/reject"
  | _ => "NONE/reject"
  end.

(** The dictionary [counts] built by [print_confusion_matrix]. *)
Definition confusion (results : list eval_result) : gmap (string * string) Z :=
  fold_left (λ counts r,
    if cosmos_error r then counts
    else
      let key := (user_label r, column r) in
      <[key := default 0 (counts !! key) + 1]> counts) results ∅.

(** [errors] and [valid] of [print_metrics]. *)
Definition errors (results : list eval_result) : Z :=
  Z.of_nat (length (filter (λ r, cosmos_error r = true) results)).

Definition valid (results : list eval_result) : Z :=
  Z.of_nat (length results) - errors results.

End Metrics.

(** ** The batch of the harness ([send_to_verifier], [main]) *)

Module Evaluation.

Definition LABEL_DEFAULT_INTENT : gmap string string :=
  list_to_map
    [ ("TP_OPEN_MENU", "OPEN_MENU");
      ("TP_CLOSE_MENU", "CLOSE_MENU");
      ("TP_SWITCH_RIGHT", "SWITCH_RIGHT");
      ("TP_SWITCH_LEFT", "SWITCH_LEFT");
      ("NEG_HEAD_SCRATCH", "OPEN_MENU");
      ("NEG_REACH", "SWITCH_RIGHT");
      ("NEG_WAVE", "OPEN_MENU");
      ("NEG_PHONE", "SWITCH_RIGHT");
      ("NEG_STRETCH", "SWITCH_RIGHT");
      ("NEG_OTHER", "SWITCH_RIGHT") ]%string.

(** A clip with the further keys that the batch reads; [metadata] is
    [None] when the key is absent. *)
Record recording : Type := {
  clip :> Clip.clip;
  category : pyval;
  confidence : pyval;
  frames : pyval;
  metadata : option pyval;
}.

(** The JSON object posted to [/verify]. *)
Record payload : Type := {
  event_id : string;
  proposed_intent : pyval;
  local_confidence : pyval;
  payload_frames : option pyval;
  landmark_summary_json : option pyval;
}.

(** [LABEL_DEFAULT_INTENT.get(label, "SWITCH_RIGHT")]: a list or a
    dictionary cannot be hashed. *)
Definition default_intent (label : pyval) : result pyval :=
  match label with
  | PStr l => Ok (PStr (default "SWITCH_RIGHT" (LABEL_DEFAULT_INTENT !! l)))
  | PList _ | PDict _ => Raise TypeError
  | PNone | PBool _ | PInt _ | PFloat _ => Ok (PStr "SWITCH_RIGHT")
  end.

(** The first lines of [send_to_verifier]. *)
Definition build_payload (c : recording) : result payload :=
  proposed ←
    (if truthy (Clip.gesture_detected c) then Ok (Clip.gesture_detected c)
     else default_intent (Clip.label c));
  Ok {| event_id := Clip.clip_id c;
        proposed_intent := proposed;
        local_confidence := py_or (confidence c) (PFloat 0.7%float);
        payload_frames := if truthy (frames c) then Some (frames c) else None;
        landmark_summary_json :=
          if truthy (Clip.features c) then Some (default (PDict ∅) (metadata c))
          else None |}.

(** What the request to the verifier comes to: a body that parsed as
    JSON, an HTTP error, any other failure (no connection, timeout, a
    body that is not JSON), or a request that could not be built. *)
Inductive reply : Type :=
  | Body (v : pyval)
  | HTTPError (code : Z) (reason : string)
  | Failure (msg : string)
  | Refused (e : exn).

(** The value returned by [send_to_verifier] for a reply. [Refused] is
    the one case with no value: the constructor of the request, which
    is outside the [try], raises (on a URL without a scheme). *)
Definition response (rep : reply) : result pyval :=
  match rep with
  | Body v => Ok v
  | HTTPError code reason =>
      Ok (PDict {[ "error"%string := PStr ("HTTP " +:+ pretty code +:+ ": " +:+ reason) ]})
  | Failure msg => Ok (PDict {[ "error"%string := PStr msg ]})
  | Refused e => Raise e
  end.

(** ["error" in resp] *)
Definition has_error (resp : pyval) : result bool :=
  match resp with
  | PDict d => Ok (bool_decide (is_Some (d !! "error")))
  | PList l => Ok (existsb (λ v, eq_str v "error") l)
  | PStr s => Ok (bool_decide (is_Some (String.index 0 "error" s)))
  | PNone | PBool _ | PInt _ | PFloat _ => Raise TypeError
  end.

(** An entry of [results], with all its keys. *)
Record row : Type := {
  clip_id : string;
  user_label : pyval;
  user_category : pyval;
  gesture_detected : pyval;
  cosmos_intentional : pyval;
  cosmos_final_intent : pyval;
  cosmos_confidence : pyval;
  cosmos_reason : pyval;
  cosmos_error : bool;
  cosmos_error_msg : pyval;
}.

(** The dictionary [result] built from a clip and the response. *)
Definition row_of (c : recording) (resp : pyval) : result row :=
  cosmos_error ← has_error resp;
  intentional ← get resp "intentional" PNone;
  final_intent ← get resp "final_intent" PNone;
  confidence ← get resp "confidence" PNone;
  reason ← get resp "reason_category" PNone;
  error_msg ← (if cosmos_error : bool then get resp "error" PNone else Ok PNone);
  Ok {| clip_id := Clip.clip_id c;
        user_label := Clip.label c;
        user_category := category c;
        gesture_detected := Clip.gesture_detected c;
        cosmos_intentional := intentional;
        cosmos_final_intent := final_intent;
        cosmos_confidence := confidence;
        cosmos_reason := reason;
        cosmos_error := cosmos_error;
        cosmos_error_msg := error_msg |}.

(** [f"{v:.2f}"]: defined for numbers only, an integer being converted
    to a float first. *)
Definition format_2f (v : pyval) : result unit :=
  match v with
  | PFloat _ | PBool _ => Ok ()
  | PInt z => _ ← int_to_float z; Ok ()
  | PStr _ => Raise ValueError
  | PNone | PList _ | PDict _ => Raise TypeError
  end.

(** What the batch does besides building its results. *)
Inductive effect : Type :=
  | Posted (p : payload)
  | Slept.

Section Batch.

(** [time.sleep], which raises on a duration it does not accept (a
    negative one), and [args.sleep]. *)
Variable time_sleep : float → result unit.
Variable sleep : float.

(** One iteration of [for i, clip in enumerate(labeled)], [post] being
    the exchange with the verifier for this call. *)
Definition evaluate_one (post : payload → reply) (c : recording)
  : list effect * result row :=
  match build_payload c with
  | Raise e => ([], Raise e)
  | Ok p =>
      match response (post p) with
      | Raise e => ([], Raise e)
      | Ok resp =>
          match row_of c resp with
          | Raise e => ([Posted p], Raise e)
          | Ok result =>
              if cosmos_error result then ([Posted p], Ok result)
              else
                match conf ← get resp "confidence" (PInt 0); format_2f conf with
                | Raise e => ([Posted p], Raise e)
                | Ok _ =>
                    match time_sleep sleep with
                    | Raise e => ([Posted p], Raise e)
                    | Ok _ => ([Posted p; Slept], Ok result)
                    end
                end
          end
      end
  end.

(** The loop, [i] being the number of calls made so far. *)
Fixpoint evaluate (post : nat → payload → reply) (i : nat)
    (labeled : list recording) : list effect * result (list row) :=
  match labeled with
  | [] => ([], Ok [])
  | c :: rest =>
      match evaluate_one (post i) c with
      | (done, Raise e) => (done, Raise e)
      | (done, Ok result) =>
          match evaluate post (S i) rest with
          | (more, Raise e) => (done ++ more, Raise e)
          | (more, Ok results) => (done ++ more, Ok (result :: results))
          end
      end
  end.

Definition labeled (clips : list recording) : list recording :=
  filter (λ c : recording,
    truthy (Clip.label c) && negb (eq_str (Clip.label c) "unlabeled") = true) clips.

(** What is written to eval_results.json. *)
Record output : Type := {
  total_clips : Z;
  results : list row;
}.

(** [main] from the loaded clips to the results file: exit status 1
    without clips, otherwise the batch over the labeled clips. The
    metrics are computed once the file is written ([Metrics]). *)
Definition main (post : nat → payload → reply) (clips : list recording)
  : list effect * result output :=
  match clips with
  | [] => ([], Raise (SystemExit 1))
  | _ =>
      match evaluate post 0 (labeled clips) with
      | (done, Raise e) => (done, Raise e)
      | (done, Ok results) =>
          (done, Ok {| total_clips := Z.of_nat (length (labeled clips));
                       results := results |})
      end
  end.

End Batch.

(** The entry as the builder and the metrics read it. *)
Definition as_result (r : row) : option Harness.eval_result :=
  match user_label r with
  | PStr l =>
      Some {| Harness.clip_id := clip_id r;
              Harness.user_label := l;
              Harness.cosmos_intentional := cosmos_intentional r;
              Harness.cosmos_final_intent := cosmos_final_intent r;
              Harness.cosmos_error := cosmos_error r |}
  | _ => None
  end.

End Evaluation.

(** ** The verifier service ([verifier/verifier/main.py])

    The handler of [/verify] and the records it appends to
    verifier_events.jsonl. The teacher behind it, the schema check and
    the construction of the response model are not part of the handler:
    they are the variables of the section, free to return or to raise. *)

Module Verifier.

(** [VerifyRequest] *)
Record request : Type := {
  event_id : string;
  proposed_intent : string;
  frames : option (list string);
  landmark_summary_json : option (gmap string pyval);
  local_confidence : option float;
  force_reject : bool;
  policy_hint : option string;
  features : option (gmap string pyval);
  student_prediction : option (gmap string pyval);
}.

Inductive raised : Type :=
  | HTTPException (status_code : Z) (detail : pyval)
  | Exception (str : string).

Inductive outcome (A : Type) : Type :=
  | Returns (a : A)
  | Raises (e : raised).

Arguments Returns {A} a.
Arguments Raises {A} e.

(** [**({k: v} if v else {})] *)
Definition with_key (k : string) (v : pyval) (record : gmap string pyval)
  : gmap string pyval :=
  if truthy v then <[k := v]> record else record.

Definition opt_str (o : option string) : pyval := from_option PStr PNone o.
Definition opt_dict (o : option (gmap string pyval)) : pyval := from_option PDict PNone o.

Section Handler.

Variable NIM_ENABLED : bool.
Variable call_cosmos_nim :
  string → option (list string) → option (gmap string pyval) → option float → bool →
  outcome pyval.
Variable build_stub_response : string → string → bool → outcome pyval.
Variable validate_response : pyval → outcome (bool * option string).
Variable VerifyResponse : pyval → outcome pyval.

(** The record of a call that reached the schema check. *)
Definition log_record (req : request) (ts_request_received_unix : float)
    (nim_called : bool) (latency_ms : float) (response_json : pyval)
    (schema_valid : bool) (schema_error : option string) : gmap string pyval :=
  with_key "error" (opt_str schema_error)
    (with_key "student_prediction" (opt_dict (student_prediction req))
      (with_key "features" (opt_dict (features req))
        (with_key "policy_hint" (opt_str (policy_hint req))
          (list_to_map
             [ ("event_id", PStr (event_id req));
               ("ts_request_received_unix", PFloat ts_request_received_unix);
               ("proposed_intent", PStr (proposed_intent req));
               ("nim_called", PBool nim_called);
               ("latency_ms", PFloat latency_ms);
               ("response_json", response_json);
               ("schema_valid", PBool schema_valid) ]%string)))).

(** The record written by the two exception handlers. *)
Definition failure_record (req : request) (ts_request_received_unix : float)
    (latency_ms : float) (error : pyval) : gmap string pyval :=
  <["error" := error]>
    (with_key "policy_hint" (opt_str (policy_hint req))
       (list_to_map
          [ ("event_id", PStr (event_id req));
            ("ts_request_received_unix", PFloat ts_request_received_unix);
            ("proposed_intent", PStr (proposed_intent req));
            ("nim_called", PBool NIM_ENABLED);
            ("latency_ms", PFloat latency_ms);
            ("response_json", PNone);
            ("schema_valid", PBool false) ]%string)).

(** What the handlers do with an exception raised before the record of
    the call was written. *)
Definition unlogged {A : Type} (req : request) (ts : float) (latency_ms : float)
    (e : raised) : list (gmap string pyval) * outcome A :=
  match e with
  | HTTPException status_code detail =>
      ([failure_record req ts latency_ms detail], Raises (HTTPException status_code detail))
  | Exception str =>
      ([failure_record req ts latency_ms (PStr str)], Raises (HTTPException 500 (PStr str)))
  end.

(** [verify]: the records appended to the log, and the response or the
    exception handed to the framework. [ts] is the time of the request,
    [latency_ms] and [latency_ms'] the latencies read in the body and in
    a handler that runs after the body has logged. *)
Definition verify (ts latency_ms latency_ms' : float) (req : request)
    (query_force_reject : bool) : list (gmap string pyval) * outcome pyval :=
  let combined_force_reject := query_force_reject || force_reject req in
  let nim_called := NIM_ENABLED && negb combined_force_reject in
  let called :=
    if nim_called then
      call_cosmos_nim (proposed_intent req) (frames req) (landmark_summary_json req)
        (local_confidence req) false
    else build_stub_response (event_id req) (proposed_intent req) combined_force_reject in
  match called with
  | Raises e => unlogged req ts latency_ms e
  | Returns response_json =>
      match validate_response response_json with
      | Raises e => unlogged req ts latency_ms e
      | Returns (schema_valid, schema_error) =>
          let record :=
            log_record req ts nim_called latency_ms response_json schema_valid schema_error in
          if negb schema_valid then
            ([record],
             Raises (HTTPException 500
                       (PStr ("Schema validation failed: " +:+ default "None" schema_error))))
          else
            match VerifyResponse response_json with
            | Returns response => ([record], Returns response)
            | Raises (HTTPException status_code detail) =>
                ([record], Raises (HTTPException status_code detail))
            | Raises (Exception str) =>
                ([record; failure_record req ts latency_ms' (PStr str)],
                 Raises (HTTPException 500 (PStr str)))
            end
      end
  end.

End Handler.

End Verifier.

(** ** The executor service ([executor/executor/main.py])

    The handler of [/execute]. The platform, the content of
    actions.yaml, the outcome of a command, the translation of a key
    combination to AppleScript and the fresh identifier are the
    variables of the section. *)

Module Executor.

(** [ExecuteRequest] *)
Record request : Type := {
  intent : string;
  event_id : option string;
  dry_run : bool;
  source : string;
  features : option (gmap string pyval);
  student_prediction : option (gmap string pyval);
}.

(** [ExecuteResponse] *)
Record response : Type := {
  ok : bool;
  executed : bool;
  response_intent : string;
  response_event_id : string;
  key_combo : string;
  detail : string;
}.

(** The exceptions met in the handler, with their [str]. *)
Inductive raised : Type :=
  | CalledProcessError (str : string)
  | RuntimeError (str : string)
  | OtherError (str : string).

Inductive outcome (A : Type) : Type :=
  | Returns (a : A)
  | Raises (e : raised).

Arguments Returns {A} a.
Arguments Raises {A} e.

(** actions.yaml: missing, not loadable, or loaded. *)
Inductive config : Type :=
  | Missing
  | Unreadable (str : string)
  | Parsed (data : pyval).

(** What the framework gets from the handler. *)
Inductive reply : Type :=
  | Response (r : response)
  | HTTPException (status_code : Z) (detail : string).

(** What the handler has done when it ends. *)
Record effects : Type := {
  commands : list (list string);
  log : list (gmap string pyval);
  answer : reply;
}.

Section Handler.

(** [platform.system().lower()] *)
Variable system : string.
Variable ACTIONS_PATH : string.
Variable actions_file : config.
(** [subprocess.run(cmd, check=True)]: [None] when the command succeeds. *)
Variable run : list string → option raised.
Variable _macos_osascript_for_combo : string → outcome string.
Variable uuid4 : string.
Variable ts_unix latency_ms : float.

Definition _detect_os_key : outcome string :=
  if String.eqb system "linux" then Returns "linux"%string
  else if String.eqb system "darwin" then Returns "macos"%string
  else Raises (RuntimeError ("Unsupported operating system: " +:+ system)).

Definition _load_actions : outcome (gmap string pyval) :=
  match actions_file with
  | Missing => Raises (RuntimeError ("Missing actions config: " +:+ ACTIONS_PATH))
  | Unreadable str => Raises (OtherError str)
  | Parsed (PDict data) => Returns data
  | Parsed _ => Raises (RuntimeError "actions.yaml must contain a top-level object")
  end.

Definition _key_combo_for_intent (intent os_key : string) : outcome string :=
  match _load_actions with
  | Raises e => Raises e
  | Returns actions =>
      match actions !! os_key with
      | Some (PDict os_actions) =>
          let missing :=
            Raises (RuntimeError ("Missing key mapping for intent '" +:+ intent
                                  +:+ "' on OS '" +:+ os_key +:+ "'")) in
          match os_actions !! intent with
          | Some (PStr key_combo) =>
              if String.eqb key_combo EmptyString then missing else Returns key_combo
          | _ => missing
          end
      | _ =>
          Raises (RuntimeError ("Missing '" +:+ os_key +:+ "' key mappings in actions.yaml"))
      end
  end.

(** The record of a request that was served. *)
Definition log_record (req : request) (event_id key_combo : string) (executed : bool)
    (os_key : string) : gmap string pyval :=
  Verifier.with_key "student_prediction" (Verifier.opt_dict (student_prediction req))
    (Verifier.with_key "features" (Verifier.opt_dict (features req))
       (list_to_map
          [ ("event_id", PStr event_id);
            ("ts_unix", PFloat ts_unix);
            ("intent", PStr (intent req));
            ("key_combo", PStr key_combo);
            ("executed", PBool executed);
            ("dry_run", PBool (dry_run req));
            ("source", PStr (source req));
            ("os_name", PStr os_key);
            ("latency_ms", PFloat latency_ms) ]%string)).

(** The record written by the two exception handlers. *)
Definition failure_record (req : request) (event_id error_msg : string)
  : gmap string pyval :=
  list_to_map
    [ ("event_id", PStr event_id);
      ("ts_unix", PFloat ts_unix);
      ("intent", PStr (intent req));
      ("key_combo", PStr EmptyString);
      ("executed", PBool false);
      ("dry_run", PBool (dry_run req));
      ("source", PStr (source req));
      ("os_name", PStr system);
      ("latency_ms", PFloat latency_ms);
      ("error", PStr error_msg) ]%string.

Definition error_msg (e : raised) : string :=
  match e with
  | CalledProcessError str => "Command failed: " +:+ str
  | RuntimeError str | OtherError str => str
  end.

(** [req.event_id or str(uuid4())] *)
Definition event_id_of (req : request) : string :=
  match event_id req with
  | Some id => if String.eqb id EmptyString then uuid4 else id
  | None => uuid4
  end.

(** The two [except] clauses. *)
Definition failed (req : request) (done : list (list string)) (e : raised) : effects :=
  {| commands := done;
     log := [failure_record req (event_id_of req) (error_msg e)];
     answer := HTTPException 500 (error_msg e) |}.

(** [_execute_linux], [_execute_macos] and the branch of the handler
    that chooses between them: the commands started, and the exception
    raised, if any. *)
Definition dispatch (os_key key_combo : string) : list (list string) * option raised :=
  if String.eqb os_key "linux" then
    let cmd := [ "xdotool"; "key"; key_combo ]%string in
    ([cmd], run cmd)
  else if String.eqb os_key "macos" then
    match _macos_osascript_for_combo key_combo with
    | Raises e => ([], Some e)
    | Returns script =>
        let cmd := [ "osascript"; "-e"; script ]%string in
        ([cmd], run cmd)
    end
  else ([], Some (RuntimeError ("Unsupported operating system key: " +:+ os_key))).

Definition execute (req : request) : effects :=
  let event_id := event_id_of req in
  match _detect_os_key with
  | Raises e => failed req [] e
  | Returns os_key =>
      match _key_combo_for_intent (intent req) os_key with
      | Raises e => failed req [] e
      | Returns key_combo =>
          let served (done : list (list string)) (executed : bool) (detail : string) :=
            {| commands := done;
               log := [log_record req event_id key_combo executed os_key];
               answer := Response {| ok := true; executed := executed;
                                     response_intent := intent req;
                                     response_event_id := event_id;
                                     key_combo := key_combo;
                                     detail := detail |} |} in
          if dry_run req then served [] false "dry run: no key event sent"%string
          else
            match dispatch os_key key_combo with
            | (done, Some e) => failed req done e
            | (done, None) => served done true "key event dispatched"%string
            end
      end
  end.

End Handler.

End Executor.

Section ExecutorTerms.
Import Executor.

(** The key combination that actions.yaml gives for an intent on a
    platform. *)
Definition mapped (actions_file : config) (os_key intent key_combo : string) : Prop :=
  ∃ actions os_actions,
    actions_file = Parsed (PDict actions)
    ∧ actions !! os_key = Some (PDict os_actions)
    ∧ os_actions !! intent = Some (PStr key_combo)
    ∧ key_combo ≠ EmptyString.

(** The command that sends a key combination on a platform. *)
Definition key_command (_macos_osascript_for_combo : string → outcome string)
    (system key_combo : string) (cmd : list string) : Prop :=
  (system = "linux" ∧ cmd = [ "xdotool"; "key"; key_combo ])%string
  ∨ (system = "darwin"
     ∧ ∃ script, _macos_osascript_for_combo key_combo = Returns script
         ∧ cmd = [ "osascript"; "-e"; script ])%string.

End ExecutorTerms.

Section VerifierTerms.
Import Verifier.

Variable NIM_ENABLED : bool.
Variable call_cosmos_nim :
  string → option (list string) → option (gmap string pyval) → option float → bool →
  outcome pyval.
Variable build_stub_response : string → string → bool → outcome pyval.
Variable validate_response : pyval → outcome (bool * option string).
Variable VerifyResponse : pyval → outcome pyval.

(** The teacher is asked when it is enabled and no rejection is forced,
    in the query or in the body. *)
Definition asked (req : request) (query_force_reject : bool) : bool :=
  NIM_ENABLED && negb (query_force_reject || force_reject req).

(** What the teacher, or the stub in its place, answers. *)
Definition answered (req : request) (query_force_reject : bool) : outcome pyval :=
  if asked req query_force_reject then
    call_cosmos_nim (proposed_intent req) (frames req) (landmark_summary_json req)
      (local_confidence req) false
  else
    build_stub_response (event_id req) (proposed_intent req)
      (query_force_reject || force_reject req).

(** The schema check passed and the response model was then refused
    with an exception that is not an HTTP exception. *)
Definition refused_after_valid (req : request) (query_force_reject : bool) : Prop :=
  ∃ response_json schema_error str,
    answered req query_force_reject = Returns response_json
    ∧ validate_response response_json = Returns (true, schema_error)
    ∧ VerifyResponse response_json = Raises (Exception str).

(** The error logged for an exception. *)
Definition logged_error (e : raised) : pyval :=
  match e with
  | HTTPException _ detail => detail
  | Exception str => PStr str
  end.

End VerifierTerms.

Section LogTerms.
Context `{Runtime}.
Import Trainer.

(** The keys of a log record that the distiller reads. *)
Definition distilled_keys : list string :=
  [ "response_json"; "features"; "proposed_intent"; "event_id" ]%string.

(** The gesture type taken for an event: that of the features when they
    name one, otherwise the proposed intent of the record. *)
Definition gesture_of (d f : gmap string pyval) : pyval :=
  py_or (default PNone (f !! "gestureType")) (default PNone (d !! "proposed_intent")).

(** A record that passes every filter of the distiller. *)
Definition usable (d f r : gmap string pyval) (conf reason intentional : pyval) : Prop :=
  d !! "features" = Some (PDict f) ∧ f ≠ ∅
  ∧ d !! "response_json" = Some (PDict r) ∧ r ≠ ∅
  ∧ truthy (default (PBool true) (r !! "schema_valid")) = true
  ∧ r !! "confidence" = Some conf ∧ lt_float conf 0.75%float = Ok false
  ∧ r !! "reason_category" = Some reason ∧ eq_str reason "unknown" = false
  ∧ r !! "intentional" = Some intentional ∧ intentional ≠ PNone
  ∧ gesture_of d f ≠ PNone.

(** The event made of a usable record. *)
Definition event_of (d f : gmap string pyval) (conf reason intentional : pyval) : event :=
  {| labeled := {| features := PDict f;
                   gesture_type := gesture_of d f;
                   label := if truthy intentional then 1 else 0 |};
     cosmos_conf := conf;
     reason := reason;
     event_id := default (PStr EmptyString) (d !! "event_id") |}.

(** What is kept of the lines of a file, in the order of the lines. *)
Definition kept {A : Type} (parse : pyval → result (option A)) (lines : list line)
  : list A :=
  omap (λ l, match l with
             | Json record =>
                 match parse record with
                 | Ok (Some e) => Some e
                 | _ => None
                 end
             | Blank | Malformed | Fails _ => None
             end) lines.

(** The lines that the loop passes over, and a file without them. *)
Definition skipped (l : line) : bool :=
  match l with
  | Blank | Malformed => true
  | Json _ | Fails _ => false
  end.

Definition without_skipped (lines : list line) : list line :=
  filter (λ l, skipped l = false) lines.

(** No line makes the reader raise: none fails to be read or parsed
    with an exception that is not caught, and the filter accepts or
    drops every JSON value without raising. *)
Definition readable {A : Type} (parse : pyval → result (option A)) (lines : list line)
  : Prop :=
  (∀ e, Fails e ∉ lines)
  ∧ ∀ record, Json record ∈ lines → is_ok (parse record) = true.

(** A record of the builder as the line written by [json.dumps] and
    read back by [json.loads]. *)
Definition to_json (rec : Builder.record) : pyval :=
  PDict (list_to_map
    [ ("clip_id", PStr (Builder.clip_id rec));
      ("features", Builder.features rec);
      ("gesture_type", Builder.gesture_type rec);
      ("label", PInt (Builder.label rec));
      ("user_label", PStr (Builder.user_label rec));
      ("cosmos_intent", Builder.cosmos_intent rec) ]%string).

(** The calibration file that the builder writes. *)
Definition calibration_lines (t : Builder.tally) : list line :=
  map (λ rec, Json (to_json rec)) (Builder.accepted t).

(** What the trainer makes of such a line. *)
Definition read_back (rec : Builder.record) : sample :=
  {| features := Builder.features rec;
     gesture_type :=
       py_or (match Builder.features rec with
              | PDict bag => default PNone (bag !! "gestureType")
              | _ => PNone
              end) (Builder.gesture_type rec);
     label := Builder.label rec |}.

(** What the builder guarantees of a record it accepts. *)
Definition well_shaped (rec : Builder.record) : Prop :=
  truthy (Builder.features rec) = true
  ∧ truthy (Builder.gesture_type rec) = true
  ∧ (Builder.label rec = 0 ∨ Builder.label rec = 1).

(** The features of a record are a feature bag. *)
Definition with_feature_bag (rec : Builder.record) : Prop :=
  ∃ bag, Builder.features rec = PDict bag ∧ feature_bag bag.

End LogTerms.

(** ** The selection of the trainer ([train_and_pick])

    The two fits are those of scikit-learn, variables of the section;
    the accuracy, the sort and the choice are the script's. *)

Module Selection.

Section Pick.
Context `{Runtime}.

Variable fit_logistic_regression : list (list float) → list Z → result estimator.
Variable fit_random_forest : list (list float) → list Z → result estimator.

(** An entry of [results]. *)
Record candidate : Type := {
  acc : float;
  name : string;
  clf : estimator;
}.

(** [results.sort(key=lambda t: t[0], reverse=True)] on two entries: the
    sort is stable, so the entries are exchanged only when the first is
    strictly below the second. *)
Definition sort_reverse (first second : candidate) : list candidate :=
  if PrimFloat.ltb (acc first) (acc second) then [second; first] else [first; second].

Definition train_and_pick (X_train : list (list float)) (y_train : list Z)
    (X_test : list (list float)) (y_test : list Z) : result candidate :=
  lr ← fit_logistic_regression X_train y_train;
  let first :=
    {| acc := Trainer.accuracy lr X_test y_test; name := "LogisticRegression"; clf := lr |} in
  rf ← fit_random_forest X_train y_train;
  let second :=
    {| acc := Trainer.accuracy rf X_test y_test; name := "RandomForest"; clf := rf |} in
  Py.first (sort_reverse first second).

End Pick.

End Selection.

(** ** The report of the builder (the end of [main]) *)

Module Report.
Import Builder.

(** [sum(1 for r in accepted if r["label"] == 1)] and its counterpart. *)
Definition tp_count (t : tally) : Z :=
  Z.of_nat (length (filter (λ r, label r = 1) (accepted t))).

Definition neg_count (t : tally) : Z :=
  Z.of_nat (length (filter (λ r, label r = 0) (accepted t))).

(** [len(accepted) < 10] *)
Definition warning (t : tally) : bool :=
  Z.of_nat (length (accepted t)) <? 10.

End Report.

Section RunTerms.
Context `{Runtime}.
Import Registry Trainer.

(** The same run with another calibration file. *)
Definition with_calibration (inp : inputs) (calib : option (list line)) : inputs :=
  {| verifier_logs := verifier_logs inp; calibration := calib; now := now inp |}.

(** The name that the next run gives to its versioned artifact. *)
Definition next_name (reg : registry) : string :=
  versioned_name ("v" +:+ pretty (next_version_num reg)).

(** Both artifacts were written and the training log was not. *)
Definition half_written (reg : registry) (o : outcome) : Prop :=
  ∃ b, model_dir (files o)
       = <[current_model := Bundle b]> (<[next_name reg := Bundle b]> (model_dir reg))
     ∧ training_log (files o) = training_log reg.

(** What the service holds once it has read an artifact at [mtime]. *)
Definition loaded_from (mtime : float) (data : artifact) (s : Service.server)
  : Service.server :=
  {| Service._model := old_model_of data;
     Service._model_mtime := Some mtime;
     Service._model_version :=
       Some match data with
            | Bundle b => default "unknown" (version b)
            | Bare _ => "v?"
            end;
     Service._total_preds := Service._total_preds s |}.

End RunTerms.

Section EvaluationTerms.

Import Evaluation.



(** A number as [:.2f] takes it: a float, a boolean, or an integer that
    a float can hold. *)
Definition formattable (v : pyval) : bool :=
  match v with
  | PFloat _ | PBool _ => true
  | PInt z => is_ok (int_to_float z)
  | PNone | PStr _ | PList _ | PDict _ => false
  end.

(** A reply that the loop can report: a failed call, or an object that
    has the key [error] or whose [confidence], when present, is a
    number that can be formatted. *)
Definition reportable (rep : reply) : bool :=
  match rep with
  | Body (PDict d) =>
      bool_decide (is_Some (d !! "error"))
      || match d !! "confidence" with
         | Some v => formattable v
         | None => true
         end
  | Body _ | Refused _ => false
  | HTTPError _ _ | Failure _ => true
  end.

(** A call that was made and did not yield a body. *)
Definition failed (rep : reply) : bool :=
  match rep with
  | Body _ | Refused _ => false
  | HTTPError _ _ | Failure _ => true
  end.




End EvaluationTerms.

Section MetricsTerms.
Import Harness.

(** How many results of a list satisfy a test. *)
Definition count_if (P : eval_result → bool) (results : list eval_result) : Z :=
  Z.of_nat (length (filter (λ r, P r = true) results)).

(** The result has no error flag and its human label is [row]. *)
Definition labelled (row : string) (r : eval_result) : bool :=
  negb (cosmos_error r) && String.eqb (user_label r) row.

(** The result has no error flag and the teacher asserted [g]. *)
Definition asserted (g : string) (r : eval_result) : bool :=
  negb (cosmos_error r) && Metrics.cosmos_fired g r.

(** The teacher's intentional flag is a JSON boolean or null. *)
Definition boolean_verdict (r : eval_result) : Prop :=
  cosmos_intentional r = PNone ∨ ∃ b, cosmos_intentional r = PBool b.

End MetricsTerms.

(** * More concrete inputs *)

Module Cases.

#[local] Existing Instance Demo.runtime.



(** A true-positive clip on which the detector found nothing. *)
Definition undetected : Evaluation.recording :=
  {| Evaluation.clip :=
       {| Clip.clip_id := "clip_9";
          Clip.label := PStr "TP_OPEN_MENU";
          Clip.gesture_detected := PNone;
          Clip.features := PNone |};
     Evaluation.category := PStr "demo";
     Evaluation.confidence := PNone;
     Evaluation.frames := PList [];
     Evaluation.metadata := None |}.

Definition undetected_payload : Evaluation.payload :=
  {| Evaluation.event_id := "clip_9";
     Evaluation.proposed_intent := PStr "OPEN_MENU";
     Evaluation.local_confidence := PFloat 0.7%float;
     Evaluation.payload_frames := None;
     Evaluation.landmark_summary_json := None |}.


Definition garbled : Evaluation.reply := Evaluation.Body (PList []).

Definition timed_out : Evaluation.reply := Evaluation.Failure "timed out".

(** A [time.sleep] that refuses negative durations, the pause of one
    second that is the default of [--sleep], and a negative one. *)
Definition time_sleep (secs : float) : result unit :=
  if PrimFloat.ltb secs 0%float then Raise ValueError else Ok ().

Definition pause : float := 1%float.


(** The build of the scenario. *)
Definition clips_by_id : gmap string Clip.clip :=
  Builder.load_clips_by_id Scenario.clip_files None.

Definition tally : Builder.tally :=
  match Builder.loop clips_by_id Builder.start Scenario.results with
  | Ok t => t
  | Raise _ => Builder.start
  end.


(** The run of the scenario without its calibration file. *)
Definition trained_without_calibration : Trainer.trained :=
  match Trainer.train (with_calibration (Scenario.run_inputs 25) None) with
  | Ok t => t
  | Raise _ => Scenario.untrained
  end.

(** Two fits that are equally good on the test row. *)
Definition fit_logistic_regression (X : list (list float)) (y : list Z)
  : result estimator := Ok 1%nat.

Definition fit_random_forest (X : list (list float)) (y : list Z)
  : result estimator := Ok 2%nat.

Definition X_test : list (list float) := [[0.5%float]].
Definition y_test : list Z := [1].

(** A dry run on a linux host. *)
Definition dry_request : Executor.request :=
  {| Executor.intent := "OPEN_MENU";
     Executor.event_id := None;
     Executor.dry_run := true;
     Executor.source := "web";
     Executor.features := None;
     Executor.student_prediction := None |}.

Definition actions : Executor.config :=
  Executor.Parsed (PDict {[ "linux"%string := PDict {[ "OPEN_MENU"%string := PStr "super" ]} ]}).

Definition execute_on_linux : Executor.request → Executor.effects :=
  Executor.execute "linux" "executor/actions.yaml" actions (λ _, None)
    (λ _, Executor.Returns EmptyString) "6f1c" 0%float 0%float.

End Cases.

(** * Properties *)

(** ** Feature Codec *)

Section CodecFacts.
Context `{Runtime}.
Import Codec.

Lemma traverse_Ok {A B : Type} (f : A → result B) (g : A → B) (l : list A) :
  (∀ a, a ∈ l → f a = Ok (g a)) → traverse f l = Ok (map g l).
Proof.
  induction l as [|a l IH]; intros Hf; [reflexivity|].
  cbn [traverse map]. rewrite (Hf a) by constructor.
  cbn. rewrite IH by (intros b Hb; apply Hf; by constructor). reflexivity.
Qed.

Lemma traverse_length {A B : Type} (f : A → result B) (l : list A) (bs : list B) :
  traverse f l = Ok bs → length bs = length l.
Proof.
  revert bs. induction l as [|a l IH]; intros bs; cbn [traverse].
  - by intros [= <-].
  - destruct (f a) as [b|]; [|discriminate]. cbn.
    destruct (traverse f l) as [bs'|]; [|discriminate]. cbn.
    intros [= <-]. cbn. by rewrite (IH bs').
Qed.

Lemma features_to_row_length (features gesture_type : pyval) (row : list float) :
  features_to_row features gesture_type = Ok row → length row = 16%nat.
Proof.
  unfold features_to_row. destruct (numeric features) as [num|] eqn:Hnum;
    [|discriminate].
  cbn. intros [= <-]. apply traverse_length in Hnum.
  rewrite length_app, Hnum. reflexivity.
Qed.

Lemma is_number_to_float (v : pyval) :
  is_number v = true → ∃ x, to_float v = Ok x.
Proof.
  destruct v as [|b|z|x|s|l|d]; cbn; try discriminate; intros Hv; eauto.
  destruct (int_to_float z); [eauto|discriminate].
Qed.

Lemma numeric_feature_bag (bag : gmap string pyval) :
  feature_bag bag → numeric (PDict bag) = Ok (map (column bag) FEATURE_NAMES).
Proof.
  intros Hbag. unfold numeric. apply traverse_Ok. intros n Hn.
  cbn. unfold column. destruct (bag !! n) as [v|] eqn:Hv; cbn; [|reflexivity].
  destruct (is_number_to_float v (Hbag n v Hn Hv)) as [x ->]. reflexivity.
Qed.

Lemma serving_lists :
  Serving.FEATURE_NAMES = FEATURE_NAMES ∧ Serving.GESTURE_TYPES = GESTURE_TYPES.
Proof. split; reflexivity. Qed.

Lemma encoders_agree (features gesture_type : pyval) :
  _features_to_vector features gesture_type
  = (row ← features_to_row features gesture_type; Ok [map float32 row]).
Proof.
  unfold _features_to_vector, features_to_row, numeric, onehot.
  destruct serving_lists as [-> ->].
  destruct (traverse _ FEATURE_NAMES); reflexivity.
Qed.

Lemma onehot_unknown (gesture_type : pyval) :
  (∀ g, g ∈ GESTURE_TYPES → gesture_type ≠ PStr g) →
  onehot gesture_type = [0%float; 0%float; 0%float; 0%float].
Proof.
  intros Hg. unfold onehot, GESTURE_TYPES in *. cbn [fmap list_fmap].
  assert (∀ g, g ∈ GESTURE_TYPES → eq_str gesture_type g = false) as E.
  { intros g Hin. destruct gesture_type as [| | | |t| |]; try reflexivity.
    cbn. apply String.eqb_neq. intros ->. by apply (Hg g). }
  unfold GESTURE_TYPES in E.
  rewrite !E by (rewrite !elem_of_cons; tauto). reflexivity.
Qed.

Lemma traverse_is_ok {A B : Type} (f : A → result B) (l : list A) :
  is_ok (traverse f l) = true ↔ ∀ a, a ∈ l → is_ok (f a) = true.
Proof.
  induction l as [|a l IH]; cbn [traverse].
  - split; [|done]. intros _ a Ha. by apply elem_of_nil in Ha.
  - destruct (f a) as [b|e] eqn:Hfa; cbn.
    + destruct (traverse f l) as [bs|e]; cbn in *.
      * split; [|done]. intros _ a' Ha.
        apply elem_of_cons in Ha as [->|Ha]; [by rewrite Hfa|by apply IH].
      * split; [discriminate|]. intros Hall. apply IH. intros a' Ha.
        apply Hall. by right.
    + split; [discriminate|]. intros Hall.
      assert (a ∈ a :: l) as Ha by constructor.
      specialize (Hall a Ha). by rewrite Hfa in Hall.
Qed.

Lemma features_to_row_convertible (bag : gmap string pyval) (gesture_type : pyval) :
  is_ok (features_to_row (PDict bag) gesture_type) = true ↔ convertible bag.
Proof.
  unfold features_to_row, convertible.
  assert (is_ok (numeric (PDict bag) ≫= λ num, Ok (num ++ onehot gesture_type))
          = is_ok (numeric (PDict bag))) as -> by (by destruct (numeric (PDict bag))).
  unfold numeric. rewrite traverse_is_ok. cbn [get mbind result_bind].
  split.
  - intros Hall n v Hn Hv. specialize (Hall n Hn). by rewrite Hv in Hall.
  - intros Hall n Hn. destruct (bag !! n) as [v|] eqn:Hv; [by apply (Hall n v)|done].
Qed.

Lemma feature_bag_convertible (bag : gmap string pyval) :
  feature_bag bag → convertible bag.
Proof.
  intros Hbag n v Hn Hv.
  by destruct (is_number_to_float v (Hbag n v Hn Hv)) as [x ->].
Qed.

Lemma numeric_convertible (bag : gmap string pyval) :
  convertible bag → numeric (PDict bag) = Ok (map (column bag) FEATURE_NAMES).
Proof.
  intros Hbag. unfold numeric. apply traverse_Ok. intros n Hn.
  cbn. unfold column. destruct (bag !! n) as [v|] eqn:Hv; cbn; [|reflexivity].
  specialize (Hbag n v Hn Hv). by destruct (to_float v).
Qed.

Lemma onehot_lookup (gesture_type : pyval) (i : nat) (g : string) :
  GESTURE_TYPES !! i = Some g →
  onehot gesture_type !! i = Some (if eq_str gesture_type g then 1%float else 0%float).
Proof. intros Hi. unfold onehot. by rewrite list_lookup_fmap, Hi. Qed.

Lemma GESTURE_TYPES_NoDup : NoDup GESTURE_TYPES.
Proof. apply (bool_decide_unpack _). vm_compute. reflexivity. Qed.

Lemma int32_small (z : Z) : - 2 ^ 31 ≤ z < 2 ^ 31 → int32 z = Ok z.
Proof.
  intros [Hlo Hhi]. unfold int32.
  apply Z.leb_le in Hlo. apply Z.ltb_lt in Hhi. by rewrite Hlo, Hhi.
Qed.

Lemma traverse_int32 (l : list Z) :
  Forall (λ z, - 2 ^ 31 ≤ z < 2 ^ 31) l → traverse int32 l = Ok l.
Proof.
  induction 1 as [|z l Hz _ IH]; [reflexivity|].
  cbn [traverse]. rewrite (int32_small z Hz), IH. reflexivity.
Qed.

(** C4, amended. The codec returns exactly on the feature bags whose
    named features, where present, hold values that [float] accepts -
    in particular on the bags of the data model, which hold numbers;
    the gesture type may be any value. On such a bag the training-side
    encoder returns a row of length 16: the twelve named features in
    order, [0.0] where the bag lacks the name; then four one-hot slots,
    of which the slot of the gesture type is [1.0] and the three others
    [0.0] when the type is one of the four known ones, and which are all
    [0.0] otherwise. The serving side has lists of its own, equal to
    those of the trainer, and its encoder and the matrix built for
    training are this same row, cast to single precision. *)
Theorem feature_codec_total (bag : gmap string pyval) (gesture_type : pyval) :
  (is_ok (features_to_row (PDict bag) gesture_type) = true ↔ convertible bag)
  ∧ (is_ok (_features_to_vector (PDict bag) gesture_type) = true ↔ convertible bag)
  ∧ (feature_bag bag → convertible bag)
  ∧ (convertible bag →
     ∃ row,
       features_to_row (PDict bag) gesture_type = Ok row
       ∧ length row = 16%nat
       ∧ take 12 row = map (column bag) FEATURE_NAMES
       ∧ (∀ i n, FEATURE_NAMES !! i = Some n → bag !! n = None →
            row !! i = Some 0%float)
       ∧ (∀ i n x, FEATURE_NAMES !! i = Some n → bag !! n = Some (PFloat x) →
            row !! i = Some x)
       ∧ drop 12 row = onehot gesture_type
       ∧ (∀ i g, GESTURE_TYPES !! i = Some g → gesture_type = PStr g →
            row !! (12 + i)%nat = Some 1%float
            ∧ ∀ j, (j < 4)%nat → j ≠ i → row !! (12 + j)%nat = Some 0%float)
       ∧ ((∀ g, g ∈ GESTURE_TYPES → gesture_type ≠ PStr g) →
            drop 12 row = [0%float; 0%float; 0%float; 0%float])
       ∧ _features_to_vector (PDict bag) gesture_type = Ok [map float32 row]
       ∧ Trainer.build_matrix
           [ {| Trainer.features := PDict bag;
                Trainer.gesture_type := gesture_type;
                Trainer.label := 1 |} ]
         = Ok ([map float32 row], [1]))
  ∧ Serving.FEATURE_NAMES = FEATURE_NAMES
  ∧ Serving.GESTURE_TYPES = GESTURE_TYPES
  ∧ (∀ features g,
       _features_to_vector features g
       = (r ← features_to_row features g; Ok [map float32 r]))
  ∧ (∀ features g r, features_to_row features g = Ok r → length r = 16%nat).
Proof.
  split; [apply features_to_row_convertible|].
  split.
  { rewrite encoders_agree, <- (features_to_row_convertible bag gesture_type).
    by destruct (features_to_row (PDict bag) gesture_type). }
  split; [apply feature_bag_convertible|].
  split; [|split; [reflexivity|split; [reflexivity|
    split; [apply encoders_agree|apply features_to_row_length]]]].
  intros Hbag. pose proof (numeric_convertible bag Hbag) as Hnum.
  exists (map (column bag) FEATURE_NAMES ++ onehot gesture_type).
  assert (features_to_row (PDict bag) gesture_type
          = Ok (map (column bag) FEATURE_NAMES ++ onehot gesture_type)) as Hrow.
  { unfold features_to_row. rewrite Hnum. reflexivity. }
  assert (∀ i n, FEATURE_NAMES !! i = Some n →
            (map (column bag) FEATURE_NAMES ++ onehot gesture_type) !! i
            = Some (column bag n)) as Hcol.
  { intros i n Hi. rewrite lookup_app_l.
    - change (map (column bag) FEATURE_NAMES) with (column bag <$> FEATURE_NAMES).
      rewrite list_lookup_fmap, Hi. reflexivity.
    - rewrite length_map. by apply lookup_lt_Some in Hi. }
  assert (∀ i, (map (column bag) FEATURE_NAMES ++ onehot gesture_type) !! (12 + i)%nat
               = onehot gesture_type !! i) as Hslot.
  { intros i. rewrite lookup_app_r by (rewrite length_map; cbn; lia).
    rewrite length_map. f_equal. cbn [length FEATURE_NAMES]. lia. }
  split; [exact Hrow|]. split; [reflexivity|]. split; [reflexivity|].
  split.
  { intros i n Hi Hn. rewrite (Hcol i n Hi). unfold column. rewrite Hn. reflexivity. }
  split.
  { intros i n x Hi Hn. rewrite (Hcol i n Hi). unfold column. rewrite Hn. reflexivity. }
  split; [reflexivity|]. split.
  { intros i g Hi ->. split.
    - rewrite Hslot, (onehot_lookup _ i g Hi). cbn. by rewrite String.eqb_refl.
    - intros j Hj Hne. rewrite Hslot.
      destruct (GESTURE_TYPES !! j) as [g'|] eqn:Hg'.
      + rewrite (onehot_lookup _ j g' Hg'). cbn.
        destruct (String.eqb g g') eqn:E; [|reflexivity].
        apply String.eqb_eq in E. subst g'.
        destruct Hne. exact (NoDup_lookup _ _ _ _ GESTURE_TYPES_NoDup Hg' Hi).
      + apply lookup_ge_None in Hg'. cbn in Hg'. lia. }
  split.
  { intros Hg. change (drop 12 _) with (onehot gesture_type).
    by apply onehot_unknown. }
  split.
  { rewrite encoders_agree, Hrow. reflexivity. }
  unfold Trainer.build_matrix.
  cbn [traverse map Trainer.features Trainer.gesture_type Trainer.label].
  rewrite Hrow. cbn [mbind result_bind]. rewrite int32_small by lia. reflexivity.
Qed.

(** Outside that domain the encoders raise, whatever the gesture type:
    [float] rejects a null feature. *)
Remark features_to_row_null (gesture_type : pyval) :
  features_to_row (PDict null_bag) gesture_type = Raise TypeError
  ∧ _features_to_vector (PDict null_bag) gesture_type = Raise TypeError.
Proof. split; reflexivity. Qed.

End CodecFacts.

(** ** Calibration Builder *)

Section BuilderFacts.
Import Builder.

Lemma TP_LABELS_cases (l : string) :
  l ∈ TP_LABELS →
  l = "TP_OPEN_MENU"%string ∨ l = "TP_CLOSE_MENU"%string
  ∨ l = "TP_SWITCH_RIGHT"%string ∨ l = "TP_SWITCH_LEFT"%string.
Proof.
  unfold TP_LABELS. rewrite !elem_of_union, !elem_of_singleton. tauto.
Qed.

Lemma is_True_spec (v : pyval) : is_True v = true ↔ v = PBool true.
Proof.
  split; [|intros ->; reflexivity].
  destruct v as [|[]| | | | |]; cbn; congruence.
Qed.

Lemma is_False_spec (v : pyval) : is_False v = true ↔ v = PBool false.
Proof.
  split; [|intros ->; reflexivity].
  destruct v as [|[]| | | | |]; cbn; congruence.
Qed.

Lemma eq_str_spec (v : pyval) (s : string) : eq_str v s = true ↔ v = PStr s.
Proof.
  destruct v as [| | | |t| |]; cbn; try (split; congruence).
  rewrite String.eqb_eq. split; congruence.
Qed.

(** What the agreement test returns, by cases on the label. *)
Lemma agreement_tp (clips_by_id : gmap string Clip.clip) (r : Harness.eval_result) :
  Harness.user_label r ∈ TP_LABELS →
  ∃ intent, LABEL_TO_INTENT !! Harness.user_label r = Some intent
    ∧ String.prefix "NEG_" (Harness.user_label r) = false
    ∧ agreement clips_by_id r
      = Ok (if is_True (Harness.cosmos_intentional r)
               && eq_str (Harness.cosmos_final_intent r) intent
            then Some (1, PStr intent) else None).
Proof.
  intros Htp. unfold agreement. rewrite (bool_decide_eq_true_2 _ Htp).
  destruct (TP_LABELS_cases _ Htp) as [E|[E|[E|E]]]; rewrite E;
    eexists; (split; [vm_compute; reflexivity|]); (split; [reflexivity|]);
    match goal with |- context [LABEL_TO_INTENT !! ?l] =>
      let v := eval vm_compute in (LABEL_TO_INTENT !! l) in
      change (LABEL_TO_INTENT !! l) with v
    end; cbv beta iota;
    destruct (is_True _ && eq_str _ _); reflexivity.
Qed.

Lemma agreement_not_tp (clips_by_id : gmap string Clip.clip) (r : Harness.eval_result) :
  Harness.user_label r ∉ TP_LABELS →
  agreement clips_by_id r
  = Ok (if String.prefix "NEG_" (Harness.user_label r)
           && is_False (Harness.cosmos_intentional r)
        then Some (0, py_or
                        match clips_by_id !! Harness.clip_id r with
                        | Some clip => Clip.gesture_detected clip
                        | None => PNone
                        end (PStr "SWITCH_RIGHT"))
        else None).
Proof.
  intros Htp. unfold agreement. rewrite (bool_decide_eq_false_2 _ Htp).
  destruct (String.prefix _ _); [|reflexivity].
  destruct (is_False _); reflexivity.
Qed.

Lemma step_accepted (clips_by_id : gmap string Clip.clip) (t : tally)
    (r : Harness.eval_result) :
  ∃ t', step clips_by_id t r = Ok t'
    ∧ accepted t' = accepted t ++ option_list (emitted clips_by_id r)
    ∧ counted t' = counted t + 1.
Proof.
  unfold emitted, step.
  destruct (Harness.cosmos_error r).
  { eexists; split; [reflexivity|]. cbn. rewrite app_nil_r. unfold counted; cbn.
    split; [reflexivity|lia]. }
  assert (∃ a, agreement clips_by_id r = Ok a) as [a ->].
  { destruct (decide (Harness.user_label r ∈ TP_LABELS)) as [Htp|Htp].
    - destruct (agreement_tp clips_by_id r Htp) as (i & _ & _ & ->). eauto.
    - rewrite (agreement_not_tp clips_by_id r Htp). eauto. }
  cbn. destruct a as [[label_int gesture_type]|].
  - destruct (clips_by_id !! Harness.clip_id r) as [clip|].
    + destruct (truthy (Clip.features clip)); cbn.
      * eexists; split; [reflexivity|]. cbn. split; [reflexivity|].
        unfold counted; cbn. rewrite length_app. cbn. lia.
      * eexists; split; [reflexivity|]. cbn. rewrite app_nil_r.
        split; [reflexivity|]. unfold counted; cbn. lia.
    + eexists; split; [reflexivity|]. cbn. rewrite app_nil_r.
      split; [reflexivity|]. unfold counted; cbn. lia.
  - eexists; split; [reflexivity|]. cbn. rewrite app_nil_r.
    split; [reflexivity|]. unfold counted; cbn. lia.
Qed.


End BuilderFacts.

Section BuilderClaims.
Import Builder.

Lemma agrees_positive_spec (r : Harness.eval_result) :
  agrees_positive r = true ↔ positive_agreement r.
Proof.
  unfold agrees_positive, positive_agreement.
  rewrite !andb_true_iff, bool_decide_eq_true, is_True_spec.
  destruct (LABEL_TO_INTENT !! Harness.user_label r) as [intent|].
  - rewrite eq_str_spec. split.
    + intros [[? ?] ?]. eauto.
    + intros (? & ? & i & [= <-] & ?). auto.
  - split; [intros [_ ?]; discriminate|].
    intros (_ & _ & i & ? & _). discriminate.
Qed.

Lemma agrees_negative_spec (r : Harness.eval_result) :
  agrees_negative r = true ↔ negative_agreement r.
Proof.
  unfold agrees_negative, negative_agreement.
  by rewrite andb_true_iff, is_False_spec.
Qed.

Lemma agreement_exclusive (r : Harness.eval_result) :
  agrees_positive r = true → agrees_negative r = false.
Proof.
  unfold agrees_positive, agrees_negative.
  rewrite !andb_true_iff, bool_decide_eq_true. intros [[Htp _] _].
  destruct (TP_LABELS_cases _ Htp) as [E|[E|[E|E]]]; rewrite E; reflexivity.
Qed.

Lemma emitted_label (clips_by_id : gmap string Clip.clip) (r : Harness.eval_result) :
  Harness.cosmos_error r = false →
  label <$> emitted clips_by_id r
  = if has_feature_bag clips_by_id r then
      if agrees_positive r then Some 1
      else if agrees_negative r then Some 0 else None
    else None.
Proof.
  intros Herr. unfold emitted, step, has_feature_bag. rewrite Herr.
  destruct (decide (Harness.user_label r ∈ TP_LABELS)) as [Htp|Htp].
  - destruct (agreement_tp clips_by_id r Htp) as (intent & Hmap & Hneg & ->).
    unfold agrees_positive, agrees_negative.
    rewrite (bool_decide_eq_true_2 _ Htp), Hmap, Hneg. cbn [andb].
    destruct (is_True _); cbn [andb];
      [destruct (eq_str _ _)|]; cbn;
      destruct (clips_by_id !! Harness.clip_id r) as [clip|]; try reflexivity;
      destruct (truthy (Clip.features clip)); reflexivity.
  - rewrite (agreement_not_tp clips_by_id r Htp).
    unfold agrees_positive, agrees_negative.
    rewrite (bool_decide_eq_false_2 _ Htp). cbn [andb].
    destruct (String.prefix _ _); cbn [andb];
      [destruct (is_False _)|]; cbn;
      destruct (clips_by_id !! Harness.clip_id r) as [clip|]; try reflexivity;
      destruct (truthy (Clip.features clip)); reflexivity.
Qed.

Lemma fmap_label_Some (o : option record) (l : Z) :
  (∃ rec, o = Some rec ∧ label rec = l) ↔ label <$> o = Some l.
Proof.
  destruct o as [rec|]; cbn.
  - split; [intros (? & [= <-] & <-); reflexivity|intros [= <-]; eauto].
  - split; [intros (? & ? & _); discriminate|discriminate].
Qed.

(** C2. For a result without the teacher-error flag, a record with label
    1 is emitted exactly when the human label is one of the four TP
    labels, the teacher said intentional and its final intent is the
    intent mapped to the label; a record with label 0 exactly when the
    label starts with NEG_ and the teacher said not intentional; in both
    cases only if the clip has a feature bag. Nothing else is emitted. *)
Theorem calibration_acceptance_rule (clips_by_id : gmap string Clip.clip)
    (r : Harness.eval_result) :
  Harness.cosmos_error r = false →
  ((∃ rec, emitted clips_by_id r = Some rec ∧ label rec = 1)
     ↔ positive_agreement r ∧ has_feature_bag clips_by_id r = true)
  ∧ ((∃ rec, emitted clips_by_id r = Some rec ∧ label rec = 0)
     ↔ negative_agreement r ∧ has_feature_bag clips_by_id r = true)
  ∧ (∀ rec, emitted clips_by_id r = Some rec → label rec = 1 ∨ label rec = 0)
  ∧ (¬ positive_agreement r → ¬ negative_agreement r →
       emitted clips_by_id r = None)
  ∧ (has_feature_bag clips_by_id r = false → emitted clips_by_id r = None)
  ∧ (∀ t, ∃ t', step clips_by_id t r = Ok t'
       ∧ accepted t' = accepted t ++ option_list (emitted clips_by_id r)).
Proof.
  intros Herr. pose proof (emitted_label clips_by_id r Herr) as Hl.
  pose proof (agreement_exclusive r) as Hex.
  rewrite !fmap_label_Some, <-agrees_positive_spec, <-agrees_negative_spec.
  split; [|split; [|split; [|split; [|split]]]].
  - rewrite Hl. destruct (has_feature_bag _ _), (agrees_positive r),
      (agrees_negative r); intuition congruence.
  - rewrite Hl. destruct (has_feature_bag _ _), (agrees_positive r),
      (agrees_negative r); intuition congruence.
  - intros rec Hrec. rewrite Hrec in Hl. cbn in Hl.
    destruct (has_feature_bag _ _), (agrees_positive r), (agrees_negative r);
      simplify_eq; auto.
  - intros Hp Hn. destruct (emitted clips_by_id r); [|reflexivity].
    destruct (has_feature_bag _ _), (agrees_positive r), (agrees_negative r);
      cbn in Hl; congruence.
  - intros Hb. rewrite Hb in Hl. by destruct (emitted clips_by_id r).
  - intros t. destruct (step_accepted clips_by_id t r) as (t' & ? & ? & _). eauto.
Qed.

End BuilderClaims.

Section CounterClaims.
Import Builder.



End CounterClaims.

(** ** Loading of clips *)

Section ClipFacts.
Import Clip.

Lemma load_clips_fold (files : list clip_file) (clips : list clip) :
  fold_left (λ clips data,
      match data with
      | ClipList l => clips ++ l
      | OneClip c => clips ++ [c]
      end) files clips
  = clips ++ concat (map contents files).
Proof.
  revert clips. induction files as [|data files IH]; intros clips; cbn.
  - by rewrite app_nil_r.
  - rewrite IH. destruct data; cbn; by rewrite <-app_assoc.
Qed.

Lemma put_fold_lookup (l : list clip) (m : gmap string clip) (id : string) :
  fold_left (λ clips c, <[clip_id c := c]> clips) l m !! id
  = match latest id l with
    | Some c => Some c
    | None => m !! id
    end.
Proof.
  revert m. induction l as [|c l IH] using rev_ind; intros m; [reflexivity|].
  rewrite fold_left_app. cbn. unfold latest in *. rewrite filter_app.
  destruct (decide (clip_id c = id)) as [E|E].
  - rewrite filter_cons_True by done. rewrite filter_nil, last_snoc, <-E.
    by rewrite lookup_insert_eq.
  - rewrite filter_cons_False by done. rewrite filter_nil, app_nil_r.
    rewrite lookup_insert_ne by done. apply IH.
Qed.

Lemma latest_app (id : string) (l1 l2 : list clip) :
  latest id (l1 ++ l2)
  = match latest id l2 with
    | Some c => Some c
    | None => latest id l1
    end.
Proof.
  unfold latest. rewrite filter_app.
  destruct (filter _ l2) as [|c l] using rev_ind.
  - by rewrite app_nil_r.
  - by rewrite app_assoc, !last_snoc.
Qed.

Lemma index_fold_lookup (view : clip_file → list clip) (files : list clip_file)
    (m : gmap string clip) (id : string) :
  fold_left (λ clips data,
      fold_left (λ clips c, <[clip_id c := c]> clips) (view data) clips) files m !! id
  = match latest id (concat (map view files)) with
    | Some c => Some c
    | None => m !! id
    end.
Proof.
  revert m. induction files as [|data files IH]; intros m; [reflexivity|].
  cbn [fold_left map concat]. rewrite IH, latest_app, put_fold_lookup.
  by destruct (latest id (concat _)).
Qed.

Lemma load_clips_by_id_lookup (clip_files : list clip_file)
    (sessions : option (list clip_file)) (id : string) :
  Builder.load_clips_by_id clip_files sessions !! id
  = latest id (concat (map contents clip_files)
               ++ concat (map session_contents (default [] sessions))).
Proof.
  unfold Builder.load_clips_by_id.
  assert (∀ m : gmap string clip,
    fold_left (λ clips data,
      match data with
      | ClipList l => fold_left (λ clips c, <[clip_id c := c]> clips) l clips
      | OneClip c => <[clip_id c := c]> clips
      end) clip_files m
    = fold_left (λ clips data,
        fold_left (λ clips c, <[clip_id c := c]> clips) (contents data) clips)
        clip_files m) as E1.
  { induction clip_files as [|d fs IH]; intros m; [reflexivity|].
    cbn [fold_left]. rewrite IH. by destruct d. }
  assert (∀ (fs : list clip_file) (m : gmap string clip),
    fold_left (λ clips data,
      match data with
      | ClipList l => fold_left (λ clips c, <[clip_id c := c]> clips) l clips
      | OneClip _ => clips
      end) fs m
    = fold_left (λ clips data,
        fold_left (λ clips c, <[clip_id c := c]> clips) (session_contents data) clips)
        fs m) as E2.
  { induction fs as [|d fs IH]; intros m; [reflexivity|].
    cbn [fold_left]. rewrite IH. by destruct d. }
  rewrite latest_app. destruct sessions as [files|]; simpl default.
  - rewrite E2, index_fold_lookup, E1, index_fold_lookup, lookup_empty.
    by destruct (latest id (concat (map session_contents files))),
      (latest id (concat (map contents clip_files))).
  - rewrite E1, index_fold_lookup, lookup_empty. cbn.
    by destruct (latest id (concat (map contents clip_files))).
Qed.

End ClipFacts.

Section ClipClaims.
Import Clip.

(** C8, as stated, fails: a clip file and a session bundle that both
    hold clip_001 leave two entries with that identifier in the list of
    the harness, and both are sent to the teacher; the earlier one is not
    overridden. *)
Lemma harness_keeps_duplicates :
  Harness.load_clips None [OneClip clip_001_recorded]
    (Some [ClipList [clip_001_in_session]])
  = [clip_001_recorded; clip_001_in_session]
  ∧ Harness.labeled
      (Harness.load_clips None [OneClip clip_001_recorded]
         (Some [ClipList [clip_001_in_session]]))
    = [clip_001_recorded; clip_001_in_session]
  ∧ ¬ merged_by_identity.
Proof.
  split; [reflexivity|]. split; [reflexivity|]. intros Hmerged.
  specialize (Hmerged [OneClip clip_001_recorded]
                (Some [ClipList [clip_001_in_session]])).
  cbn in Hmerged. apply NoDup_cons in Hmerged as [Hnotin _].
  apply Hnotin. by left.
Qed.

(** C8, amended. The harness concatenates: without an explicit path its
    working set is every clip of the clip files followed by every clip
    of the session bundles, in load order, each entry kept; with an
    explicit path it is the content of that file. The merge by clip
    identity, later sources overriding earlier ones, is what the clip
    index of the Calibration Builder does. *)
Theorem harness_concatenates_builder_merges (clip_files : list clip_file)
    (sessions : option (list clip_file)) :
  Harness.load_clips None clip_files sessions
  = concat (map contents clip_files) ++ concat (map contents (default [] sessions))
  ∧ (∀ data, Harness.load_clips (Some data) clip_files sessions = contents data)
  ∧ (∀ id, Builder.load_clips_by_id clip_files sessions !! id
           = latest id (concat (map contents clip_files)
                        ++ concat (map session_contents (default [] sessions)))).
Proof.
  split; [|split].
  - unfold Harness.load_clips. destruct sessions as [files|]; simpl default.
    + rewrite !load_clips_fold. reflexivity.
    + rewrite load_clips_fold. cbn. by rewrite app_nil_r.
  - by intros [l|c].
  - apply load_clips_by_id_lookup.
Qed.

End ClipClaims.

(** ** Label Distiller *)

Section DistillerClaims.
Import Trainer.

(** C3, as stated, fails: a record whose teacher verdict is intentional
    with final intent CLOSE_MENU, logged for an OPEN_MENU event, is
    accepted with label 1. *)
Lemma distiller_ignores_final_intent :
  (∃ e, labeled_event mismatched_record = Ok (Some e)
     ∧ label e = 1
     ∧ gesture_type e = PStr "OPEN_MENU"
     ∧ teacher_field mismatched_record "final_intent" = PStr "CLOSE_MENU")
  ∧ ¬ label_follows_matching_intent.
Proof.
  assert (∃ e, labeled_event mismatched_record = Ok (Some e)
     ∧ label e = 1
     ∧ gesture_type e = PStr "OPEN_MENU"
     ∧ teacher_field mismatched_record "final_intent" = PStr "CLOSE_MENU")
    as Hacc.
  { eexists. split; [vm_compute; reflexivity|]. repeat split. }
  split; [exact Hacc|]. intros Hclaim.
  destruct Hacc as (e & He & Hl & Hg & Hf).
  destruct (Hclaim _ _ He) as [Hto _]. destruct (Hto Hl) as [_ Hmatch].
  rewrite Hf, Hg in Hmatch. discriminate.
Qed.

Lemma get_teacher_field (record resp0 : pyval) (k : string) (dflt v : pyval) :
  get record "response_json" PNone = Ok resp0 →
  truthy (py_or resp0 (PDict ∅)) = true →
  get (py_or resp0 (PDict ∅)) k dflt = Ok v →
  v = dflt ∧ teacher_field record k = PNone ∨ v = teacher_field record k.
Proof.
  destruct record as [| | | | | |d]; try discriminate. cbn.
  intros [= <-]. unfold py_or.
  destruct (truthy (default PNone (d !! "response_json"))) eqn:Ht;
    [|cbn; discriminate].
  intros _. destruct (d !! "response_json") as [[| | | | | |resp]|];
    try discriminate.
  cbn. intros [= <-]. destruct (resp !! k); cbn; auto.
Qed.

Lemma labeled_event_final_intent (d resp : gmap string pyval) (v : pyval) :
  d !! "response_json" = Some (PDict resp) →
  truthy (PDict resp) = true →
  labeled_event
    (PDict (<["response_json" := PDict (<["final_intent" := v]> resp)]> d))
  = labeled_event (PDict d).
Proof.
  intros Hd Hresp. unfold labeled_event. cbn [get].
  assert (truthy (PDict (<["final_intent" := v]> resp)) = true) as Hins.
  { cbn. apply negb_true_iff, Nat.eqb_neq. intros E.
    apply map_size_empty_iff in E. by apply insert_non_empty in E. }
  rewrite lookup_insert_eq, Hd. unfold py_or.
  cbn [mbind result_bind id default from_option].
  rewrite Hresp, Hins. cbn iota. rewrite Hresp, Hins.
  cbn [get]. rewrite !lookup_insert_ne by done. reflexivity.
Qed.

Lemma labeled_event_response (d : gmap string pyval) (e : event) :
  labeled_event (PDict d) = Ok (Some e) →
  ∃ resp, d !! "response_json" = Some (PDict resp) ∧ truthy (PDict resp) = true.
Proof.
  unfold labeled_event. cbn [get]. intros He. cbn in He.
  destruct (truthy (default PNone (d !! "features"))); [|discriminate].
  cbn in He. unfold py_or in He.
  destruct (d !! "response_json") as [resp0|]; [|discriminate]. cbn in He.
  destruct (truthy resp0) eqn:Ht; [|discriminate]. rewrite Ht in He. cbn in He.
  destruct resp0 as [| | | | | |resp]; try discriminate. eauto.
Qed.

(** C3, amended. The label of an accepted record is 1 when the
    intentional flag of the logged teacher response is truthy and 0
    otherwise; the flag is never absent on an accepted record, and the
    final intent of the response takes no part: whatever it is replaced
    with, the same event is produced. *)
Theorem distiller_label_is_intentional_flag (record : pyval) (e : event) :
  labeled_event record = Ok (Some e) →
  teacher_field record "intentional" ≠ PNone
  ∧ (label e = 1 ↔ truthy (teacher_field record "intentional") = true)
  ∧ (label e = 0 ↔ truthy (teacher_field record "intentional") = false)
  ∧ ∃ d resp,
      record = PDict d
      ∧ d !! "response_json" = Some (PDict resp)
      ∧ ∀ v, labeled_event
               (PDict (<["response_json" := PDict (<["final_intent" := v]> resp)]> d))
             = Ok (Some e).
Proof.
  intros He0.
  assert (∃ d resp,
      record = PDict d
      ∧ d !! "response_json" = Some (PDict resp)
      ∧ ∀ v, labeled_event
               (PDict (<["response_json" := PDict (<["final_intent" := v]> resp)]> d))
             = Ok (Some e)) as Hfinal.
  { destruct record as [| | | | | |d]; try discriminate.
    destruct (labeled_event_response d _ He0) as (resp & Hd & Ht).
    exists d, resp. split; [reflexivity|]. split; [exact Hd|].
    intros v. by rewrite labeled_event_final_intent. }
  pose proof He0 as He. unfold labeled_event in He.
  destruct (get record "response_json" PNone) as [resp0|] eqn:Hresp;
    [|discriminate]. cbn in He.
  destruct (get record "features" PNone) as [features|]; [|discriminate].
  cbn in He.
  destruct (truthy features); [|discriminate].
  destruct (truthy (py_or resp0 (PDict ∅))) eqn:Htr; [|discriminate].
  cbn in He.
  destruct (get _ "schema_valid" _) as [sv|]; [|discriminate]. cbn in He.
  destruct (truthy sv); [|discriminate]. cbn in He.
  destruct (get _ "confidence" _) as [conf|]; [|discriminate]. cbn in He.
  destruct (get _ "reason_category" _) as [reason|]; [|discriminate]. cbn in He.
  destruct (get _ "intentional" _) as [intentional|] eqn:Hint; [|discriminate].
  cbn in He.
  destruct (get features "gestureType" PNone) as [detected|]; [|discriminate].
  cbn in He.
  destruct (if truthy detected then _ else _) as [gt|]; [|discriminate].
  cbn in He.
  destruct (lt_float conf _) as [[]|]; try discriminate. cbn in He.
  destruct (eq_str reason _); [discriminate|].
  destruct (is_None intentional) eqn:Hnone; [discriminate|]. cbn in He.
  destruct (is_None gt); [discriminate|]. cbn in He.
  destruct (get record "event_id" _) as [eid|]; [|discriminate]. cbn in He.
  injection He as <-. cbn.
  destruct (get_teacher_field _ _ _ _ _ Hresp Htr Hint) as [[-> _]| ->];
    [discriminate|].
  split; [by destruct (teacher_field record "intentional")|].
  split; [|split].
  - destruct (truthy (teacher_field record "intentional")); split; intros; congruence.
  - destruct (truthy (teacher_field record "intentional")); split; intros; congruence.
  - exact Hfinal.
Qed.

End DistillerClaims.

(** ** Regression Gate *)

Section GateClaims.
Context `{Runtime}.
Import Registry Trainer.

Lemma train_calibration (inp : inputs) (t : trained) :
  train inp = Ok t → load_calibration (calibration inp) = Ok (calib t).
Proof.
  unfold train. destruct (load_labeled_events _) as [events|]; [|discriminate].
  cbn. destruct (_ <? _); [discriminate|].
  destruct (build_matrix _) as [Xy|]; [|discriminate]. cbn.
  destruct (load_calibration _) as [c|]; [|discriminate]. cbn.
  destruct (fit _ _ _) as [fitted|]; [|discriminate]. cbn.
  by intros [= <-].
Qed.

Lemma versioned_name_not_current (s : string) :
  versioned_name ("v" +:+ s) ≠ current_model.
Proof. discriminate. Qed.

Lemma save_published (t : trained) (stamp : string)
    (calib_acc_old calib_acc_new : option float) (reg : registry) :
  published t reg (save t stamp calib_acc_old calib_acc_new reg).
Proof.
  exists (model_bundle t stamp ("v" +:+ pretty (next_version_num reg)) calib_acc_new).
  split; [reflexivity|]. unfold save.
  destruct (training_log reg) as [[l| |]|]; cbn [files model_dir];
    (split; [apply lookup_insert_eq|]);
    (rewrite lookup_insert_ne by (apply not_eq_sym, versioned_name_not_current));
    apply lookup_insert_eq.
Qed.



End GateClaims.

(** ** Serving Runtime *)

Section ServiceClaims.
Context `{Runtime}.
Import Registry Service.

Lemma load_total_preds (model_file : option (float * artifact)) (s : server) :
  _total_preds (_load_model_if_needed model_file s) = _total_preds s.
Proof.
  unfold _load_model_if_needed. destruct model_file as [[mtime data]|]; [|reflexivity].
  destruct (_ || _); [|reflexivity]. by destruct data.
Qed.




(** A body that is a non-empty JSON value other than an object has no
    [get]: the handler raises before it looks at the model. *)
Remark predict_array_body (STUDENT_MODE : string) (s : server) :
  (predict STUDENT_MODE None (Some (PList [PInt 1])) s).2 = Raise AttributeError.
Proof. reflexivity. Qed.

Lemma predict_loaded (STUDENT_MODE : string)
    (model_file : option (float * artifact)) (request_body : option pyval)
    (s : server) (m : estimator) (features gesture_type : pyval)
    (row : list float) (conf : float) :
  _model (_load_model_if_needed model_file s) = Some m →
  request_fields request_body = Ok (features, gesture_type) →
  Codec.features_to_row features gesture_type = Ok row →
  py_max (predict_proba m (map float32 row)) = Ok conf →
  predict STUDENT_MODE model_file request_body s
  = (count_prediction (_load_model_if_needed model_file s),
     Ok {| execute :=
             if String.eqb STUDENT_MODE "active"
             then negb (Py.predict m (map float32 row) =? 0) else true;
           confidence := round conf 3;
           model_version := _model_version (_load_model_if_needed model_file s);
           mode := STUDENT_MODE |}).
Proof.
  intros Hm Hf Hrow Hmax. unfold request_fields in Hf. unfold predict.
  destruct (get _ "features" _) as [f|]; [|discriminate]. cbn in Hf.
  destruct (get _ "type" _) as [g|]; [|discriminate]. cbn in Hf.
  injection Hf as -> ->. rewrite Hm, encoders_agree, Hrow. cbn.
  rewrite Hmax. reflexivity.
Qed.

Lemma predict_execute_shadow (STUDENT_MODE : string)
    (model_file : option (float * artifact)) (request_body : option pyval)
    (s s' : server) (resp : prediction) :
  predict STUDENT_MODE model_file request_body s = (s', Ok resp) →
  STUDENT_MODE ≠ "active"%string → execute resp = true.
Proof.
  unfold predict. intros Hp Hmode.
  apply String.eqb_neq in Hmode.
  destruct (get _ "features" _) as [f|]; [|by inversion Hp].
  destruct (get _ "type" _) as [g|]; [|by inversion Hp].
  destruct (_model _) as [m|]; [|by inversion Hp].
  destruct (Codec._features_to_vector f g) as [x|]; [|by inversion Hp].
  destruct (first (map (Py.predict m) x)) as [verdict|];
    destruct (first (map (predict_proba m) x)) as [proba|]; try by inversion Hp.
  destruct (py_max proba) as [conf|]; [|by inversion Hp].
  rewrite Hmode in Hp. by inversion Hp.
Qed.

(** C5. In shadow mode every response of the predict endpoint has
    execute = true. A request served by a loaded model is answered with
    the rounded maximum class probability as confidence whatever the
    mode; its execute field is true in shadow mode and the verdict of
    the model in active mode. *)
Theorem shadow_mode_invariant (STUDENT_MODE : string)
    (model_file : option (float * artifact)) (request_body : option pyval)
    (s : server) :
  (∀ s' resp,
     predict "shadow" model_file request_body s = (s', Ok resp) →
     execute resp = true)
  ∧ (∀ m features gesture_type row conf,
       _model (_load_model_if_needed model_file s) = Some m →
       request_fields request_body = Ok (features, gesture_type) →
       Codec.features_to_row features gesture_type = Ok row →
       py_max (predict_proba m (map float32 row)) = Ok conf →
       ∃ s' resp,
         predict STUDENT_MODE model_file request_body s = (s', Ok resp)
         ∧ confidence resp = round conf 3
         ∧ (STUDENT_MODE = "shadow"%string → execute resp = true)
         ∧ (STUDENT_MODE = "active"%string →
              execute resp = negb (Py.predict m (map float32 row) =? 0))).
Proof.
  split.
  - intros s' resp Hp. by apply (predict_execute_shadow _ _ _ _ _ _ Hp).
  - intros m features gesture_type row conf Hm Hf Hrow Hmax.
    eexists _, _. split; [by apply (predict_loaded _ _ _ _ m features gesture_type row conf)|].
    cbn. split; [reflexivity|]. split; by intros ->.
Qed.

(** C10. A prediction request adds exactly one to the prediction
    counter when it is answered by a loaded model and leaves it
    unchanged otherwise (degraded answer, or error); a status request
    leaves it unchanged and reports it. *)
Theorem total_predictions_counter (STUDENT_MODE : string)
    (model_file : option (float * artifact)) (request_body : option pyval)
    (s : server) :
  _total_preds (predict STUDENT_MODE model_file request_body s).1
  = (if bool_decide (is_Some (_model (_load_model_if_needed model_file s)))
        && is_ok (predict STUDENT_MODE model_file request_body s).2
     then _total_preds s + 1 else _total_preds s)
  ∧ _total_preds (status STUDENT_MODE model_file s).1 = _total_preds s
  ∧ total_predictions (status STUDENT_MODE model_file s).2 = _total_preds s.
Proof.
  split; [|split; apply load_total_preds].
  unfold predict.
  pose proof (load_total_preds model_file s) as Hl.
  destruct (get _ "features" _) as [f|]; cbn [fst snd is_ok];
    [|by rewrite andb_false_r].
  destruct (get _ "type" _) as [g|]; cbn [fst snd is_ok];
    [|by rewrite andb_false_r].
  destruct (_model _) as [m|]; cbn [fst snd is_ok];
    [|by rewrite bool_decide_eq_false_2 by (by intros [? ?])].
  rewrite bool_decide_eq_true_2 by eauto.
  destruct (Codec._features_to_vector f g) as [x|]; cbn [fst snd is_ok andb];
    [|done].
  destruct (first (map (Py.predict m) x)) as [verdict|];
    destruct (first (map (predict_proba m) x)) as [proba|];
    cbn [fst snd is_ok andb]; try done.
  destruct (py_max proba) as [conf|]; cbn [fst snd is_ok andb]; [|done].
  cbn. by rewrite Hl.
Qed.

End ServiceClaims.

(** ** Model Registry *)

Section StringFacts.

Lemma length_append (s t : string) :
  String.length (s +:+ t) = (String.length s + String.length t)%nat.
Proof.
  induction s as [|a s IH]; [reflexivity|].
  change (String a s +:+ t) with (String a (s +:+ t)).
  cbn [String.length]. by rewrite IH.
Qed.

Lemma substring_whole (t : string) : String.substring 0 (String.length t) t = t.
Proof. induction t as [|a t IH]; cbn; [reflexivity|]. by rewrite IH. Qed.

Lemma substring_suffix (s t : string) :
  String.substring (String.length s) (String.length t) (s +:+ t) = t.
Proof.
  induction s as [|a s IH]; [apply substring_whole|].
  change (String a s +:+ t) with (String a (s +:+ t)).
  cbn [String.length String.substring]. apply IH.
Qed.

Lemma append_cancel_r (s1 s2 t : string) : s1 +:+ t = s2 +:+ t → s1 = s2.
Proof.
  revert s2. induction s1 as [|a s1 IH]; intros [|b s2] E.
  - reflexivity.
  - apply (f_equal String.length) in E.
    change (String b s2 +:+ t) with (String b (s2 +:+ t)) in E.
    change (EmptyString +:+ t) with t in E.
    cbn [String.length] in E. rewrite length_append in E. lia.
  - apply (f_equal String.length) in E.
    change (String a s1 +:+ t) with (String a (s1 +:+ t)) in E.
    change (EmptyString +:+ t) with t in E.
    cbn [String.length] in E. rewrite length_append in E. lia.
  - change (String a s1 +:+ t) with (String a (s1 +:+ t)) in E.
    change (String b s2 +:+ t) with (String b (s2 +:+ t)) in E.
    injection E as -> E. f_equal. by apply IH.
Qed.

End StringFacts.

Section RegistryFacts.
Context `{Runtime}.
Import Registry Trainer.

Lemma is_versioned_versioned_name (s : string) :
  is_versioned (versioned_name ("v" +:+ s)) = true.
Proof.
  unfold is_versioned, versioned_name.
  change (("v" +:+ s) +:+ "_model.joblib") with (String "v"%char (s +:+ "_model.joblib")).
  cbn [String.length String.prefix]. rewrite length_append. cbn [String.length].
  replace (S (String.length s + 13) - 13)%nat with (S (String.length s)) by lia.
  cbn [String.substring].
  change (String.substring (String.length s) 13 (s +:+ "_model.joblib"))
    with (String.substring (String.length s) (String.length "_model.joblib")
            (s +:+ "_model.joblib")).
  rewrite substring_suffix, String.eqb_refl, andb_true_r.
  destruct (Ascii.ascii_dec "v"%char "v"%char) as [_|]; [|done].
  apply andb_true_iff. split; [by destruct (s +:+ _)|].
  apply Nat.leb_le. lia.
Qed.

Lemma vname_inj (j k : Z) : vname j = vname k → j = k.
Proof.
  unfold vname, versioned_name. intros E.
  apply append_cancel_r in E. apply (inj (String.append "v")) in E.
  by apply (inj pretty) in E.
Qed.

Lemma versioned_insert_versioned (reg : registry) (s : string) (a : artifact) :
  filter (λ kv, is_versioned kv.1 = true)
    (<[versioned_name ("v" +:+ s) := a]> (model_dir reg))
  = <[versioned_name ("v" +:+ s) := a]> (versioned reg).
Proof.
  unfold versioned. rewrite map_filter_insert_True; [reflexivity|].
  apply is_versioned_versioned_name.
Qed.

Lemma versioned_insert_current (dir : gmap string artifact) (a : artifact) :
  filter (λ kv, is_versioned kv.1 = true) (<[current_model := a]> dir)
  = filter (λ kv, is_versioned kv.1 = true) dir.
Proof.
  rewrite map_filter_insert_False by (cbn; discriminate).
  rewrite map_filter_delete. apply delete_id.
  apply map_lookup_filter_None. right. intros x _. cbn. discriminate.
Qed.

Lemma well_formed_empty : well_formed 0 empty.
Proof.
  split; cbn; try done; [|lia].
  intros name [a Ha]. unfold versioned in Ha. cbn in Ha.
  by rewrite map_filter_empty, lookup_empty in Ha.
Qed.

Lemma save_well_formed (n : nat) (reg : registry) (t : trained) (stamp : string)
    (calib_acc_old calib_acc_new : option float) :
  well_formed n reg →
  let o := save t stamp calib_acc_old calib_acc_new reg in
  successful o = true ∧ well_formed (S n) (files o) ∧ publishes reg o.
Proof.
  intros [Hnames Hpresent Hsize Hlog Hcur]. cbn zeta.
  assert (versioned reg !! vname (Z.of_nat n + 1) = None) as Hfresh.
  { destruct (versioned reg !! vname _) as [a|] eqn:E; [|reflexivity].
    destruct (Hnames _ (mk_is_Some _ _ E)) as (k & Hk & Hv).
    apply vname_inj in Hv. lia. }
  assert (model_dir reg !! vname (Z.of_nat n + 1) = None) as Hfresh'.
  { unfold versioned in Hfresh. apply map_lookup_filter_None in Hfresh.
    destruct Hfresh as [?|Hf]; [done|].
    destruct (model_dir reg !! vname _) as [a|] eqn:E; [|reflexivity].
    exfalso. apply (Hf a eq_refl). apply is_versioned_versioned_name. }
  unfold save, next_version_num. rewrite Hsize.
  fold (vname (Z.of_nat n + 1)).
  set (b := model_bundle t stamp _ calib_acc_new).
  set (entry := training_log_entry t b _ calib_acc_old).
  assert (∀ l, versioned
            {| model_dir := <[current_model := Bundle b]>
                              (<[vname (Z.of_nat n + 1) := Bundle b]> (model_dir reg));
               training_log := l |}
          = <[vname (Z.of_nat n + 1) := Bundle b]> (versioned reg)) as Hv.
  { intros l. unfold versioned at 1. cbn [model_dir].
    rewrite versioned_insert_current. apply versioned_insert_versioned. }
  assert (∀ l l0, length l0 = n →
            well_formed (S n)
              {| model_dir := <[current_model := Bundle b]>
                                (<[vname (Z.of_nat n + 1) := Bundle b]> (model_dir reg));
                 training_log := Some (Audit.Runs (l0 ++ [entry])) |}
            ∧ size (versioned
                {| model_dir := <[current_model := Bundle b]>
                                  (<[vname (Z.of_nat n + 1) := Bundle b]> (model_dir reg));
                   training_log := l |}) = S n) as Hwf.
  { intros l l0 Hl0. split; [split|].
    - intros name. rewrite Hv. intros [a Ha].
      destruct (decide (vname (Z.of_nat n + 1) = name)) as [<-|Hne].
      + exists (Z.of_nat n + 1). split; [lia|reflexivity].
      + rewrite lookup_insert_ne in Ha by done.
        destruct (Hnames name (mk_is_Some _ _ Ha)) as (k & Hk & ->).
        exists k. split; [lia|reflexivity].
    - intros k Hk. cbn [model_dir].
      rewrite lookup_insert_ne by (apply not_eq_sym, versioned_name_not_current).
      destruct (decide (k = Z.of_nat n + 1)) as [->|Hne].
      + rewrite lookup_insert_eq. eauto.
      + rewrite lookup_insert_ne by (intros E; by apply vname_inj in E).
        apply Hpresent. lia.
    - rewrite Hv, map_size_insert_None by done. by rewrite Hsize.
    - cbn. rewrite length_app, Hl0. cbn. lia.
    - discriminate.
    - rewrite Hv, map_size_insert_None by done. by rewrite Hsize. }
  destruct (training_log reg) as [[l| |]|] eqn:Elog; try done.
  - destruct Hlog as [Hlen Hn]. cbn [successful status is_ok files].
    split; [reflexivity|]. split; [apply (Hwf None l Hlen)|].
    exists b, entry. cbn zeta. rewrite Hsize.
    split; [reflexivity|]. split; [reflexivity|]. split; [exact Hfresh'|].
    split; [apply (Hwf (Some (Audit.Runs (l ++ [entry]))) l Hlen)|].
    unfold log_entries. cbn. rewrite Elog. done.
  - cbn [successful status is_ok files].
    split; [reflexivity|]. split; [apply (Hwf None [] (eq_sym Hlog))|].
    exists b, entry. cbn zeta. rewrite Hsize.
    split; [reflexivity|]. split; [reflexivity|]. split; [exact Hfresh'|].
    split; [apply (Hwf (Some (Audit.Runs ([] ++ [entry]))) [] (eq_sym Hlog))|].
    unfold log_entries. cbn. rewrite Elog. done.
Qed.

Lemma main_well_formed (n : nat) (reg : registry) (inp : inputs) :
  well_formed n reg →
  let o := main inp reg in
  (successful o = true ∧ well_formed (S n) (files o) ∧ publishes reg o)
  ∨ (successful o = false ∧ files o = reg).
Proof.
  intros Hwf. cbn zeta. unfold main.
  destruct (train inp) as [t|e]; [|by right].
  destruct (regression_check t reg) as [printed [[old new]|e]]; [|by right].
  left. destruct (save_well_formed n reg t (now inp) old new Hwf) as (? & ? & ?).
  cbn. auto.
Qed.

Lemma final_cons (reg : registry) (ro : registry * outcome)
    (history : list (registry * outcome)) :
  final reg (ro :: history) = final (files ro.2) history.
Proof.
  unfold final. destruct history as [|p history]; [reflexivity|].
  rewrite last_cons_cons.
  destruct (last (p :: history)) eqn:E; [reflexivity|].
  by apply last_None in E.
Qed.

Lemma well_formed_log_intact (n : nat) (reg : registry) :
  well_formed n reg → log_intact reg.
Proof.
  intros [_ _ _ Hlog _]. unfold log_intact.
  destruct (training_log reg) as [[l| |]|]; eauto; done.
Qed.

Lemma runs_well_formed (inps : list inputs) (n : nat) (reg : registry) :
  well_formed n reg →
  well_formed (n + length (accepted_runs (runs inps reg)))
    (final reg (runs inps reg))
  ∧ model_dir (final reg (runs inps reg)) !! current_model
    = match last (accepted_runs (runs inps reg)) with
      | Some ro => model_dir (files ro.2) !! current_model
      | None => model_dir reg !! current_model
      end
  ∧ (∀ reg_before o, (reg_before, o) ∈ runs inps reg →
       log_intact reg_before
       ∧ if successful o then publishes reg_before o else files o = reg_before).
Proof.
  revert n reg. induction inps as [|inp rest IH]; intros n reg Hwf.
  - cbn. rewrite Nat.add_0_r. split; [done|]. split; [done|].
    intros ? ? Hin. by apply elem_of_nil in Hin.
  - cbn [runs]. rewrite final_cons. cbn [snd]. unfold accepted_runs.
    destruct (main_well_formed n reg inp Hwf) as [(Hok & Hwf' & Hpub)|[Hko Hsame]].
    + rewrite filter_cons_True by done. fold (accepted_runs (runs rest (files (main inp reg)))).
      destruct (IH _ _ Hwf') as (IH1 & IH2 & IH3).
      split; [|split].
      * cbn [length]. by replace (n + S _)%nat with (S n + length
          (accepted_runs (runs rest (files (main inp reg)))))%nat by lia.
      * rewrite IH2, last_cons.
        by destruct (last (accepted_runs _)).
      * intros reg_before o [[= -> ->]|Hin]%elem_of_cons.
        -- split; [by eapply well_formed_log_intact|]. by rewrite Hok.
        -- by apply IH3.
    + rewrite filter_cons_False by (cbn; congruence).
      fold (accepted_runs (runs rest (files (main inp reg)))).
      rewrite Hsame. destruct (IH _ _ Hwf) as (IH1 & IH2 & IH3).
      split; [done|]. split; [done|].
      intros reg_before o [[= -> ->]|Hin]%elem_of_cons.
      * split; [by eapply well_formed_log_intact|]. by rewrite Hko.
      * by apply IH3.
Qed.

(** C7. Starting from an empty model directory, after any sequence of
    runs of which [n] return normally: exactly [n] versioned artifacts
    exist, namely v1 to v[n]; the current artifact is the one written by
    the last such run; the training log is a list of [n] records. Each
    such run was assigned the count of versioned artifacts it found plus
    one, wrote its bundle under that version and as current, and appended
    one record to the log; every other run, a gate rejection in
    particular, left the registry as it was. *)
Theorem registry_versioning (inps : list inputs) :
  let history := runs inps empty in
  let reg := final empty history in
  let n := length (accepted_runs history) in
  size (versioned reg) = n
  ∧ (∀ name, is_Some (versioned reg !! name)
             ↔ ∃ k, 1 ≤ k ≤ Z.of_nat n ∧ name = vname k)
  ∧ model_dir reg !! current_model
    = (ro ← last (accepted_runs history); model_dir (files ro.2) !! current_model)
  ∧ length (log_entries reg) = n
  ∧ log_intact reg
  ∧ (∀ reg_before o, (reg_before, o) ∈ history →
       log_intact reg_before
       ∧ if successful o then publishes reg_before o else files o = reg_before).
Proof.
  cbn zeta.
  destruct (runs_well_formed inps 0 empty well_formed_empty) as (Hwf & Hcur & Hruns).
  cbn [Nat.add] in Hwf. pose proof Hwf as [Hnames Hpresent Hsize Hlog _].
  split; [exact Hsize|]. split; [|split; [|split; [|split]]].
  - intros name. split; [apply Hnames|].
    intros (k & Hk & ->). destruct (Hpresent k Hk) as [a Ha].
    exists a. unfold versioned. apply map_lookup_filter_Some. split; [done|].
    apply is_versioned_versioned_name.
  - rewrite Hcur. by destruct (last (accepted_runs _)).
  - unfold log_entries. destruct (training_log _) as [[l| |]|]; try done.
    by destruct Hlog.
  - by eapply well_formed_log_intact.
  - exact Hruns.
Qed.

(** Outside such a history the log can be restarted: on a log file that
    does not parse, a run writes a list that holds its own record only. *)
Remark save_restarts_unparseable_log (t : trained) (stamp : string)
    (calib_acc_old calib_acc_new : option float) (dir : gmap string artifact) :
  length (log_entries (files (save t stamp calib_acc_old calib_acc_new
            {| model_dir := dir; training_log := Some Audit.Unparseable |})))
  = 1%nat.
Proof. reflexivity. Qed.

End RegistryFacts.

(** * The statements on the concrete inputs *)

Section Instances.
Import Scenario.

#[local] Existing Instance Demo.runtime.

Lemma bag_is_feature_bag : feature_bag bag.
Proof.
  intros n v Hn Hv. unfold Codec.FEATURE_NAMES in Hn.
  repeat (apply elem_of_cons in Hn as [->|Hn]);
    try (vm_compute in Hv; (discriminate Hv || (injection Hv as <-; reflexivity))).
  by apply elem_of_nil in Hn.
Defined.

(** C4, as stated, fails: a feature bag is a finite map of names to
    values, and on the map that holds null for one named feature both
    encoders raise. *)
Lemma feature_codec_raises_on_null :
  Codec.features_to_row (PDict null_bag) (PStr "OPEN_MENU") = Raise TypeError
  ∧ Codec._features_to_vector (PDict null_bag) (PStr "OPEN_MENU") = Raise TypeError
  ∧ ¬ convertible null_bag
  ∧ ¬ encodes_every_map.
Proof.
  split; [reflexivity|]. split; [reflexivity|]. split.
  - intros Hc. specialize (Hc "wristX"%string PNone).
    assert (is_ok (to_float PNone) = true) as Hok
      by (apply Hc; [unfold Codec.FEATURE_NAMES; rewrite !elem_of_cons; tauto|reflexivity]).
    discriminate Hok.
  - intros Hall. specialize (Hall null_bag (PStr "OPEN_MENU")). discriminate Hall.
Qed.

(** The codec on [bag]: with OPEN_MENU the first one-hot slot is set and
    the three others are not; with a gesture type it does not know the
    four are zero. *)
Lemma feature_codec_total_witness :
  feature_bag bag
  ∧ (∃ row, Codec.features_to_row (PDict bag) (PStr "OPEN_MENU") = Ok row
       ∧ length row = 16%nat
       ∧ row !! 0%nat = Some 0.42%float
       ∧ row !! 1%nat = Some 0%float
       ∧ drop 12 row = [1%float; 0%float; 0%float; 0%float])
  ∧ (∃ row, Codec.features_to_row (PDict bag) (PStr "WAVE") = Ok row
       ∧ length row = 16%nat
       ∧ drop 12 row = [0%float; 0%float; 0%float; 0%float]).
Proof.
  split; [exact bag_is_feature_bag|]. split.
  - destruct (feature_codec_total bag (PStr "OPEN_MENU")) as (_ & _ & Hfb & Hrow & _).
    destruct (Hrow (Hfb bag_is_feature_bag))
      as (row & Hrow' & Hlen & _ & Hmissing & Hfloat & Hhot & _).
    exists row. split; [exact Hrow'|]. split; [exact Hlen|]. split; [|split].
    + apply (Hfloat 0%nat "swipeDisplacement"%string); reflexivity.
    + apply (Hmissing 1%nat "swipeDuration"%string); reflexivity.
    + rewrite Hhot. reflexivity.
  - destruct (feature_codec_total bag (PStr "WAVE")) as (_ & _ & Hfb & Hrow & _).
    destruct (Hrow (Hfb bag_is_feature_bag))
      as (row & Hrow' & Hlen & _ & _ & _ & _ & _ & Hunknown & _).
    exists row. split; [exact Hrow'|]. split; [exact Hlen|].
    apply Hunknown. intros g Hg. unfold Codec.GESTURE_TYPES in Hg.
    repeat (apply elem_of_cons in Hg as [->|Hg]); try discriminate.
    by apply elem_of_nil in Hg.
Defined.

(** The end-to-end scenario: eight agreeing results give four records
    with label 1 and four with label 0; with one disagreeing verdict,
    seven records and one disagreement. *)
Example end_to_end_calibration :
  summary (Builder.main (Some results) clip_files None)
  = Some ([1; 1; 1; 1; 0; 0; 0; 0], 0, 0, 0)
  ∧ summary (Builder.main (Some results_with_disagreement) clip_files None)
    = Some ([1; 1; 1; 0; 0; 0; 0], 0, 1, 0).
Proof. split; vm_compute; reflexivity. Qed.

(** The first result of the end-to-end scenario is accepted with label 1,
    the fifth with label 0. *)
Lemma calibration_acceptance_rule_witness :
  Harness.cosmos_error (result_n 1) = false
  ∧ Harness.cosmos_error (result_n 5) = false
  ∧ (∃ rec, emitted (Builder.load_clips_by_id clip_files None) (result_n 1) = Some rec
       ∧ Builder.label rec = 1)
  ∧ (∃ rec, emitted (Builder.load_clips_by_id clip_files None) (result_n 5) = Some rec
       ∧ Builder.label rec = 0).
Proof.
  split; [reflexivity|]. split; [reflexivity|]. split.
  - destruct (calibration_acceptance_rule
                (Builder.load_clips_by_id clip_files None) (result_n 1) eq_refl)
      as ([_ Hpos] & _).
    apply Hpos. split; [|vm_compute; reflexivity].
    split; [vm_compute; tauto|]. split; [reflexivity|].
    exists "OPEN_MENU"%string. split; vm_compute; reflexivity.
  - destruct (calibration_acceptance_rule
                (Builder.load_clips_by_id clip_files None) (result_n 5) eq_refl)
      as (_ & [_ Hneg] & _).
    apply Hneg. split; [|vm_compute; reflexivity].
    split; reflexivity.
Defined.


(** An accepted record whose teacher response is intentional. *)
Lemma distiller_label_is_intentional_flag_witness :
  ∃ e, Trainer.labeled_event agreeing_record = Ok (Some e)
    ∧ Trainer.label (Trainer.labeled e) = 1
    ∧ truthy (teacher_field agreeing_record "intentional") = true.
Proof.
  destruct (Trainer.labeled_event agreeing_record) as [[e|]|] eqn:He;
    try (vm_compute in He; discriminate He).
  exists e. split; [reflexivity|].
  destruct (distiller_label_is_intentional_flag agreeing_record e He)
    as (_ & [_ Hone] & _).
  split; [apply Hone|]; reflexivity.
Defined.


(** An estimator that rejects the request: shadow mode answers execute =
    true with the confidence of the estimator, active mode answers
    execute = false. *)
Lemma shadow_mode_invariant_witness :
  (∃ s' resp,
     Service.predict "shadow" model_file request_body Service.boot = (s', Ok resp)
     ∧ Service.confidence resp = 0.75%float
     ∧ Service.execute resp = true)
  ∧ (∃ s' resp,
       Service.predict "active" model_file request_body Service.boot = (s', Ok resp)
       ∧ Service.confidence resp = 0.75%float
       ∧ Service.execute resp = false).
Proof.
  destruct (Codec.features_to_row (PDict bag) (PStr "OPEN_MENU")) as [row|] eqn:Hrow;
    [|vm_compute in Hrow; discriminate Hrow].
  assert (py_max (predict_proba rejecting (map float32 row)) = Ok 0.75%float) as Hmax
    by reflexivity.
  split.
  - destruct (shadow_mode_invariant "shadow" model_file request_body Service.boot)
      as [_ Hserved].
    destruct (Hserved rejecting (PDict bag) (PStr "OPEN_MENU") row 0.75%float
                eq_refl eq_refl Hrow Hmax) as (s' & resp & Hp & Hc & Hs & _).
    exists s', resp. split; [exact Hp|]. split; [exact Hc|]. by apply Hs.
  - destruct (shadow_mode_invariant "active" model_file request_body Service.boot)
      as [_ Hserved].
    destruct (Hserved rejecting (PDict bag) (PStr "OPEN_MENU") row 0.75%float
                eq_refl eq_refl Hrow Hmax) as (s' & resp & Hp & Hc & _ & Ha).
    exists s', resp. split; [exact Hp|]. split; [exact Hc|].
    rewrite (Ha eq_refl). vm_compute in Hrow. injection Hrow as <-. reflexivity.
Defined.


(** Three runs from an empty directory: the first publishes v1 (score
    0.90), the second (0.87) is blocked, the third (0.89) publishes v2. *)
Lemma registry_versioning_witness :
  let history :=
    Trainer.runs [run_inputs 90; run_inputs 87; run_inputs 89] Registry.empty in
  let reg := Trainer.final Registry.empty history in
  length (accepted_runs history) = 2%nat
  ∧ size (Registry.versioned reg) = 2%nat
  ∧ is_Some (Registry.versioned reg !! "v2_model.joblib"%string)
  ∧ length (log_entries reg) = 2%nat.
Proof.
  cbn zeta.
  destruct (registry_versioning [run_inputs 90; run_inputs 87; run_inputs 89])
    as (Hsize & Hnames & _ & Hlog & _).
  assert (length (accepted_runs
            (Trainer.runs [run_inputs 90; run_inputs 87; run_inputs 89]
               Registry.empty)) = 2%nat) as Hn by (vm_compute; reflexivity).
  rewrite Hn in Hsize, Hnames, Hlog.
  split; [exact Hn|]. split; [exact Hsize|]. split; [|exact Hlog].
  apply Hnames. exists 2. split; [lia|reflexivity].
Defined.

End Instances.

(** * Properties of the rest of the scripts *)

(** ** Metrics of the harness *)

Section MetricsFacts.
Import Harness Metrics.

Lemma count_if_cons (P : eval_result → bool) (r : eval_result)
    (results : list eval_result) :
  count_if P (r :: results) = (if P r then 1 else 0) + count_if P results.
Proof.
  unfold count_if. destruct (P r) eqn:E.
  - rewrite filter_cons_True by done. cbn [length]. lia.
  - rewrite filter_cons_False by congruence. lia.
Qed.

Lemma count_if_nonneg (P : eval_result → bool) (results : list eval_result) :
  0 ≤ count_if P results.
Proof. unfold count_if. lia. Qed.

Lemma count_if_le (P Q : eval_result → bool) (results : list eval_result) :
  (∀ r, P r = true → Q r = true) → count_if P results ≤ count_if Q results.
Proof.
  intros HPQ. induction results as [|r results IH]; [done|].
  rewrite !count_if_cons. specialize (HPQ r).
  destruct (P r), (Q r); try lia; try by specialize (HPQ eq_refl).
Qed.

Lemma count_if_ext (P Q : eval_result → bool) (results : list eval_result) :
  Forall (λ r, P r = Q r) results → count_if P results = count_if Q results.
Proof.
  induction 1 as [|r results E _ IH]; [done|].
  by rewrite !count_if_cons, E, IH.
Qed.

Lemma valid_cons (r : eval_result) (results : list eval_result) :
  valid (r :: results) = (if cosmos_error r then 0 else 1) + valid results.
Proof.
  unfold valid, errors. destruct (cosmos_error r) eqn:E.
  - rewrite filter_cons_True by done. cbn [length]. lia.
  - rewrite filter_cons_False by congruence. cbn [length]. lia.
Qed.

(** The counters after the loop, from any starting values. *)
Lemma count_fold (g : string) (results : list eval_result) (c0 : cells) :
  let c := fold_left (count g) results c0 in
  tp c = tp c0
         + count_if (λ r, labelled ("TP_" +:+ g) r && cosmos_fired g r) results
  ∧ tp c + fn c = tp c0 + fn c0 + count_if (labelled ("TP_" +:+ g)) results
  ∧ tp c + fp c = tp c0 + fp c0 + count_if (asserted g) results
  ∧ tp c0 ≤ tp c ∧ fp c0 ≤ fp c ∧ fn c0 ≤ fn c ∧ tn c0 ≤ tn c
  ∧ tp c + fp c + fn c + tn c
    ≤ tp c0 + fp c0 + fn c0 + tn c0 + valid results.
Proof.
  revert c0. induction results as [|r results IH]; intros c0; cbn zeta.
  - cbn. unfold count_if, valid, errors. cbn. lia.
  - cbn [fold_left]. specialize (IH (count g c0 r)). cbn zeta in IH.
    rewrite !count_if_cons, valid_cons.
    unfold count, labelled, asserted in *.
    destruct (cosmos_error r); cbn [negb andb] in *; [lia|].
    destruct (String.eqb (user_label r) ("TP_" +:+ g)); cbn [andb] in *;
      destruct (cosmos_fired g r); cbn [andb tp fp fn tn] in *; try lia.
    destruct (String.prefix "NEG_" (user_label r) && _); cbn [tp fp fn tn] in *; lia.
Qed.

Lemma count_fold_error_free (g : string) (results : list eval_result) (c0 : cells) :
  fold_left (count g) (filter (λ r, cosmos_error r = false) results) c0
  = fold_left (count g) results c0.
Proof.
  revert c0. induction results as [|r results IH]; intros c0; [done|].
  destruct (cosmos_error r) eqn:E.
  - rewrite filter_cons_False by congruence. cbn [fold_left].
    assert (count g c0 r = c0) as -> by (unfold count; by rewrite E).
    apply IH.
  - rewrite filter_cons_True by done. cbn [fold_left]. apply IH.
Qed.

(** X1. For every gesture type the counters of [compute_metrics] obey
    the identities of a confusion table: true positives plus false
    negatives are the error-free results labelled TP_g, true positives
    plus false positives are the error-free results on which the teacher
    asserted g, and the four counters together never exceed the number of
    error-free results. Results with the error flag are counted nowhere. *)
Theorem metrics_counters (g : string) (results : list eval_result) :
  let c := count_all g results in
  tp c + fn c = count_if (labelled ("TP_" +:+ g)) results
  ∧ tp c + fp c = count_if (asserted g) results
  ∧ 0 ≤ tp c ∧ 0 ≤ fp c ∧ 0 ≤ fn c ∧ 0 ≤ tn c
  ∧ tp c + fp c + fn c + tn c ≤ valid results
  ∧ valid results + errors results = Z.of_nat (length results)
  ∧ count_all g (filter (λ r, cosmos_error r = false) results) = c.
Proof.
  cbn zeta. destruct (count_fold g results no_cells)
    as (_ & Hfn & Hfp & ? & ? & ? & ? & Hsum).
  cbn [tp fp fn tn no_cells] in *. fold (count_all g results) in *.
  repeat split; try lia; [unfold valid; lia|].
  apply count_fold_error_free.
Qed.

Lemma gesture_type_label (g : string) :
  g ∈ gesture_types →
  Builder.LABEL_TO_INTENT !! ("TP_" +:+ g) = Some g
  ∧ "TP_" +:+ g ∈ Builder.TP_LABELS
  ∧ g ∈ cosmos_cols.
Proof.
  unfold gesture_types. intros Hg.
  repeat (apply elem_of_cons in Hg as [->|Hg]);
    [split; [reflexivity|split; [vm_compute; reflexivity|]]..|by apply elem_of_nil in Hg];
    unfold cosmos_cols; rewrite !elem_of_cons; tauto.
Qed.

(** X2. The true positives of a gesture type contain every error-free
    TP_g result on which the calibration builder finds agreement, and are
    exactly those results when the teacher's intentional flag is a JSON
    boolean or null: the metrics test the flag by truth value, the
    builder by identity with [True]. *)
Theorem metrics_true_positives (g : string) (results : list eval_result) :
  g ∈ gesture_types →
  count_if (λ r, labelled ("TP_" +:+ g) r && agrees_positive r) results
  ≤ tp (count_all g results)
  ∧ (Forall boolean_verdict results →
     count_if (λ r, labelled ("TP_" +:+ g) r && agrees_positive r) results
     = tp (count_all g results)).
Proof.
  intros Hg. destruct (gesture_type_label g Hg) as (Hmap & Htp & _).
  destruct (count_fold g results no_cells) as (Htpc & _).
  fold (count_all g results) in Htpc. cbn [tp no_cells] in Htpc. rewrite Htpc.
  assert (∀ r, labelled ("TP_" +:+ g) r = true →
            agrees_positive r
            = is_True (cosmos_intentional r) && eq_str (cosmos_final_intent r) g)
    as Hagree.
  { intros r [_ Hl%String.eqb_eq]%andb_true_iff. unfold agrees_positive.
    rewrite Hl, Hmap, (bool_decide_eq_true_2 _ Htp). reflexivity. }
  split.
  - apply count_if_le. intros r [Hl Ha]%andb_true_iff. rewrite Hl. cbn [andb].
    rewrite (Hagree r Hl) in Ha. apply andb_true_iff in Ha as [HT He].
    apply is_True_spec in HT. unfold cosmos_fired. by rewrite HT, He.
  - intros Hbool. apply count_if_ext. eapply Forall_impl; [exact Hbool|].
    intros r Hr. cbn beta. destruct (labelled ("TP_" +:+ g) r) eqn:Hl; [|done].
    cbn [andb]. rewrite (Hagree r Hl). unfold cosmos_fired.
    by destruct Hr as [-> |[[] ->]].
Qed.

Lemma column_in_cols (r : eval_result) : column r ∈ cosmos_cols.
Proof.
  unfold column. assert ("NONE/reject"%string ∈ cosmos_cols) as Hnone.
  { unfold cosmos_cols. rewrite !elem_of_cons. tauto. }
  destruct (cosmos_final_intent r) as [| | | |ci| |]; try done.
  destruct (truthy _); cbn [andb]; [|done].
  by case_bool_decide.
Qed.

Lemma column_fired (g : string) (r : eval_result) :
  g ∈ cosmos_cols → g ≠ "NONE/reject"%string →
  String.eqb (column r) g = cosmos_fired g r.
Proof.
  intros Hg Hne. unfold column, cosmos_fired.
  destruct (cosmos_final_intent r) as [| | | |ci| |]; cbn [eq_str];
    try (rewrite andb_false_r; by apply String.eqb_neq).
  destruct (truthy _); cbn [andb]; [|by apply String.eqb_neq].
  case_bool_decide as Hci; [done|].
  destruct (String.eqb_spec ci g) as [->|_]; [done|]. by apply String.eqb_neq.
Qed.

(** The dictionary of the confusion matrix after the loop, from any
    starting dictionary. *)
Lemma confusion_fold (results : list eval_result) (m : gmap (string * string) Z)
    (row col : string) :
  default 0
    (fold_left (λ counts r,
       if cosmos_error r then counts
       else
         let key := (user_label r, column r) in
         <[key := default 0 (counts !! key) + 1]> counts) results m !! (row, col))
  = default 0 (m !! (row, col))
    + count_if (λ r, labelled row r && String.eqb (column r) col) results.
Proof.
  revert m. induction results as [|r results IH]; intros m.
  - cbn. unfold count_if. cbn. lia.
  - cbn [fold_left]. rewrite IH, count_if_cons. unfold labelled.
    destruct (cosmos_error r); cbn [negb andb]; [lia|].
    destruct (String.eqb_spec (user_label r) row) as [->|Hrow];
      [destruct (String.eqb_spec (column r) col) as [->|Hcol]|]; cbn [andb].
    + rewrite lookup_insert_eq. cbn. lia.
    + rewrite lookup_insert_ne by congruence. lia.
    + rewrite lookup_insert_ne by congruence. lia.
Qed.

Lemma confusion_keys (results : list eval_result) (m : gmap (string * string) Z) :
  (∀ row col n, m !! (row, col) = Some n → col ∈ cosmos_cols ∧ 0 < n) →
  ∀ row col n,
    fold_left (λ counts r,
       if cosmos_error r then counts
       else
         let key := (user_label r, column r) in
         <[key := default 0 (counts !! key) + 1]> counts) results m !! (row, col)
    = Some n →
    col ∈ cosmos_cols ∧ 0 < n.
Proof.
  revert m. induction results as [|r results IH]; intros m Hm; [exact Hm|].
  cbn [fold_left]. apply IH. destruct (cosmos_error r); [exact Hm|].
  intros row col n. cbn zeta.
  destruct (decide ((user_label r, column r) = (row, col))) as [[= <- <-]|Hne].
  - rewrite lookup_insert_eq. intros [= <-]. split; [apply column_in_cols|].
    destruct (m !! (user_label r, column r)) as [k|] eqn:Hk; cbn; [|lia].
    apply Hm in Hk. lia.
  - rewrite lookup_insert_ne by done. apply Hm.
Qed.

Lemma column_sum (row : string) (results : list eval_result) :
  foldr Z.add 0
    (map (λ col, count_if (λ r, labelled row r && String.eqb (column r) col) results)
       cosmos_cols)
  = count_if (labelled row) results.
Proof.
  induction results as [|r results IH]; [reflexivity|].
  rewrite count_if_cons, <-IH. unfold cosmos_cols. cbn [map foldr].
  rewrite !count_if_cons.
  destruct (labelled row r); cbn [andb]; [|lia].
  pose proof (column_in_cols r) as Hc. unfold cosmos_cols in Hc.
  repeat (apply elem_of_cons in Hc as [->|Hc]); [cbn; lia..|].
  by apply elem_of_nil in Hc.
Qed.

(** X3. The confusion matrix holds, for every pair of a human label and
    a column, the number of error-free results with that label whose
    teacher verdict falls in that column; its columns are the four
    intents and NONE/reject only and no stored count is zero; each row
    adds up to the number of error-free results with that label; and the
    cell (TP_g, g) is the true-positive counter of g in
    [compute_metrics]. *)
Theorem confusion_matrix (results : list eval_result) :
  (∀ row col,
     default 0 (confusion results !! (row, col))
     = count_if (λ r, labelled row r && String.eqb (column r) col) results)
  ∧ (∀ row col n, confusion results !! (row, col) = Some n →
       col ∈ cosmos_cols ∧ 0 < n)
  ∧ (∀ row,
       foldr Z.add 0
         (map (λ col, default 0 (confusion results !! (row, col))) cosmos_cols)
       = count_if (labelled row) results)
  ∧ (∀ g, g ∈ gesture_types →
       default 0 (confusion results !! ("TP_" +:+ g, g)) = tp (count_all g results)).
Proof.
  assert (∀ row col,
     default 0 (confusion results !! (row, col))
     = count_if (λ r, labelled row r && String.eqb (column r) col) results) as Hcell.
  { intros row col. unfold confusion. rewrite confusion_fold, lookup_empty. cbn. lia. }
  split; [exact Hcell|]. split; [|split].
  - unfold confusion. apply confusion_keys. intros row col n.
    by rewrite lookup_empty.
  - intros row. rewrite <-column_sum. f_equal.
    apply map_ext. intros col. apply Hcell.
  - intros g Hg. destruct (gesture_type_label g Hg) as (_ & _ & Hcol).
    rewrite Hcell. destruct (count_fold g results no_cells) as (Htpc & _).
    fold (count_all g results) in Htpc. cbn [tp no_cells] in Htpc.
    rewrite Htpc, Z.add_0_l. apply count_if_ext, Forall_forall.
    intros r _. cbn beta. f_equal. apply column_fired; [done|].
    intros ->. unfold gesture_types in Hg.
    repeat (apply elem_of_cons in Hg as [Hg|Hg]; [discriminate Hg|]).
    by apply elem_of_nil in Hg.
Qed.

End MetricsFacts.

(** ** The batch of the harness *)

Section EvaluationFacts.

Import Evaluation.

Variable time_sleep : float → result unit.
Variable sleep : float.

Let evaluate_one := Evaluation.evaluate_one time_sleep sleep.
Let evaluate := Evaluation.evaluate time_sleep sleep.
Let main := Evaluation.main time_sleep sleep.








Lemma evaluate_raise_app (post : nat → payload → reply) (pre l : list recording) :
  ∀ i,
  (∃ done e, evaluate post (i + length pre) l = (done, Raise e)) →
  ∃ done e, evaluate post i (pre ++ l) = (done, Raise e).
Proof.
  unfold evaluate. induction pre as [|c pre IH]; intros i H.
  - by rewrite Nat.add_0_r in H.
  - cbn [app Evaluation.evaluate length] in *.
    destruct (Evaluation.evaluate_one time_sleep sleep (post i) c) as [done [r|e]];
      [|by eauto].
    rewrite <- Nat.add_succ_comm in H.
    destruct (IH (S i) H) as (more & e & ->). eauto.
Qed.

Lemma evaluate_one_unreportable (post : payload → reply) (c : recording) (p : payload) :
  build_payload c = Ok p →
  reportable (post p) = false →
  ∃ done e, evaluate_one post c = (done, Raise e).
Proof.
  intros Hp Hrep. unfold evaluate_one, Evaluation.evaluate_one. rewrite Hp.
  destruct (post p) as [v|code reason|msg|e]; try discriminate Hrep;
    cbn [response]; [|by eauto].
  destruct v as [| | | | s|l|d]; try (cbn; by eauto).
  cbn in Hrep. apply orb_false_iff in Hrep as [Herr Hconf].
  unfold row_of. cbn. rewrite Herr. cbn.
  destruct (d !! "confidence") as [v|]; [|discriminate Hconf].
  destruct v as [|b|z|x|t|l|m]; try discriminate Hconf; cbn; eauto.
  cbn in Hconf. destruct (int_to_float z); [discriminate Hconf|cbn; eauto].
Qed.


(** X5. One reply that cannot be reported loses the whole batch: if the
    reply to some labeled clip is a body that is not an object, or an
    object without the key [error] whose [confidence] is present and
    not a number that can be formatted, or if the request could not be
    built, [main] ends with an exception and writes no results file,
    whatever the other clips and replies are. *)
Theorem unreportable_reply_aborts (post : nat → payload → reply)
    (clips pre rest : list recording) (c : recording) (p : payload) :
  labeled clips = pre ++ c :: rest →
  build_payload c = Ok p →
  reportable (post (length pre) p) = false →
  ∃ done e, main post clips = (done, Raise e).
Proof.
  intros Hl Hp Hrep. unfold main, Evaluation.main.
  destruct clips as [|c0 clips0]; [by eauto|].
  rewrite Hl.
  destruct (evaluate_raise_app post pre (c :: rest) 0) as (done & e & Hraise).
  - cbn [Evaluation.evaluate Nat.add]. unfold evaluate. cbn [Evaluation.evaluate].
    destruct (evaluate_one_unreportable (post (length pre)) c p Hp Hrep) as (done & e & Hone).
    unfold evaluate_one in Hone. rewrite Hone. eauto.
  - unfold evaluate in Hraise. rewrite Hraise. eauto.
Qed.

(** X6. A failed call is recorded, not retried and not waited on, and
    leaves no trace in what follows: when the request ends in an HTTP
    error or any other failure, the entry has the error flag and a
    message, every field of the verdict is null, the script does not
    sleep, the builder counts the entry as an error without reading
    anything else, and the metrics ignore it. *)
Theorem failed_call_is_skipped (post : payload → reply) (c : recording) (p : payload) :
  build_payload c = Ok p →
  failed (post p) = true →
  ∃ r,
    evaluate_one post c = ([Posted p], Ok r) ∧
    cosmos_error r = true ∧
    (∃ msg, cosmos_error_msg r = PStr msg) ∧
    cosmos_intentional r = PNone ∧
    cosmos_final_intent r = PNone ∧
    cosmos_confidence r = PNone ∧
    cosmos_reason r = PNone ∧
    ∀ r', as_result r = Some r' →
      (∀ clips_by_id t, Builder.step clips_by_id t r' = Ok (Builder.count_error t)) ∧
      (∀ g cells, Metrics.count g cells r' = cells).
Proof.
  intros Hp Hfail. unfold evaluate_one, Evaluation.evaluate_one. rewrite Hp.
  destruct (post p) as [v|code reason|msg|e]; try discriminate Hfail;
    unfold row_of; cbn;
    (eexists; split; [reflexivity|]; cbn; repeat split; eauto;
     unfold as_result in *; cbn in *; destruct (Clip.label c); try discriminate;
     match goal with H : Some _ = Some _ |- _ => injection H as <- end; reflexivity).
Qed.

(** X7. The intent proposed to the verifier: the detected gesture when
    the clip has one; otherwise always one of the four gesture types,
    and for a clip labeled as a true positive the very intent that the
    calibration builder expects the teacher to confirm. *)
Theorem proposed_intent_of_label (c : recording) (p : payload) :
  build_payload c = Ok p →
  (truthy (Clip.gesture_detected c) = true →
     proposed_intent p = Clip.gesture_detected c) ∧
  (truthy (Clip.gesture_detected c) = false →
     ∃ g, g ∈ Metrics.gesture_types ∧ proposed_intent p = PStr g ∧
       ∀ l, Clip.label c = PStr l → l ∈ Builder.TP_LABELS →
         Builder.LABEL_TO_INTENT !! l = Some g).
Proof.
  unfold build_payload. intros Hp.
  destruct (truthy (Clip.gesture_detected c)) eqn:E.
  - cbn in Hp. injection Hp as <-. split; [done|discriminate].
  - split; [discriminate|]. intros _.
    assert (Hsr : "SWITCH_RIGHT" ∈ Metrics.gesture_types) by (vm_compute; set_solver).
    destruct (Clip.label c) as [| | | |l| |] eqn:El; cbn in Hp; try discriminate Hp;
      injection Hp as <-; cbn [proposed_intent].
    1-4: eexists; split; [exact Hsr|]; split; [done|]; intros ? [=].
    exists (default "SWITCH_RIGHT" (LABEL_DEFAULT_INTENT !! l)).
    split; [|split; [done|]].
    + destruct (LABEL_DEFAULT_INTENT !! l) as [g|] eqn:Hg; [|exact Hsr].
      clear El. revert l g Hg. change (map_Forall (λ _ g, g ∈ Metrics.gesture_types) LABEL_DEFAULT_INTENT).
      apply (bool_decide_unpack _). vm_compute. reflexivity.
    + intros l' [= <-] Hin. apply TP_LABELS_cases in Hin.
      destruct Hin as [-> | [-> | [-> | ->]]]; vm_compute; reflexivity.
Qed.

End EvaluationFacts.

(** ** The distiller and the log of the verifier *)

Section LogFacts.
Context `{Runtime}.
Import Trainer.

Lemma truthy_dict (m : gmap string pyval) : truthy (PDict m) = true ↔ m ≠ ∅.
Proof.
  cbn. rewrite negb_true_iff, Nat.eqb_neq. by rewrite map_size_empty_iff.
Qed.

Lemma labeled_event_frame (d d' : gmap string pyval) :
  (∀ k, k ∈ distilled_keys → d !! k = d' !! k) →
  labeled_event (PDict d) = labeled_event (PDict d').
Proof.
  intros Hk. unfold labeled_event. cbn [get].
  rewrite (Hk "response_json"), (Hk "features"), (Hk "proposed_intent"), (Hk "event_id")
    by (unfold distilled_keys; set_solver).
  reflexivity.
Qed.

Lemma labeled_event_usable (d f r : gmap string pyval) (conf reason intentional : pyval) :
  usable d f r conf reason intentional →
  labeled_event (PDict d) = Ok (Some (event_of d f conf reason intentional)).
Proof.
  intros (Hf & Hfne & Hr & Hrne & Hsv & Hc & Hlow & Hreason & Hunk & Hi & Hnone & Hg).
  apply truthy_dict in Hfne, Hrne.
  assert (py_or (PDict r) (PDict ∅) = PDict r) as Hor by (unfold py_or; by rewrite Hrne).
  unfold labeled_event. cbn [get]. rewrite Hr, Hf.
  cbn [mbind result_bind id default from_option]. rewrite Hor, Hfne, Hrne.
  cbn [negb orb get mbind result_bind]. rewrite Hsv. cbn [negb].
  rewrite Hc, Hreason, Hi. cbn [mbind result_bind id default from_option].
  assert (∀ x y, (if truthy x then Ok x else Ok y) = Ok (py_or x y)) as ->
    by (intros x y; unfold py_or; by destruct (truthy x)).
  fold (gesture_of d f). cbn [mbind result_bind]. rewrite Hlow. cbn [mbind result_bind].
  rewrite Hunk.
  assert (∀ v, v ≠ PNone → is_None v = false) as Hn by (by intros []).
  rewrite !Hn by done. reflexivity.
Qed.

Lemma labeled_event_kept (d : gmap string pyval) (e : event) :
  labeled_event (PDict d) = Ok (Some e) →
  ∃ f r conf reason intentional,
    usable d f r conf reason intentional ∧ e = event_of d f conf reason intentional.
Proof.
  unfold labeled_event. cbn [get]. cbn [mbind result_bind]. intros He.
  destruct (truthy (default PNone (d !! "features"))) eqn:Hft; [|discriminate He].
  destruct (truthy (py_or (default PNone (d !! "response_json")) (PDict ∅))) eqn:Hrt;
    [|discriminate He].
  cbn [negb orb] in He.
  unfold py_or in Hrt, He.
  destruct (truthy (default PNone (d !! "response_json"))) eqn:Hrt'; [|discriminate Hrt].
  destruct (d !! "response_json") as [[| | | | | |r]|] eqn:Hr; try discriminate He;
    try discriminate Hrt'.
  cbn [default from_option id get mbind result_bind] in He.
  destruct (truthy (default (PBool true) (r !! "schema_valid"))) eqn:Hsv;
    [|discriminate He].
  cbn [negb] in He.
  destruct (d !! "features") as [[| | | | | |f]|] eqn:Hf; try discriminate He;
    try discriminate Hft.
  cbn [default from_option id get mbind result_bind] in He.
  assert (∀ x y, (if truthy x then Ok x else Ok y) = Ok (py_or x y)) as Hor
    by (intros x y; unfold py_or; by destruct (truthy x)).
  rewrite Hor in He. fold (gesture_of d f) in He. cbn [mbind result_bind] in He.
  destruct (lt_float (default (PFloat 0) (r !! "confidence")) 0.75) as [[|]|] eqn:Hlow;
    try discriminate He.
  cbn [mbind result_bind] in He.
  destruct (eq_str (default (PStr "unknown") (r !! "reason_category")) "unknown") eqn:Hunk;
    [discriminate He|].
  destruct (is_None (default PNone (r !! "intentional"))) eqn:Hi; [discriminate He|].
  destruct (is_None (gesture_of d f)) eqn:Hg; [discriminate He|].
  cbn [orb] in He. injection He as <-.
  destruct (r !! "confidence") as [conf|] eqn:Hc;
    [|vm_compute in Hlow; discriminate Hlow].
  destruct (r !! "reason_category") as [reason|] eqn:Hreason;
    [|vm_compute in Hunk; discriminate Hunk].
  destruct (r !! "intentional") as [intentional|] eqn:Hint; [|discriminate Hi].
  exists f, r, conf, reason, intentional. split; [|reflexivity].
  unfold usable. rewrite <- !truthy_dict.
  repeat split; try done.
  - intros ->. discriminate Hi.
  - intros E. rewrite E in Hg. discriminate Hg.
Qed.

(** X8. What the distiller keeps. A log record becomes a training event
    exactly when its features and its teacher response are non-empty
    objects, the response does not carry a falsy [schema_valid], its
    confidence is present and not below 0.75, its reason is present and
    not [unknown], its intentional flag is present and not null, and a
    gesture type is found in the features or, failing that, in the
    proposed intent of the record. The event then carries the features
    unchanged, that gesture type, label 1 for a truthy flag and 0
    otherwise, and the event identifier of the record. *)
Theorem distiller_acceptance (d : gmap string pyval) (e : event) :
  labeled_event (PDict d) = Ok (Some e)
  ↔ ∃ f r conf reason intentional,
      usable d f r conf reason intentional ∧ e = event_of d f conf reason intentional.
Proof.
  split.
  - apply labeled_event_kept.
  - intros (f & r & conf & reason & intentional & Hu & ->).
    by apply (labeled_event_usable d f r).
Qed.

Lemma kept_Json {A : Type} (parse : pyval → result (option A)) (record : pyval)
    (lines : list line) :
  kept parse (Json record :: lines)
  = match parse record with
    | Ok (Some e) => e :: kept parse lines
    | _ => kept parse lines
    end.
Proof. unfold kept. cbn. by destruct (parse record) as [[e|]|]. Qed.

Lemma scan_lines_app {A : Type} (parse : pyval → result (option A))
    (l1 l2 : list line) :
  ∀ evs,
  scan_lines parse evs (l1 ++ l2)
  = (evs' ← scan_lines parse evs l1; scan_lines parse evs' l2).
Proof.
  induction l1 as [|[| |record|e] l1 IH]; intros evs; cbn [app scan_lines];
    try apply IH; try reflexivity.
  destruct (parse record) as [e|]; cbn; [apply IH|reflexivity].
Qed.

Lemma readable_cons {A : Type} (parse : pyval → result (option A)) (l : line)
    (lines : list line) :
  readable parse (l :: lines)
  ↔ match l with
    | Fails _ => False
    | Json record => is_ok (parse record) = true
    | Blank | Malformed => True
    end ∧ readable parse lines.
Proof.
  unfold readable. split.
  - intros [Hf Hj]. split; [|split].
    + destruct l as [| |record|e]; try done.
      * apply Hj. constructor.
      * apply (Hf e). constructor.
    + intros e Hin. apply (Hf e). by right.
    + intros record Hin. apply Hj. by right.
  - intros (Hl & Hf & Hj). split.
    + intros e Hin. apply elem_of_cons in Hin as [<-|Hin]; [done|by apply (Hf e)].
    + intros record Hin. apply elem_of_cons in Hin as [<-|Hin]; [done|by apply Hj].
Qed.

Lemma readable_nil {A : Type} (parse : pyval → result (option A)) : readable parse [].
Proof. split; [intros e Hin|intros record Hin]; by apply elem_of_nil in Hin. Qed.

Lemma scan_lines_Ok {A : Type} (parse : pyval → result (option A)) (lines : list line) :
  ∀ evs res,
  scan_lines parse evs lines = Ok res
  ↔ readable parse lines ∧ res = evs ++ kept parse lines.
Proof.
  induction lines as [|[| |record|e] lines IH]; intros evs res;
    rewrite ?readable_cons; cbn [scan_lines].
  - change (kept parse []) with (@nil A). rewrite app_nil_r. split.
    + intros [= <-]. split; [apply readable_nil|done].
    + by intros [_ ->].
  - rewrite IH. change (kept parse (Blank :: lines)) with (kept parse lines). tauto.
  - rewrite IH. change (kept parse (Malformed :: lines)) with (kept parse lines). tauto.
  - rewrite kept_Json. destruct (parse record) as [o|x] eqn:Hp; cbn.
    + rewrite IH. destruct o as [a|]; cbn.
      * rewrite <- app_assoc. cbn. tauto.
      * rewrite app_nil_r. tauto.
    + split; [discriminate|]. intros [[Hr _] _]. discriminate Hr.
  - split; [discriminate|]. by intros [[[] _] _].
Qed.

Lemma scan_lines_first_failure {A : Type} (parse : pyval → result (option A))
    (pre post : list line) (e : exn) :
  ∀ evs, readable parse pre → scan_lines parse evs (pre ++ Fails e :: post) = Raise e.
Proof.
  intros evs Hpre. rewrite scan_lines_app.
  destruct (scan_lines parse evs pre) as [evs'|x] eqn:Hscan; [reflexivity|].
  assert (scan_lines parse evs pre = Ok (evs ++ kept parse pre)) as Hok
    by (by apply scan_lines_Ok).
  congruence.
Qed.

Lemma scan_lines_without_skipped {A : Type} (parse : pyval → result (option A))
    (lines : list line) :
  ∀ evs, scan_lines parse evs (without_skipped lines) = scan_lines parse evs lines.
Proof.
  unfold without_skipped.
  induction lines as [|[| |record|e] lines IH]; intros evs; [reflexivity|..].
  - rewrite filter_cons_False by done. apply IH.
  - rewrite filter_cons_False by done. apply IH.
  - rewrite filter_cons_True by done. cbn [scan_lines].
    destruct (parse record); cbn; [apply IH|reflexivity].
  - rewrite filter_cons_True by done. reflexivity.
Qed.

Lemma scan_logs_concat (logs : list (list line)) :
  ∀ evs, scan_logs evs logs = scan_lines labeled_event evs (concat logs).
Proof.
  induction logs as [|f logs IH]; intros evs; cbn [scan_logs concat]; [reflexivity|].
  rewrite scan_lines_app. destruct (scan_lines labeled_event evs f); cbn; [apply IH|done].
Qed.

Lemma load_labeled_events_concat (logs : list (list line)) :
  logs ≠ [] →
  load_labeled_events logs = scan_lines labeled_event [] (concat logs).
Proof.
  intros Hne. unfold load_labeled_events. destruct logs; [done|]. apply scan_logs_concat.
Qed.

(** X9. How the logs are read. The loader returns exactly when there is
    at least one log file, no line fails to be read or parsed with an
    exception other than [json.JSONDecodeError], and no JSON value makes
    the distiller raise; the events are then those of the usable lines
    of all the log files, in the order of the files and of the lines.
    Blank lines and lines refused with [json.JSONDecodeError] can be
    removed without changing the result, and the boundaries between
    files do not matter. A line that is valid JSON but not an object
    makes the loader fail as a whole, and so does a line on which
    [json.loads] raises anything else than [json.JSONDecodeError]: the
    first such line ends the run with its exception. *)
Theorem distiller_reads_logs_in_order (logs : list (list line)) :
  (∀ evs, load_labeled_events logs = Ok evs
     ↔ logs ≠ [] ∧ readable labeled_event (concat logs)
       ∧ evs = kept labeled_event (concat logs))
  ∧ load_labeled_events (map without_skipped logs) = load_labeled_events logs
  ∧ (∀ logs', logs ≠ [] → logs' ≠ [] → concat logs' = concat logs →
       load_labeled_events logs' = load_labeled_events logs)
  ∧ (∀ v, Json v ∈ concat logs → (∀ d, v ≠ PDict d) →
       ∃ e, load_labeled_events logs = Raise e)
  ∧ (∀ pre post e, logs ≠ [] → concat logs = pre ++ Fails e :: post →
       readable labeled_event pre →
       load_labeled_events logs = Raise e).
Proof.
  assert (∀ evs, load_labeled_events logs = Ok evs
     ↔ logs ≠ [] ∧ readable labeled_event (concat logs)
       ∧ evs = kept labeled_event (concat logs)) as Hiff.
  { intros evs. unfold load_labeled_events. destruct logs as [|f logs].
    - split; [discriminate|]. by intros [? _].
    - rewrite scan_logs_concat, scan_lines_Ok. cbn [app]. split.
      + intros [? ?]. done.
      + intros (_ & ? & ?). done. }
  split; [exact Hiff|]. split; [|split; [|split]].
  - destruct logs as [|f logs]; [reflexivity|].
    rewrite !load_labeled_events_concat by done.
    assert (∀ (l : list (list line)) evs,
              scan_lines labeled_event evs (concat (map without_skipped l))
              = scan_lines labeled_event evs (concat l)) as Hall.
    { induction l as [|f' l IH]; intros evs; [reflexivity|].
      cbn [map concat]. rewrite !scan_lines_app, scan_lines_without_skipped.
      destruct (scan_lines labeled_event evs f'); cbn; [apply IH|reflexivity]. }
    apply Hall.
  - intros logs' Hne Hne' Hcat. rewrite !load_labeled_events_concat by done.
    by rewrite Hcat.
  - intros v Hin Hv.
    destruct (load_labeled_events logs) as [evs|e] eqn:Hload; [|by eauto].
    destruct (proj1 (Hiff evs) eq_refl) as (_ & [_ Hr] & _). specialize (Hr v Hin).
    destruct v; try discriminate Hr. by destruct (Hv d).
  - intros pre post e Hne Hcat Hpre. rewrite load_labeled_events_concat by done.
    rewrite Hcat. by apply scan_lines_first_failure.
Qed.

Lemma step_well_shaped (clips_by_id : gmap string Clip.clip) (t t' : Builder.tally)
    (r : Harness.eval_result) :
  Builder.step clips_by_id t r = Ok t' →
  Forall well_shaped (Builder.accepted t) →
  Forall well_shaped (Builder.accepted t').
Proof.
  unfold Builder.step. intros Hstep Ht.
  destruct (Harness.cosmos_error r); [by injection Hstep as <-|].
  destruct (Builder.agreement clips_by_id r) as [[[label_int gesture_type]|]|] eqn:Hag;
    cbn in Hstep; try discriminate Hstep; [|by injection Hstep as <-].
  destruct (clips_by_id !! Harness.clip_id r) as [clip|] eqn:Hclip;
    [|by injection Hstep as <-].
  destruct (truthy (Clip.features clip)) eqn:Hfeat; cbn in Hstep;
    [|by injection Hstep as <-].
  injection Hstep as <-. cbn [Builder.accept Builder.accepted].
  apply Forall_app. split; [exact Ht|]. apply Forall_singleton.
  unfold well_shaped. cbn. split; [exact Hfeat|].
  destruct (decide (Harness.user_label r ∈ Builder.TP_LABELS)) as [Htp|Htp].
  - destruct (agreement_tp clips_by_id r Htp) as (intent & Hmap & _ & Hag').
    rewrite Hag' in Hag.
    destruct (is_True _ && eq_str _ _); [|discriminate Hag].
    injection Hag as <- <-. split; [|by right].
    destruct (TP_LABELS_cases _ Htp) as [E | [E | [E | E]]]; rewrite E in Hmap;
      vm_compute in Hmap; injection Hmap as <-; reflexivity.
  - rewrite (agreement_not_tp clips_by_id r Htp) in Hag.
    destruct (String.prefix _ _ && is_False _); [|discriminate Hag].
    injection Hag as <- <-. split; [|by left].
    rewrite Hclip. unfold py_or. by destruct (truthy (Clip.gesture_detected clip)) eqn:E.
Qed.

Lemma loop_well_shaped (clips_by_id : gmap string Clip.clip)
    (results : list Harness.eval_result) :
  ∀ t t',
  Builder.loop clips_by_id t results = Ok t' →
  Forall well_shaped (Builder.accepted t) →
  Forall well_shaped (Builder.accepted t').
Proof.
  induction results as [|r rest IH]; intros t t'; cbn [Builder.loop].
  - by intros [= <-].
  - destruct (Builder.step clips_by_id t r) as [t1|] eqn:Hstep; [|discriminate].
    cbn. intros Hloop Ht. apply (IH t1 t' Hloop).
    by apply (step_well_shaped clips_by_id t t1 r).
Qed.

Lemma calibration_sample_read_back (rec : Builder.record) :
  well_shaped rec →
  (∃ bag, Builder.features rec = PDict bag) →
  calibration_sample (to_json rec) = Ok (Some (read_back rec)).
Proof.
  intros (Hfeat & Hgt & Hlabel) [bag Hbag].
  unfold calibration_sample, to_json. cbn [get].
  match goal with |- context [list_to_map ?l] => set (d := list_to_map l) end.
  assert (d !! "features" = Some (Builder.features rec)) as -> by (vm_compute; reflexivity).
  assert (d !! "gesture_type" = Some (Builder.gesture_type rec)) as ->
    by (vm_compute; reflexivity).
  assert (d !! "label" = Some (PInt (Builder.label rec))) as -> by (vm_compute; reflexivity).
  cbn [default from_option id mbind result_bind]. unfold read_back.
  unfold py_or at 1. rewrite Hfeat, Hbag. cbn [get mbind result_bind].
  assert (∀ x y, (if truthy x then Ok x else Ok y) = Ok (py_or x y)) as ->
    by (intros x y; unfold py_or; by destruct (truthy x)).
  cbn [mbind result_bind is_None orb].
  assert (is_None (py_or (default PNone (bag !! "gestureType")) (Builder.gesture_type rec))
          = false) as ->.
  { unfold py_or. destruct (truthy (default PNone (bag !! "gestureType"))) eqn:E.
    - by destruct (default PNone (bag !! "gestureType")).
    - by destruct (Builder.gesture_type rec). }
  reflexivity.
Qed.

Lemma features_to_row_feature_bag (bag : gmap string pyval) (gesture_type : pyval) :
  feature_bag bag →
  Codec.features_to_row (PDict bag) gesture_type
  = Ok (map (column bag) Codec.FEATURE_NAMES ++ Codec.onehot gesture_type).
Proof.
  intros Hfb. unfold Codec.features_to_row. by rewrite (numeric_feature_bag bag Hfb).
Qed.

Lemma calibration_lines_kept (recs : list Builder.record) :
  Forall well_shaped recs →
  Forall (λ rec, ∃ bag, Builder.features rec = PDict bag) recs →
  readable calibration_sample (map (λ rec, Json (to_json rec)) recs)
  ∧ kept calibration_sample (map (λ rec, Json (to_json rec)) recs) = map read_back recs.
Proof.
  induction recs as [|rec recs IH]; intros Hs Hb.
  - split; [apply readable_nil|reflexivity].
  - apply Forall_cons in Hs as [Hs Hss]. apply Forall_cons in Hb as [Hb Hbs].
    destruct (IH Hss Hbs) as [Hr Hk].
    pose proof (calibration_sample_read_back rec Hs Hb) as Hrec.
    split.
    + cbn [map]. apply readable_cons. split; [by rewrite Hrec|exact Hr].
    + cbn [map]. rewrite kept_Json, Hrec, Hk. reflexivity.
Qed.

(** X10. From the builder to the trainer. Every record that the builder
    accepts has truthy features, a truthy gesture type and label 0 or
    1. When the features of the accepted records are feature bags, the
    trainer reads the calibration file back without dropping a line:
    one row of sixteen columns per record and the labels of the
    builder, in its order; the gesture type encoded in a row is the one
    named by the features when they name one, and only otherwise the
    one stored by the builder. When nothing was accepted the trainer
    finds no calibration set. *)
Theorem calibration_round_trip (clips_by_id : gmap string Clip.clip)
    (results : list Harness.eval_result) (t : Builder.tally) :
  Builder.loop clips_by_id Builder.start results = Ok t →
  Forall with_feature_bag (Builder.accepted t) →
  Forall well_shaped (Builder.accepted t)
  ∧ scan_lines calibration_sample [] (calibration_lines t)
    = Ok (map read_back (Builder.accepted t))
  ∧ (Builder.accepted t = [] → load_calibration (Some (calibration_lines t)) = Ok None)
  ∧ (Builder.accepted t ≠ [] →
       ∃ X, load_calibration (Some (calibration_lines t))
            = Ok (Some (X, map Builder.label (Builder.accepted t)))
          ∧ length X = length (Builder.accepted t)
          ∧ Forall (λ row, length row = 16%nat) X).
Proof.
  intros Hloop Hbags.
  assert (Forall well_shaped (Builder.accepted t)) as Hshaped.
  { apply (loop_well_shaped clips_by_id results Builder.start t Hloop). constructor. }
  assert (Forall (λ rec, ∃ bag, Builder.features rec = PDict bag) (Builder.accepted t))
    as Hdicts.
  { eapply Forall_impl; [exact Hbags|]. intros rec (bag & ? & _). eauto. }
  destruct (calibration_lines_kept _ Hshaped Hdicts) as [Hr Hk].
  assert (scan_lines calibration_sample [] (calibration_lines t)
          = Ok (map read_back (Builder.accepted t))) as Hscan.
  { apply scan_lines_Ok. split; [exact Hr|]. cbn [app]. symmetry. exact Hk. }
  split; [exact Hshaped|]. split; [exact Hscan|].
  unfold load_calibration. rewrite Hscan. cbn [mbind result_bind].
  split.
  - intros ->. reflexivity.
  - intros Hne.
    destruct (Builder.accepted t) as [|rec recs] eqn:Hacc; [done|]. clear Hne.
    rewrite <- Hacc in *. clear Hscan Hr Hk.
    assert (∃ rows, traverse (λ e : sample, Codec.features_to_row (features e) (gesture_type e))
                      (map read_back (Builder.accepted t)) = Ok rows
                    ∧ length rows = length (Builder.accepted t)
                    ∧ Forall (λ row, length row = 16%nat) rows) as (rows & Hrows & Hlen & H16).
    { clear Hacc Hloop Hshaped Hdicts.
      induction (Builder.accepted t) as [|a l IH].
      - exists []. by repeat split.
      - apply Forall_cons in Hbags as [(bag & Hbag & Hfb) Hl].
        destruct (IH Hl) as (rows & Hrows & Hlen & H16).
        cbn [map traverse]. change (features (read_back a)) with (Builder.features a).
        rewrite Hbag, (features_to_row_feature_bag bag _ Hfb).
        cbn [mbind result_bind]. rewrite Hrows.
        cbn [mbind result_bind]. eexists. split; [reflexivity|].
        split; [cbn; by rewrite Hlen|].
        apply Forall_cons. split; [|exact H16].
        rewrite length_app, length_map. reflexivity. }
    assert (map read_back (Builder.accepted t) ≠ []) as Hne by (by rewrite Hacc).
    destruct (map read_back (Builder.accepted t)) as [|s0 ss] eqn:Hmap; [done|].
    unfold build_matrix. rewrite Hrows. cbn [mbind result_bind].
    assert (traverse int32 (map label (s0 :: ss)) = Ok (map Builder.label (Builder.accepted t)))
      as ->.
    { rewrite <- Hmap, map_map.
      change (map (λ x, label (read_back x)) (Builder.accepted t))
        with (map Builder.label (Builder.accepted t)).
      apply traverse_int32. apply Forall_map.
      eapply Forall_impl; [exact Hshaped|]. intros r (_ & _ & [Hl|Hl]); cbn; lia. }
    cbn [mbind result_bind].
    eexists. split.
    + reflexivity.
    + split; [by rewrite length_map|].
      apply Forall_map. eapply Forall_impl; [exact H16|].
      intros row Hrow. cbn. by rewrite length_map.
Qed.

Lemma with_key_lookup_ne (k k' : string) (v : pyval) (d : gmap string pyval) :
  k ≠ k' → Verifier.with_key k v d !! k' = d !! k'.
Proof.
  intros Hk. unfold Verifier.with_key. destruct (truthy v); [|reflexivity].
  by rewrite lookup_insert_ne.
Qed.

Lemma with_key_lookup (k : string) (v : pyval) (d : gmap string pyval) :
  d !! k = None →
  Verifier.with_key k v d !! k = if truthy v then Some v else None.
Proof.
  intros Hk. unfold Verifier.with_key. destruct (truthy v); [|exact Hk].
  by rewrite lookup_insert_eq.
Qed.

Lemma labeled_event_null_response (d : gmap string pyval) :
  d !! "response_json" = Some PNone → labeled_event (PDict d) = Ok None.
Proof.
  intros Hd. unfold labeled_event. cbn [get]. rewrite Hd.
  cbn [default from_option id mbind result_bind]. unfold py_or at 1.
  cbn [truthy]. change (truthy (PDict ∅)) with false. by rewrite orb_true_r.
Qed.

Section Handler.

Variable NIM_ENABLED : bool.
Variable call_cosmos_nim :
  string → option (list string) → option (gmap string pyval) → option float → bool →
  Verifier.outcome pyval.
Variable build_stub_response : string → string → bool → Verifier.outcome pyval.
Variable validate_response : pyval → Verifier.outcome (bool * option string).
Variable VerifyResponse : pyval → Verifier.outcome pyval.

Let verify :=
  Verifier.verify NIM_ENABLED call_cosmos_nim build_stub_response validate_response
    VerifyResponse.

Lemma log_record_fields (req : Verifier.request) (ts latency_ms : float)
    (nim_called : bool) (response_json : pyval) (schema_valid : bool)
    (schema_error : option string) :
  let record :=
    Verifier.log_record req ts nim_called latency_ms response_json schema_valid
      schema_error in
  record !! "event_id" = Some (PStr (Verifier.event_id req))
  ∧ record !! "proposed_intent" = Some (PStr (Verifier.proposed_intent req))
  ∧ record !! "response_json" = Some response_json
  ∧ record !! "schema_valid" = Some (PBool schema_valid)
  ∧ record !! "nim_called" = Some (PBool nim_called)
  ∧ record !! "features"
    = (if truthy (Verifier.opt_dict (Verifier.features req))
       then Some (Verifier.opt_dict (Verifier.features req)) else None).
Proof.
  cbv zeta. unfold Verifier.log_record.
  match goal with |- context [list_to_map ?l] => set (base := list_to_map l) end.
  repeat split;
    rewrite ?with_key_lookup_ne by done;
    try (vm_compute; reflexivity).
  rewrite with_key_lookup; [reflexivity|].
  rewrite with_key_lookup_ne by done. vm_compute. reflexivity.
Qed.

Lemma failure_record_fields (req : Verifier.request) (ts latency_ms : float)
    (error : pyval) :
  let record := Verifier.failure_record NIM_ENABLED req ts latency_ms error in
  record !! "event_id" = Some (PStr (Verifier.event_id req))
  ∧ record !! "proposed_intent" = Some (PStr (Verifier.proposed_intent req))
  ∧ record !! "response_json" = Some PNone
  ∧ record !! "schema_valid" = Some (PBool false)
  ∧ record !! "error" = Some error.
Proof.
  cbv zeta. unfold Verifier.failure_record.
  match goal with |- context [list_to_map ?l] => set (base := list_to_map l) end.
  repeat split;
    rewrite ?lookup_insert_eq; try reflexivity;
    rewrite lookup_insert_ne by done;
    rewrite ?with_key_lookup_ne by done;
    vm_compute; reflexivity.
Qed.

Lemma verifier_logging_bounds (ts latency_ms latency_ms' : float) (req : Verifier.request)
    (query_force_reject : bool) :
  let log := (verify ts latency_ms latency_ms' req query_force_reject).1 in
  let out := (verify ts latency_ms latency_ms' req query_force_reject).2 in
  (1 ≤ length log ≤ 2)%nat
  ∧ (∀ record, record ∈ log →
       record !! "event_id" = Some (PStr (Verifier.event_id req))
       ∧ record !! "proposed_intent" = Some (PStr (Verifier.proposed_intent req))
       ∧ ∃ b, record !! "schema_valid" = Some (PBool b))
  ∧ (∀ record, log !! 1%nat = Some record →
       record !! "response_json" = Some PNone
       ∧ record !! "schema_valid" = Some (PBool false))
  ∧ (∀ response, out = Verifier.Returns response →
       ∃ record response_json schema_error,
         log = [record]
         ∧ record !! "response_json" = Some response_json
         ∧ record !! "schema_valid" = Some (PBool true)
         ∧ validate_response response_json = Verifier.Returns (true, schema_error)
         ∧ VerifyResponse response_json = Verifier.Returns response)
  ∧ (∀ e, out = Verifier.Raises e → ∃ status_code detail,
       e = Verifier.HTTPException status_code detail)
  ∧ (query_force_reject || Verifier.force_reject req = true →
       ∀ record, record ∈ log →
         record !! "response_json" = Some PNone
         ∨ record !! "nim_called" = Some (PBool false)).
Proof.
  cbv zeta. subst verify. unfold Verifier.verify.
  set (combined := query_force_reject || Verifier.force_reject req).
  set (nim_called := NIM_ENABLED && negb combined).
  match goal with |- context [if nim_called then ?a else ?b] =>
    generalize (if nim_called then a else b) end.
  intros called.
  assert (Hfail : ∀ lat error record,
            record ∈ [Verifier.failure_record NIM_ENABLED req ts lat error] →
            record !! "event_id" = Some (PStr (Verifier.event_id req))
            ∧ record !! "proposed_intent" = Some (PStr (Verifier.proposed_intent req))
            ∧ record !! "response_json" = Some PNone
            ∧ record !! "schema_valid" = Some (PBool false)).
  { intros lat error record Hin. apply list_elem_of_singleton in Hin as ->.
    destruct (failure_record_fields req ts lat error) as (? & ? & ? & ? & _). done. }
  assert (Hunlogged : ∀ e,
    let log := (@Verifier.unlogged NIM_ENABLED pyval req ts latency_ms e).1 in
    let out := (@Verifier.unlogged NIM_ENABLED pyval req ts latency_ms e).2 in
    (1 ≤ length log ≤ 2)%nat
    ∧ (∀ record, record ∈ log →
         record !! "event_id" = Some (PStr (Verifier.event_id req))
         ∧ record !! "proposed_intent" = Some (PStr (Verifier.proposed_intent req))
         ∧ record !! "response_json" = Some PNone
         ∧ record !! "schema_valid" = Some (PBool false))
    ∧ log !! 1%nat = None
    ∧ (∀ response, out ≠ Verifier.Returns response)
    ∧ (∃ status_code detail, out = Verifier.Raises (Verifier.HTTPException status_code detail))).
  { intros [status_code detail|str]; cbn; (split; [lia|]);
      (split; [by apply Hfail|]); (split; [done|]); (split; [done|]); eauto. }
  assert (Hcase : ∀ e, 
    let log := (@Verifier.unlogged NIM_ENABLED pyval req ts latency_ms e).1 in
    let out := (@Verifier.unlogged NIM_ENABLED pyval req ts latency_ms e).2 in
    (1 ≤ length log ≤ 2)%nat
    ∧ (∀ record, record ∈ log →
         record !! "event_id" = Some (PStr (Verifier.event_id req))
         ∧ record !! "proposed_intent" = Some (PStr (Verifier.proposed_intent req))
         ∧ ∃ b, record !! "schema_valid" = Some (PBool b))
    ∧ (∀ record, log !! 1%nat = Some record →
         record !! "response_json" = Some PNone
         ∧ record !! "schema_valid" = Some (PBool false))
    ∧ (∀ response, out = Verifier.Returns response →
         ∃ record response_json schema_error,
           log = [record]
           ∧ record !! "response_json" = Some response_json
           ∧ record !! "schema_valid" = Some (PBool true)
           ∧ validate_response response_json = Verifier.Returns (true, schema_error)
           ∧ VerifyResponse response_json = Verifier.Returns response)
    ∧ (∀ e', out = Verifier.Raises e' → ∃ status_code detail,
         e' = Verifier.HTTPException status_code detail)
    ∧ (combined = true →
         ∀ record, record ∈ log →
           record !! "response_json" = Some PNone
           ∨ record !! "nim_called" = Some (PBool false))).
  { intros e. destruct (Hunlogged e) as (Hlen & Hrec & Hsnd & Hret & (c & dt & Hout)).
    cbv zeta. split; [exact Hlen|]. split.
    { intros record Hin. destruct (Hrec record Hin) as (? & ? & ? & ?). eauto. }
    split; [intros record Hin; by rewrite Hsnd in Hin|].
    split; [intros response Hr; by destruct (Hret response)|].
    split; [intros e' He'; rewrite Hout in He'; injection He' as <-; eauto|].
    intros _ record Hin. left. by destruct (Hrec record Hin) as (? & ? & ? & ?). }
  destruct called as [response_json|e]; [|exact (Hcase e)].
  destruct (validate_response response_json) as [[schema_valid schema_error]|e] eqn:Hval;
    [|exact (Hcase e)].
  destruct (log_record_fields req ts latency_ms nim_called response_json schema_valid
              schema_error) as (Hid & Hpi & Hresp & Hsv & Hnim & _).
  assert (Hforce : combined = true →
            Verifier.log_record req ts nim_called latency_ms response_json schema_valid
              schema_error !! "nim_called" = Some (PBool false)).
  { intros Hc. rewrite Hnim. subst nim_called. rewrite Hc. by rewrite andb_false_r. }
  destruct schema_valid; cbn [negb].
  - destruct (VerifyResponse response_json) as [response|[status_code detail|str]] eqn:Hmodel; cbn.
    + split; [lia|]. split.
      { intros record Hin. apply list_elem_of_singleton in Hin as ->. eauto. }
      split; [done|]. split.
      { intros ? [= <-]. eauto 10. }
      split; [done|].
      intros Hc record Hin. apply list_elem_of_singleton in Hin as ->. right. by apply Hforce.
    + split; [lia|]. split.
      { intros record Hin. apply list_elem_of_singleton in Hin as ->. eauto. }
      split; [done|]. split; [done|]. split; [intros ? [= <-]; eauto|].
      intros Hc record Hin. apply list_elem_of_singleton in Hin as ->. right. by apply Hforce.
    + split; [lia|]. split.
      { intros record Hin. apply elem_of_cons in Hin as [->|Hin]; [eauto|].
        destruct (Hfail _ _ _ Hin) as (? & ? & ? & ?). eauto. }
      split.
      { intros record [= <-].
        destruct (failure_record_fields req ts latency_ms' (PStr str)) as (? & ? & ? & ? & _).
        done. }
      split; [done|]. split; [intros ? [= <-]; eauto|].
      intros Hc record Hin. apply elem_of_cons in Hin as [->|Hin]; [right; by apply Hforce|].
      left. by destruct (Hfail _ _ _ Hin) as (? & ? & ? & ?).
  - cbn. split; [lia|]. split.
    { intros record Hin. apply list_elem_of_singleton in Hin as ->. eauto. }
    split; [done|]. split; [done|]. split; [intros ? [= <-]; eauto|].
    intros Hc record Hin. apply list_elem_of_singleton in Hin as ->. right. by apply Hforce.
Qed.

Lemma verify_log (ts latency_ms latency_ms' : float) (req : Verifier.request)
    (query_force_reject : bool) :
  (verify ts latency_ms latency_ms' req query_force_reject).1
  = match answered NIM_ENABLED call_cosmos_nim build_stub_response req query_force_reject with
    | Verifier.Raises e =>
        [Verifier.failure_record NIM_ENABLED req ts latency_ms (logged_error e)]
    | Verifier.Returns response_json =>
        match validate_response response_json with
        | Verifier.Raises e =>
            [Verifier.failure_record NIM_ENABLED req ts latency_ms (logged_error e)]
        | Verifier.Returns (schema_valid, schema_error) =>
            Verifier.log_record req ts (asked NIM_ENABLED req query_force_reject) latency_ms
              response_json schema_valid schema_error
            :: match VerifyResponse response_json with
               | Verifier.Raises (Verifier.Exception str) =>
                   if schema_valid
                   then [Verifier.failure_record NIM_ENABLED req ts latency_ms' (PStr str)]
                   else []
               | _ => []
               end
        end
    end.
Proof.
  subst verify. unfold Verifier.verify, answered, asked.
  destruct (if NIM_ENABLED && negb (query_force_reject || Verifier.force_reject req)
            then _ else _) as [response_json|[status_code detail|str]]; try reflexivity.
  destruct (validate_response response_json)
    as [[schema_valid schema_error]|[status_code detail|str]]; try reflexivity.
  destruct schema_valid; cbn [negb];
    destruct (VerifyResponse response_json) as [response|[status_code detail|str]];
    reflexivity.
Qed.

(** X11. What the handler of [/verify] logs and hands back, whatever
    the teacher, the schema check and the response model do. The log of
    a call is determined: one failure record, with the error of the
    exception, when the teacher (or the stub) or the schema check
    raises; otherwise the record of the call, with the response, the
    verdict of the schema check and whether the teacher was asked,
    followed by one failure record exactly when the schema check passed
    and the response model was then refused with an exception that is
    not an HTTP exception. So every call appends one record or two, and
    two in that one case only; every record carries the event
    identifier and the proposed intent of the request and a
    [schema_valid] flag; a second record holds a null response. A
    response is returned only when the schema check said valid, and is
    then the model of the logged response; every failure reaches the
    framework as an HTTP exception. With [force_reject], in the query
    or in the body, the teacher is not asked. *)
Theorem verifier_logging (ts latency_ms latency_ms' : float) (req : Verifier.request)
    (query_force_reject : bool) :
  let log := (verify ts latency_ms latency_ms' req query_force_reject).1 in
  let out := (verify ts latency_ms latency_ms' req query_force_reject).2 in
  let answer :=
    answered NIM_ENABLED call_cosmos_nim build_stub_response req query_force_reject in
  (∀ e, answer = Verifier.Raises e →
     log = [Verifier.failure_record NIM_ENABLED req ts latency_ms (logged_error e)])
  ∧ (∀ response_json e,
       answer = Verifier.Returns response_json →
       validate_response response_json = Verifier.Raises e →
       log = [Verifier.failure_record NIM_ENABLED req ts latency_ms (logged_error e)])
  ∧ (∀ response_json schema_valid schema_error,
       answer = Verifier.Returns response_json →
       validate_response response_json = Verifier.Returns (schema_valid, schema_error) →
       log !! 0%nat
       = Some (Verifier.log_record req ts (asked NIM_ENABLED req query_force_reject)
                 latency_ms response_json schema_valid schema_error)
       ∧ ∀ second, log !! 1%nat = Some second
           ↔ schema_valid = true
             ∧ ∃ str, VerifyResponse response_json = Verifier.Raises (Verifier.Exception str)
                 ∧ second = Verifier.failure_record NIM_ENABLED req ts latency_ms' (PStr str))
  ∧ (length log = 2%nat
     ↔ refused_after_valid NIM_ENABLED call_cosmos_nim build_stub_response
         validate_response VerifyResponse req query_force_reject)
  ∧ (length log = 1%nat
     ↔ ¬ refused_after_valid NIM_ENABLED call_cosmos_nim build_stub_response
           validate_response VerifyResponse req query_force_reject)
  ∧ (query_force_reject || Verifier.force_reject req = true →
       asked NIM_ENABLED req query_force_reject = false
       ∧ answer = build_stub_response (Verifier.event_id req) (Verifier.proposed_intent req)
                    true)
  ∧ (1 ≤ length log ≤ 2)%nat
  ∧ (∀ record, record ∈ log →
       record !! "event_id" = Some (PStr (Verifier.event_id req))
       ∧ record !! "proposed_intent" = Some (PStr (Verifier.proposed_intent req))
       ∧ ∃ b, record !! "schema_valid" = Some (PBool b))
  ∧ (∀ record, log !! 1%nat = Some record →
       record !! "response_json" = Some PNone
       ∧ record !! "schema_valid" = Some (PBool false))
  ∧ (∀ response, out = Verifier.Returns response →
       ∃ record response_json schema_error,
         log = [record]
         ∧ record !! "response_json" = Some response_json
         ∧ record !! "schema_valid" = Some (PBool true)
         ∧ validate_response response_json = Verifier.Returns (true, schema_error)
         ∧ VerifyResponse response_json = Verifier.Returns response)
  ∧ (∀ e, out = Verifier.Raises e → ∃ status_code detail,
       e = Verifier.HTTPException status_code detail)
  ∧ (query_force_reject || Verifier.force_reject req = true →
       ∀ record, record ∈ log →
         record !! "response_json" = Some PNone
         ∨ record !! "nim_called" = Some (PBool false)).
Proof.
  cbv zeta.
  pose proof (verify_log ts latency_ms latency_ms' req query_force_reject) as Hlog.
  pose proof (verifier_logging_bounds ts latency_ms latency_ms' req query_force_reject)
    as Hbounds.
  cbv zeta in Hbounds.
  remember (answered NIM_ENABLED call_cosmos_nim build_stub_response req
              query_force_reject) as answer eqn:Hanswer.
  remember ((verify ts latency_ms latency_ms' req query_force_reject).1) as log eqn:Hverify.
  clear Hverify.
  assert (length log = 2%nat
          ↔ refused_after_valid NIM_ENABLED call_cosmos_nim build_stub_response
              validate_response VerifyResponse req query_force_reject) as Htwo.
  { unfold refused_after_valid. rewrite <- Hanswer, Hlog. clear Hlog Hbounds Hanswer. split.
    - destruct answer as [response_json|e]; [|discriminate].
      destruct (validate_response response_json) as [[schema_valid schema_error]|e] eqn:Hv;
        [|discriminate].
      destruct (VerifyResponse response_json) as [response|[status_code detail|str]] eqn:Hm;
        try discriminate.
      destruct schema_valid; [|discriminate]. intros _. eauto 10.
    - intros (response_json & schema_error & str & -> & -> & ->). reflexivity. }
  split; [|split; [|split; [|split; [|split; [|split]]]]].
  - intros e He. rewrite Hlog, He. reflexivity.
  - intros response_json e Ha Hv. rewrite Hlog, Ha, Hv. reflexivity.
  - intros response_json schema_valid schema_error Ha Hv. rewrite Hlog, Ha, Hv.
    split; [reflexivity|]. intros second. cbn [lookup list_lookup].
    destruct (VerifyResponse response_json) as [response|[status_code detail|str]];
      cbn.
    + split; [discriminate|]. by intros (_ & str & [=] & _).
    + split; [discriminate|]. by intros (_ & str & [=] & _).
    + destruct schema_valid; cbn.
      * split.
        -- intros [= <-]. eauto.
        -- intros (_ & str' & [= <-] & ->). reflexivity.
      * split; [discriminate|]. by intros ([=] & _).
  - exact Htwo.
  - destruct Hbounds as (Hlen & _). rewrite <- Htwo. lia.
  - intros Hforce. rewrite Hanswer. unfold answered, asked. rewrite Hforce.
    by rewrite andb_false_r.
  - exact Hbounds.
Qed.

(** X12. What the distiller makes of the log of the verifier. A record
    of a failed call is never an event. For a record of a call that
    reached the schema check, neither the verdict of that check nor its
    message has any influence: the record is kept or dropped, and the
    event is the same, as if the response had been found valid. A
    record that is kept was logged for a request with features; the
    event carries these features and the event identifier of the
    request, and its gesture type is the one named by the features,
    otherwise the proposed intent of the request. *)
Theorem distiller_on_verifier_log (req : Verifier.request) (ts latency_ms : float)
    (nim_called : bool) (response_json error : pyval) (schema_valid : bool)
    (schema_error : option string) :
  labeled_event (PDict (Verifier.failure_record NIM_ENABLED req ts latency_ms error))
  = Ok None
  ∧ labeled_event
      (PDict (Verifier.log_record req ts nim_called latency_ms response_json schema_valid
                schema_error))
    = labeled_event
        (PDict (Verifier.log_record req ts nim_called latency_ms response_json true None))
  ∧ ∀ e,
      labeled_event
        (PDict (Verifier.log_record req ts nim_called latency_ms response_json schema_valid
                  schema_error))
      = Ok (Some e) →
      ∃ f, Verifier.features req = Some f
        ∧ features e = PDict f
        ∧ event_id e = PStr (Verifier.event_id req)
        ∧ gesture_type e
          = py_or (default PNone (f !! "gestureType"))
              (PStr (Verifier.proposed_intent req)).
Proof.
  split; [|split].
  - apply labeled_event_null_response.
    by destruct (failure_record_fields req ts latency_ms error) as (_ & _ & ? & _).
  - apply labeled_event_frame. intros k Hk.
    destruct (log_record_fields req ts latency_ms nim_called response_json schema_valid
                schema_error) as (Hid & Hpi & Hresp & _ & _ & Hfeat).
    destruct (log_record_fields req ts latency_ms nim_called response_json true None)
      as (Hid' & Hpi' & Hresp' & _ & _ & Hfeat').
    unfold distilled_keys in Hk. rewrite !elem_of_cons in Hk.
    destruct Hk as [-> | [-> | [-> | [-> | Hk]]]]; [congruence..|].
    by apply elem_of_nil in Hk.
  - intros e He. apply labeled_event_kept in He
      as (f & r & conf & reason & intentional & Hu & ->).
    destruct Hu as (Hf & _).
    destruct (log_record_fields req ts latency_ms nim_called response_json schema_valid
                schema_error) as (Hid & Hpi & _ & _ & _ & Hfeat).
    rewrite Hfeat in Hf.
    destruct (Verifier.features req) as [f'|]; [|discriminate Hf]. cbn in Hf.
    destruct (negb (size f' =? 0)%nat); [|discriminate Hf]. injection Hf as ->.
    exists f. split; [reflexivity|]. cbn. split; [reflexivity|].
    unfold gesture_of. rewrite Hid, Hpi. done.
Qed.

End Handler.

End LogFacts.

(** ** Runs of the trainer *)

Section RunFacts.
Context `{Runtime}.
Import Registry Trainer.

Lemma save_status (t : trained) (stamp : string)
    (calib_acc_old calib_acc_new : option float) (reg : registry) :
  let o := save t stamp calib_acc_old calib_acc_new reg in
  (training_log reg ≠ Some Audit.NotAList → status o = Ok ())
  ∧ (training_log reg = Some Audit.NotAList →
       status o = Raise AttributeError ∧ half_written reg o)
  ∧ model_dir (files o)
    = <[current_model := Bundle (model_bundle t stamp ("v" +:+ pretty (next_version_num reg))
                                   calib_acc_new)]>
        (<[next_name reg := Bundle (model_bundle t stamp
                                      ("v" +:+ pretty (next_version_num reg))
                                      calib_acc_new)]> (model_dir reg)).
Proof.
  cbv zeta. unfold save, half_written, next_name.
  destruct (training_log reg) as [[l| |]|] eqn:Hlog; cbn; repeat split; try done.
  eexists. split; [reflexivity|done].
Qed.

(** X13. The first model is not gated. When the registry has no current
    artifact, a candidate that has been trained is published whatever
    its accuracy on the calibration set, and the run returns normally
    (unless the training log holds JSON that is not a list): the
    regression check compares with the current model only. *)
Theorem first_model_is_not_gated (inp : inputs) (reg : registry) (t : trained) :
  train inp = Ok t →
  model_dir reg !! current_model = None →
  training_log reg ≠ Some Audit.NotAList →
  status (main inp reg) = Ok ()
  ∧ published t reg (main inp reg)
  ∧ ∀ acc_new acc_old, RegressionWarning acc_new acc_old ∉ stdout (main inp reg).
Proof.
  intros Htrain Hcur Hlog. unfold main, regression_check. rewrite Htrain.
  destruct (calib t) as [[calib_X calib_y]|]; rewrite ?Hcur; cbn [status files stdout].
  - destruct (save_status t (now inp) None
                (Some (accuracy (new_model t) calib_X calib_y)) reg) as (Hok & _ & _).
    split; [by apply Hok|]. split.
    + destruct (save_published t (now inp) None
                  (Some (accuracy (new_model t) calib_X calib_y)) reg) as (b & ? & ? & ?).
      exists b. auto.
    + intros acc_new acc_old Hin. unfold save in Hin.
      destruct (training_log reg) as [[l| |]|]; cbn in Hin;
        rewrite ?elem_of_cons in Hin; rewrite ?elem_of_nil in Hin;
        intuition discriminate.
  - destruct (save_status t (now inp) None None reg) as (Hok & _ & _).
    split; [by apply Hok|]. split.
    + destruct (save_published t (now inp) None None reg) as (b & ? & ? & ?).
      exists b. auto.
    + intros acc_new acc_old Hin. unfold save in Hin.
      destruct (training_log reg) as [[l| |]|]; cbn in Hin;
        rewrite ?elem_of_cons in Hin; rewrite ?elem_of_nil in Hin;
        intuition discriminate.
Qed.

(** X14. How a run ends without publishing. Without a log file the
    exit status is 1; with fewer than twenty usable events it is 0,
    nothing is printed by the later stages, and neither the calibration
    file nor the fit is reached. A run that ends with an exception has
    left the registry exactly as it found it, with one exception: when
    the training log holds JSON that is not a list, both artifacts are
    written before the run fails on the log, which stays as it was. *)
Theorem run_exits (inp : inputs) (reg : registry) :
  let o := main inp reg in
  (verifier_logs inp = [] →
     status o = Raise (SystemExit 1) ∧ exit_status o = 1 ∧ files o = reg)
  ∧ (∀ events, load_labeled_events (verifier_logs inp) = Ok events →
       (length events < 20)%nat →
       o = {| status := Raise (SystemExit 0); files := reg; stdout := [] |}
       ∧ exit_status o = 0)
  ∧ (∀ e, status o = Raise e →
       files o = reg
       ∨ (training_log reg = Some Audit.NotAList ∧ e = AttributeError
          ∧ half_written reg o)).
Proof.
  cbv zeta. split; [|split].
  - intros Hlogs. unfold main, train, load_labeled_events. rewrite Hlogs. done.
  - intros events Hload Hlen. unfold main, train. rewrite Hload.
    cbn [mbind result_bind]. unfold MIN_SAMPLES.
    destruct (Z.of_nat (length events) <? 20) eqn:E; [done|].
    apply Z.ltb_ge in E. lia.
  - intros e. unfold main.
    destruct (train inp) as [t|e0]; [|by left].
    destruct (regression_check t reg) as [printed [[old new]|e0]]; [|by left].
    cbn [status files]. intros Hst.
    destruct (save_status t (now inp) old new reg) as (Hok & Hbad & _).
    assert (training_log reg = Some Audit.NotAList
            ∨ training_log reg ≠ Some Audit.NotAList) as [Hlog|Hlog]
      by (destruct (training_log reg) as [[l| |]|]; (by left) || (by right)).
    + right. destruct (Hbad Hlog) as [Hst' Hhalf]. split; [done|].
      split; [congruence|]. exact Hhalf.
    + rewrite (Hok Hlog) in Hst. discriminate Hst.
Qed.



(** X16. The calibration set takes no part in the fit. Two runs that
    differ in the calibration file only, and both get as far as a
    trained candidate, have the same events, the same candidate and the
    same test accuracy; they differ in the calibration set alone. *)
Theorem calibration_not_used_for_fitting (inp : inputs) (calib : option (list line))
    (t t' : trained) :
  train inp = Ok t →
  train (with_calibration inp calib) = Ok t' →
  events t' = events t
  ∧ new_model t' = new_model t
  ∧ model_type t' = model_type t
  ∧ test_acc t' = test_acc t
  ∧ pos t' = pos t ∧ neg t' = neg t
  ∧ load_calibration calib = Ok (Trainer.calib t').
Proof.
  intros Ht Ht'. split; [|split; [|split; [|split; [|split; [|split]]]]];
    try (apply train_calibration in Ht'; exact Ht');
    revert Ht Ht'; unfold train, with_calibration; cbn [verifier_logs calibration];
    destruct (load_labeled_events _) as [evs|]; try discriminate; cbn [mbind result_bind];
    destruct (_ <? _); try discriminate;
    destruct (build_matrix _) as [Xy|]; try discriminate; cbn [mbind result_bind];
    destruct (load_calibration (calibration inp)) as [c|]; try discriminate;
    destruct (load_calibration calib) as [c'|]; try discriminate; cbn [mbind result_bind];
    destruct (fit _ _ _) as [fitted|]; try discriminate; cbn [mbind result_bind];
    intros [= <-] [= <-]; reflexivity.
Qed.

End RunFacts.

(** ** The service and the file of the model *)

Section ReloadFacts.
Context `{Runtime}.
Import Registry Service.

(** X17. Hot reload. Loading is idempotent and never changes the count
    of predictions. An artifact whose modification time differs from
    the one recorded is read, and the service then holds its model and
    version; an artifact with the recorded modification time is not
    read again once a model is held, whatever the file holds now; when
    the file is gone nothing is held. A call to [/status] is therefore
    invisible to the [/predict] that follows it. *)
Theorem hot_reload (STUDENT_MODE : string) (model_file : option (float * artifact))
    (s : server) :
  _load_model_if_needed model_file (_load_model_if_needed model_file s)
  = _load_model_if_needed model_file s
  ∧ _total_preds (_load_model_if_needed model_file s) = _total_preds s
  ∧ (model_file = None →
       _model (_load_model_if_needed model_file s) = None
       ∧ _model_version (_load_model_if_needed model_file s) = None)
  ∧ (∀ mtime data loaded,
       model_file = Some (mtime, data) →
       _model_mtime s = Some loaded →
       PrimFloat.eqb mtime loaded = false →
       _load_model_if_needed model_file s = loaded_from mtime data s)
  ∧ (∀ mtime data loaded,
       model_file = Some (mtime, data) →
       _model_mtime s = Some loaded →
       PrimFloat.eqb mtime loaded = true →
       is_Some (_model s) →
       _load_model_if_needed model_file s = s)
  ∧ (∀ request_body,
       predict STUDENT_MODE model_file request_body (status STUDENT_MODE model_file s).1
       = predict STUDENT_MODE model_file request_body s).
Proof.
  assert (Hidem : ∀ s0, _load_model_if_needed model_file (_load_model_if_needed model_file s0)
                        = _load_model_if_needed model_file s0).
  { intros s0. unfold _load_model_if_needed.
    destruct model_file as [[mtime data]|]; [|reflexivity].
    destruct (negb (bool_decide (is_Some (_model s0))) || _) eqn:E.
    - destruct data as [b|m]; cbn [_model _model_mtime _model_version _total_preds];
        match goal with |- (if ?c then _ else _) = _ => destruct c end; reflexivity.
    - by rewrite E. }
  split; [apply Hidem|]. split; [|split; [|split; [|split]]].
  - unfold _load_model_if_needed. destruct model_file as [[mtime data]|]; [|reflexivity].
    destruct (negb _ || _); [|reflexivity]. by destruct data.
  - by intros ->.
  - intros mtime data loaded -> Hm Hne. unfold _load_model_if_needed, loaded_from.
    rewrite Hm, Hne. cbn [negb]. rewrite orb_true_r. by destruct data.
  - intros mtime data loaded -> Hm Heq Hs. unfold _load_model_if_needed.
    rewrite Hm, Heq. cbn [negb]. rewrite orb_false_r.
    by rewrite (bool_decide_eq_true_2 _ Hs).
  - intros request_body. unfold status, predict. cbn [fst]. by rewrite Hidem.
Qed.

End ReloadFacts.

(** ** The selection of the trainer *)

Section SelectionFacts.
Context `{Runtime}.
Import Selection.

Lemma SFcompare_antisym (x y : SpecFloat.spec_float) :
  SpecFloat.SFcompare y x = option_map CompOpp (SpecFloat.SFcompare x y).
Proof.
  destruct x as [[]|[]| |[] m1 e1], y as [[]|[]| |[] m2 e2]; try reflexivity;
    cbn [SpecFloat.SFcompare option_map];
    rewrite (Z.compare_antisym e1 e2);
    destruct (e1 ?= e2)%Z; cbn [CompOpp]; try reflexivity;
    rewrite (Pos.compare_cont_antisym m1 m2 Eq); cbn [CompOpp];
    try rewrite CompOpp_involutive; reflexivity.
Qed.

Lemma ltb_asym (x y : float) :
  PrimFloat.ltb x y = true → PrimFloat.ltb y x = false.
Proof.
  rewrite !ltb_spec. unfold SpecFloat.SFltb.
  rewrite (SFcompare_antisym (Prim2SF x) (Prim2SF y)).
  by destruct (SpecFloat.SFcompare (Prim2SF x) (Prim2SF y)) as [[]|].
Qed.

Lemma ltb_irrefl (x : float) : PrimFloat.ltb x x = false.
Proof.
  destruct (PrimFloat.ltb x x) eqn:E; [|reflexivity].
  pose proof (ltb_asym x x E). congruence.
Qed.

Variable fit_logistic_regression : list (list float) → list Z → result estimator.
Variable fit_random_forest : list (list float) → list Z → result estimator.

(** X18. The selection. When both fits succeed, the model returned is
    one of the two, with its name and its accuracy on the test set; no
    candidate has a strictly higher test accuracy; and the random
    forest is returned only when it is strictly better, so that a tie
    (or an accuracy that is not a number) goes to the logistic
    regression. *)
Theorem selection_prefers_higher_accuracy (X_train : list (list float)) (y_train : list Z)
    (X_test : list (list float)) (y_test : list Z) (lr rf : estimator) :
  fit_logistic_regression X_train y_train = Ok lr →
  fit_random_forest X_train y_train = Ok rf →
  let acc_lr := Trainer.accuracy lr X_test y_test in
  let acc_rf := Trainer.accuracy rf X_test y_test in
  ∃ best,
    train_and_pick fit_logistic_regression fit_random_forest X_train y_train X_test y_test
    = Ok best
    ∧ acc best = Trainer.accuracy (clf best) X_test y_test
    ∧ PrimFloat.ltb (acc best) acc_lr = false
    ∧ PrimFloat.ltb (acc best) acc_rf = false
    ∧ (if PrimFloat.ltb acc_lr acc_rf
       then clf best = rf ∧ name best = "RandomForest"%string
       else clf best = lr ∧ name best = "LogisticRegression"%string).
Proof.
  intros Hlr Hrf acc_lr acc_rf. unfold train_and_pick. rewrite Hlr, Hrf.
  cbn [mbind result_bind]. unfold sort_reverse. cbn [acc].
  fold acc_lr acc_rf.
  destruct (PrimFloat.ltb acc_lr acc_rf) eqn:E; cbn [Py.first];
    eexists; (split; [reflexivity|]); cbn [acc clf name]; fold acc_lr acc_rf.
  - split; [reflexivity|]. split; [by apply ltb_asym|]. split; [apply ltb_irrefl|done].
  - split; [reflexivity|]. split; [apply ltb_irrefl|]. split; [exact E|done].
Qed.

End SelectionFacts.

(** ** The report of the builder *)

Section ReportFacts.
Import Builder Report.

Lemma loop_accepted (clips_by_id : gmap string Clip.clip)
    (results : list Harness.eval_result) :
  ∀ t t',
  loop clips_by_id t results = Ok t' →
  accepted t' = accepted t ++ omap (emitted clips_by_id) results.
Proof.
  induction results as [|r rest IH]; intros t t'; cbn [loop].
  - intros [= <-]. by rewrite app_nil_r.
  - destruct (step_accepted clips_by_id t r) as (t1 & Hstep & Hacc & _).
    rewrite Hstep. cbn [mbind result_bind]. intros Hloop.
    rewrite (IH t1 t' Hloop), Hacc, <- app_assoc. f_equal.
    cbn. by destruct (emitted clips_by_id r).
Qed.

Lemma emitted_error (clips_by_id : gmap string Clip.clip) (r : Harness.eval_result) :
  Harness.cosmos_error r = true → emitted clips_by_id r = None.
Proof. intros E. unfold emitted, step. by rewrite E. Qed.

Lemma emitted_clip_id (clips_by_id : gmap string Clip.clip) (r : Harness.eval_result)
    (rec : record) :
  emitted clips_by_id r = Some rec → clip_id rec = Harness.clip_id r.
Proof.
  unfold emitted, step. destruct (Harness.cosmos_error r); [discriminate|].
  destruct (agreement clips_by_id r) as [[[label_int gesture_type]|]|]; cbn;
    try discriminate.
  destruct (clips_by_id !! Harness.clip_id r) as [clip|]; [|discriminate].
  destruct (truthy (Clip.features clip)); cbn; [|discriminate].
  by intros [= <-].
Qed.

Lemma omap_step {A B : Type} (f : A → option B) (a : A) (l : list A) :
  omap f (a :: l) = match f a with Some b => b :: omap f l | None => omap f l end.
Proof. reflexivity. Qed.

Lemma emitted_counts (clips_by_id : gmap string Clip.clip)
    (results : list Harness.eval_result) :
  Z.of_nat (length (filter (λ rec, label rec = 1) (omap (emitted clips_by_id) results)))
  = count_if (λ r, negb (Harness.cosmos_error r) && has_feature_bag clips_by_id r
                   && agrees_positive r) results
  ∧ Z.of_nat (length (filter (λ rec, label rec = 0) (omap (emitted clips_by_id) results)))
    = count_if (λ r, negb (Harness.cosmos_error r) && has_feature_bag clips_by_id r
                     && agrees_negative r) results.
Proof.
  induction results as [|r rest [IH1 IH0]]; [done|].
  rewrite !count_if_cons, <- IH1, <- IH0, !omap_step.
  destruct (Harness.cosmos_error r) eqn:Herr.
  - rewrite (emitted_error clips_by_id r Herr). cbn [negb andb]. lia.
  - pose proof (emitted_label clips_by_id r Herr) as Hlabel.
    pose proof (agreement_exclusive r) as Hex.
    cbn [negb andb].
    destruct (emitted clips_by_id r) as [rec|]; cbn [fmap option_fmap option_map] in Hlabel.
    + destruct (has_feature_bag clips_by_id r); [|discriminate Hlabel].
      destruct (agrees_positive r).
      * injection Hlabel as Hl. rewrite (Hex eq_refl). cbn [andb].
        rewrite filter_cons_True by done.
        rewrite (filter_cons_False (λ rec0, label rec0 = 0)) by (rewrite Hl; done).
        cbn [length]. lia.
      * destruct (agrees_negative r); [|discriminate Hlabel].
        injection Hlabel as Hl. cbn [andb].
        rewrite filter_cons_False by (rewrite Hl; done).
        rewrite (filter_cons_True (λ rec0, label rec0 = 0)) by done.
        cbn [length]. lia.
    + destruct (has_feature_bag clips_by_id r); cbn [andb]; [|lia].
      destruct (agrees_positive r); [discriminate Hlabel|].
      destruct (agrees_negative r); [discriminate Hlabel|]. lia.
Qed.

Lemma emitted_sublist (clips_by_id : gmap string Clip.clip)
    (results : list Harness.eval_result) :
  map clip_id (omap (emitted clips_by_id) results)
    `sublist_of` map Harness.clip_id results.
Proof.
  induction results as [|r rest IH]; [constructor|].
  rewrite omap_step. cbn [map].
  destruct (emitted clips_by_id r) as [rec|] eqn:E.
  - cbn [map]. rewrite (emitted_clip_id clips_by_id r rec E). by constructor.
  - by constructor.
Qed.

Lemma well_shaped_counts (recs : list record) :
  Forall well_shaped recs →
  Z.of_nat (length (filter (λ r, label r = 1) recs))
  + Z.of_nat (length (filter (λ r, label r = 0) recs))
  = Z.of_nat (length recs).
Proof.
  induction 1 as [|rec recs (_ & _ & Hl) _ IH]; [done|].
  destruct Hl as [Hl|Hl].
  - rewrite filter_cons_False by (rewrite Hl; done).
    rewrite (filter_cons_True (λ r, label r = 0)) by done. cbn [length]. lia.
  - rewrite filter_cons_True by done.
    rewrite (filter_cons_False (λ r, label r = 0)) by (rewrite Hl; done).
    cbn [length]. lia.
Qed.

(** X19. The report of the builder. The two counts it prints add up to
    the number of accepted records: the first is the number of results
    without error, with features, on which the human label and the
    teacher agree on a positive, the second the same for a negative.
    The accepted records follow the order of the results, at most one
    per result, and the warning is printed exactly when fewer than ten
    were accepted. *)
Theorem builder_report (clips_by_id : gmap string Clip.clip)
    (results : list Harness.eval_result) (t : tally) :
  loop clips_by_id start results = Ok t →
  tp_count t
  = count_if (λ r, negb (Harness.cosmos_error r) && has_feature_bag clips_by_id r
                   && agrees_positive r) results
  ∧ neg_count t
    = count_if (λ r, negb (Harness.cosmos_error r) && has_feature_bag clips_by_id r
                     && agrees_negative r) results
  ∧ tp_count t + neg_count t = Z.of_nat (length (accepted t))
  ∧ map clip_id (accepted t) `sublist_of` map Harness.clip_id results
  ∧ (warning t = true ↔ tp_count t + neg_count t < 10).
Proof.
  intros Hloop.
  pose proof (loop_accepted clips_by_id results start t Hloop) as Hacc.
  cbn [accepted start app] in Hacc.
  destruct (emitted_counts clips_by_id results) as [H1 H0].
  assert (tp_count t + neg_count t = Z.of_nat (length (accepted t))) as Hsum.
  { apply well_shaped_counts.
    apply (loop_well_shaped clips_by_id results start t Hloop). constructor. }
  unfold tp_count, neg_count in *. rewrite Hacc in *.
  split; [exact H1|]. split; [exact H0|]. split; [exact Hsum|].
  split; [apply emitted_sublist|].
  unfold warning. rewrite Hacc, Hsum. apply Z.ltb_lt.
Qed.

End ReportFacts.

(** ** The executor service *)

Section ExecutorFacts.
Import Executor.

Variable system : string.
Variable ACTIONS_PATH : string.
Variable actions_file : config.
Variable run : list string → option raised.
Variable _macos_osascript_for_combo : string → outcome string.
Variable uuid4 : string.
Variable ts_unix latency_ms : float.

Let execute :=
  Executor.execute system ACTIONS_PATH actions_file run _macos_osascript_for_combo uuid4
    ts_unix latency_ms.

Lemma _detect_os_key_Returns (os_key : string) :
  _detect_os_key system = Returns os_key →
  (system = "linux" ∧ os_key = "linux")%string
  ∨ (system = "darwin" ∧ os_key = "macos")%string.
Proof.
  unfold _detect_os_key.
  destruct (String.eqb system "linux") eqn:E1.
  - apply String.eqb_eq in E1. intros [= <-]. by left.
  - destruct (String.eqb system "darwin") eqn:E2; [|discriminate].
    apply String.eqb_eq in E2. intros [= <-]. by right.
Qed.

Lemma _key_combo_for_intent_Returns (intent os_key key_combo : string) :
  _key_combo_for_intent ACTIONS_PATH actions_file intent os_key = Returns key_combo →
  mapped actions_file os_key intent key_combo.
Proof.
  unfold _key_combo_for_intent, _load_actions, mapped.
  destruct actions_file as [|str|[| | | | | |actions]]; try discriminate.
  destruct (actions !! os_key) as [[| | | | | |os_actions]|] eqn:Hos; try discriminate.
  destruct (os_actions !! intent) as [[| | | |combo| |]|] eqn:Hk; try discriminate.
  destruct (String.eqb combo EmptyString) eqn:E; [discriminate|].
  intros [= <-]. apply String.eqb_neq in E. eauto 10.
Qed.

Lemma served_record_fields (req : request) (event_id key_combo : string) (executed : bool)
    (os_key : string) :
  let record := log_record ts_unix latency_ms req event_id key_combo executed os_key in
  record !! "event_id" = Some (PStr event_id)
  ∧ record !! "key_combo" = Some (PStr key_combo)
  ∧ record !! "executed" = Some (PBool executed)
  ∧ record !! "os_name" = Some (PStr os_key)
  ∧ record !! "error" = None.
Proof.
  cbv zeta. unfold log_record.
  match goal with |- context [list_to_map ?l] => set (base := list_to_map l) end.
  repeat split; rewrite !with_key_lookup_ne by done; vm_compute; reflexivity.
Qed.

Lemma failure_record_error (req : request) (event_id msg : string) :
  let record := failure_record system ts_unix latency_ms req event_id msg in
  record !! "event_id" = Some (PStr event_id)
  ∧ record !! "key_combo" = Some (PStr EmptyString)
  ∧ record !! "executed" = Some (PBool false)
  ∧ record !! "os_name" = Some (PStr system)
  ∧ record !! "error" = Some (PStr msg).
Proof. cbv zeta. unfold failure_record. repeat split; vm_compute; reflexivity. Qed.

(** X20. A dry run sends nothing. Whatever the platform, the
    configuration and the request, a request with [dry_run] starts no
    command. It is still resolved like any other request: it is
    answered with [executed] false and the key combination that would
    have been sent when the platform is supported and actions.yaml maps
    the intent, and with an HTTP error 500 otherwise; either way one
    record is logged, with [executed] false. *)
Theorem dry_run_sends_nothing (req : request) :
  dry_run req = true →
  commands (execute req) = []
  ∧ (∃ record, log (execute req) = [record]
       ∧ record !! "executed" = Some (PBool false))
  ∧ (∀ r, answer (execute req) = Response r →
       ok r = true ∧ executed r = false
       ∧ detail r = "dry run: no key event sent"%string
       ∧ ∃ os_key, _detect_os_key system = Returns os_key
           ∧ mapped actions_file os_key (intent req) (key_combo r))
  ∧ (∀ status_code detail, answer (execute req) = HTTPException status_code detail →
       status_code = 500
       ∧ (_detect_os_key system = Raises (RuntimeError detail)
          ∨ ∃ os_key e, _detect_os_key system = Returns os_key
              ∧ _key_combo_for_intent ACTIONS_PATH actions_file (intent req) os_key
                = Raises e
              ∧ detail = error_msg e)).
Proof.
  intros Hdry. subst execute. unfold Executor.execute.
  destruct (_detect_os_key system) as [os_key|e] eqn:Hos.
  - destruct (_key_combo_for_intent ACTIONS_PATH actions_file (intent req) os_key)
      as [combo|e] eqn:Hcombo.
    + rewrite Hdry. cbn [commands log answer]. split; [done|]. split.
      { eexists. split; [reflexivity|].
        by destruct (served_record_fields req (event_id_of uuid4 req) combo false os_key)
          as (_ & _ & ? & _). }
      split; [|discriminate].
      intros r [= <-]. cbn. repeat split. exists os_key. split; [done|].
      by apply _key_combo_for_intent_Returns.
    + cbn [failed commands log answer]. split; [done|]. split.
      { eexists. split; [reflexivity|].
        by destruct (failure_record_error req (event_id_of uuid4 req) (error_msg e))
          as (_ & _ & ? & _). }
      split; [discriminate|].
      intros status_code detail [= <- <-]. split; [done|]. right. eauto.
  - cbn [failed commands log answer]. split; [done|]. split.
    { eexists. split; [reflexivity|].
      by destruct (failure_record_error req (event_id_of uuid4 req) (error_msg e))
        as (_ & _ & ? & _). }
    split; [discriminate|].
    intros status_code detail [= <- <-]. split; [done|]. left.
    unfold _detect_os_key in Hos |- *.
    destruct (String.eqb system "linux"); [discriminate|].
    destruct (String.eqb system "darwin"); [discriminate|].
    by injection Hos as <-.
Qed.

(** X21. What the handler of [/execute] does, whatever its environment.
    Every request logs exactly one record and starts at most one
    command. A response is returned only on linux or darwin, for the
    key combination that actions.yaml maps to the intent on that
    platform; it carries the event identifier of the request, or the
    fresh one when the request has none, and [executed] is the negation
    of [dry_run]; when [executed], exactly the command of the platform
    for that combination was run, and it succeeded; the record logged
    agrees with the response. Every failure is answered with an HTTP
    error 500 whose detail is the error logged, in a record with
    [executed] false and an empty key combination. *)
Theorem execute_contract (req : request) :
  (∃ record, log (execute req) = [record])
  ∧ (length (commands (execute req)) ≤ 1)%nat
  ∧ (∀ r, answer (execute req) = Response r →
       ok r = true
       ∧ executed r = negb (dry_run req)
       ∧ response_intent r = intent req
       ∧ response_event_id r = event_id_of uuid4 req
       ∧ (∃ os_key, _detect_os_key system = Returns os_key
            ∧ mapped actions_file os_key (intent req) (key_combo r)
            ∧ ∃ record, log (execute req) = [record]
                ∧ record !! "event_id" = Some (PStr (response_event_id r))
                ∧ record !! "key_combo" = Some (PStr (key_combo r))
                ∧ record !! "executed" = Some (PBool (executed r))
                ∧ record !! "os_name" = Some (PStr os_key)
                ∧ record !! "error" = None)
       ∧ (executed r = true →
            ∃ cmd, commands (execute req) = [cmd]
              ∧ key_command _macos_osascript_for_combo system (key_combo r) cmd
              ∧ run cmd = None))
  ∧ (∀ status_code detail, answer (execute req) = HTTPException status_code detail →
       status_code = 500
       ∧ ∃ record, log (execute req) = [record]
           ∧ record !! "error" = Some (PStr detail)
           ∧ record !! "executed" = Some (PBool false)
           ∧ record !! "key_combo" = Some (PStr EmptyString)
           ∧ record !! "os_name" = Some (PStr system)).
Proof.
  subst execute. unfold Executor.execute.
  assert (Hfailed : ∀ done e, (length done ≤ 1)%nat →
    let o := failed system uuid4 ts_unix latency_ms req done e in
    (∃ record, log o = [record])
    ∧ (length (commands o) ≤ 1)%nat
    ∧ (∀ r, answer o ≠ Response r)
    ∧ (∀ status_code detail, answer o = HTTPException status_code detail →
         status_code = 500
         ∧ ∃ record, log o = [record]
             ∧ record !! "error" = Some (PStr detail)
             ∧ record !! "executed" = Some (PBool false)
             ∧ record !! "key_combo" = Some (PStr EmptyString)
             ∧ record !! "os_name" = Some (PStr system))).
  { intros done e Hlen. cbv zeta. cbn [failed log commands answer].
    split; [eauto|]. split; [exact Hlen|]. split; [discriminate|].
    intros status_code detail [= <- <-]. split; [done|].
    eexists. split; [reflexivity|].
    destruct (failure_record_error req (event_id_of uuid4 req) (error_msg e))
      as (_ & ? & ? & ? & ?). done. }
  assert (Hcase : ∀ done e, (length done ≤ 1)%nat →
    let o := failed system uuid4 ts_unix latency_ms req done e in
    (∃ record, log o = [record])
    ∧ (length (commands o) ≤ 1)%nat
    ∧ (∀ r, answer o = Response r →
         ok r = true
         ∧ executed r = negb (dry_run req)
         ∧ response_intent r = intent req
         ∧ response_event_id r = event_id_of uuid4 req
         ∧ (∃ os_key, _detect_os_key system = Returns os_key
              ∧ mapped actions_file os_key (intent req) (key_combo r)
              ∧ ∃ record, log o = [record]
                  ∧ record !! "event_id" = Some (PStr (response_event_id r))
                  ∧ record !! "key_combo" = Some (PStr (key_combo r))
                  ∧ record !! "executed" = Some (PBool (executed r))
                  ∧ record !! "os_name" = Some (PStr os_key)
                  ∧ record !! "error" = None)
         ∧ (executed r = true →
              ∃ cmd, commands o = [cmd]
                ∧ key_command _macos_osascript_for_combo system (key_combo r) cmd
                ∧ run cmd = None))
    ∧ (∀ status_code detail, answer o = HTTPException status_code detail →
         status_code = 500
         ∧ ∃ record, log o = [record]
             ∧ record !! "error" = Some (PStr detail)
             ∧ record !! "executed" = Some (PBool false)
             ∧ record !! "key_combo" = Some (PStr EmptyString)
             ∧ record !! "os_name" = Some (PStr system))).
  { intros done e Hlen. destruct (Hfailed done e Hlen) as (? & ? & Hno & ?).
    cbv zeta. split; [done|]. split; [done|]. split; [|done].
    intros r Hr. by destruct (Hno r). }
  destruct (_detect_os_key system) as [os_key|e] eqn:Hos;
    [|apply Hcase; cbn; lia].
  destruct (_key_combo_for_intent ACTIONS_PATH actions_file (intent req) os_key)
    as [combo|e] eqn:Hcombo; [|apply Hcase; cbn; lia].
  pose proof (_key_combo_for_intent_Returns _ _ _ Hcombo) as Hmapped.
  destruct (dry_run req) eqn:Hdry.
  - cbn [log commands answer]. split; [eauto|]. split; [cbn; lia|]. split; [|discriminate].
    intros r [= <-]. cbn. repeat split; [|discriminate].
    exists os_key. split; [done|]. split; [done|].
    eexists. split; [reflexivity|].
    apply (served_record_fields req (event_id_of uuid4 req) combo false os_key).
  - destruct (dispatch run _macos_osascript_for_combo os_key combo) as [done [e|]] eqn:Hd.
    + apply Hcase. unfold dispatch in Hd.
      destruct (String.eqb os_key "linux"); [injection Hd as <- _; cbn; lia|].
      destruct (String.eqb os_key "macos"); [|injection Hd as <- _; cbn; lia].
      destruct (_macos_osascript_for_combo combo); injection Hd as <- _; cbn; lia.
    + assert (∃ cmd, done = [cmd]
                ∧ key_command _macos_osascript_for_combo system combo cmd
                ∧ run cmd = None) as (cmd & -> & Hcmd & Hrun).
      { unfold dispatch in Hd. unfold key_command.
        destruct (_detect_os_key_Returns os_key Hos) as [[-> ->]|[-> ->]]; cbn in Hd.
        - injection Hd as <- Hrun. eexists. split; [reflexivity|]. split; [|done].
          by left.
        - destruct (_macos_osascript_for_combo combo) as [script|e] eqn:Hscript;
            [|discriminate Hd].
          injection Hd as <- Hrun. eexists. split; [reflexivity|]. split; [|done].
          right. split; [done|]. eauto. }
      cbn [log commands answer]. split; [eauto|]. split; [cbn; lia|].
      split; [|discriminate].
      intros r [= <-]. cbn. repeat split.
      * exists os_key. split; [done|]. split; [done|].
        eexists. split; [reflexivity|].
        apply (served_record_fields req (event_id_of uuid4 req) combo true os_key).
      * intros _. eauto.
Qed.

End ExecutorFacts.

(** * The further statements on the concrete inputs *)

Section MoreInstances.

#[local] Existing Instance Demo.runtime.

Import Scenario Cases.

(** The four OPEN_MENU clips of the scenario are the true positives of
    OPEN_MENU. *)
Lemma metrics_true_positives_witness :
  "OPEN_MENU"%string ∈ Metrics.gesture_types
  ∧ Forall boolean_verdict results
  ∧ count_if (λ r, labelled "TP_OPEN_MENU" r && agrees_positive r) results = 4
  ∧ Metrics.tp (Metrics.count_all "OPEN_MENU" results) = 4.
Proof.
  assert ("OPEN_MENU"%string ∈ Metrics.gesture_types) as Hg by constructor.
  assert (Forall boolean_verdict results) as Hb.
  { unfold results. apply Forall_fmap, Forall_forall. intros i _. right. by eexists. }
  split; [exact Hg|]. split; [exact Hb|].
  destruct (metrics_true_positives "OPEN_MENU" results Hg) as [_ Heq].
  specialize (Heq Hb). change ("TP_" +:+ "OPEN_MENU")%string with "TP_OPEN_MENU"%string in Heq.
  split; [rewrite Heq|]; vm_compute; reflexivity.
Defined.


(** A body that is not an object ends the batch. *)
Lemma unreportable_reply_aborts_witness :
  Evaluation.labeled [undetected] = [] ++ undetected :: []
  ∧ Evaluation.build_payload undetected = Ok undetected_payload
  ∧ reportable ((λ _ _, garbled) (length (@nil Evaluation.recording)) undetected_payload)
    = false
  ∧ ∃ done e,
      Evaluation.main time_sleep pause (λ _ _, garbled) [undetected] = (done, Raise e).
Proof.
  assert (Evaluation.labeled [undetected] = [] ++ undetected :: []) as H1 by reflexivity.
  assert (Evaluation.build_payload undetected = Ok undetected_payload) as H2 by reflexivity.
  assert (reportable ((λ _ _, garbled) (length (@nil Evaluation.recording))
                        undetected_payload) = false) as H3 by reflexivity.
  split; [exact H1|]. split; [exact H2|]. split; [exact H3|].
  exact (unreportable_reply_aborts time_sleep pause (λ _ _, garbled) [undetected] [] []
           undetected undetected_payload H1 H2 H3).
Defined.

(** A call that times out. *)
Lemma failed_call_is_skipped_witness :
  Evaluation.build_payload undetected = Ok undetected_payload
  ∧ failed ((λ _, timed_out) undetected_payload) = true
  ∧ ∃ r,
      Evaluation.evaluate_one time_sleep pause (λ _, timed_out) undetected
      = ([Evaluation.Posted undetected_payload], Ok r)
      ∧ Evaluation.cosmos_error r = true
      ∧ Evaluation.cosmos_intentional r = PNone
      ∧ ∃ msg, Evaluation.cosmos_error_msg r = PStr msg.
Proof.
  assert (Evaluation.build_payload undetected = Ok undetected_payload) as H1 by reflexivity.
  assert (failed ((λ _, timed_out) undetected_payload) = true) as H2 by reflexivity.
  split; [exact H1|]. split; [exact H2|].
  destruct (failed_call_is_skipped time_sleep pause (λ _, timed_out) undetected
              undetected_payload H1 H2)
    as (r & Hone & Herr & Hmsg & Hint & _).
  exists r. split; [exact Hone|]. split; [exact Herr|]. split; [exact Hint|exact Hmsg].
Defined.

(** Without a detected gesture a TP_OPEN_MENU clip is proposed as
    OPEN_MENU. *)
Lemma proposed_intent_of_label_witness :
  Evaluation.build_payload undetected = Ok undetected_payload
  ∧ truthy (Clip.gesture_detected (Evaluation.clip undetected)) = false
  ∧ ∃ g, g ∈ Metrics.gesture_types
      ∧ Evaluation.proposed_intent undetected_payload = PStr g
      ∧ Builder.LABEL_TO_INTENT !! "TP_OPEN_MENU"%string = Some g.
Proof.
  assert (Evaluation.build_payload undetected = Ok undetected_payload) as H1 by reflexivity.
  split; [exact H1|]. split; [reflexivity|].
  destruct (proposed_intent_of_label undetected undetected_payload H1) as [_ Hno].
  destruct (Hno eq_refl) as (g & Hg & Hp & Hmap).
  exists g. split; [exact Hg|]. split; [exact Hp|].
  apply Hmap; [reflexivity|]. vm_compute. reflexivity.
Defined.

Lemma tally_built :
  Builder.loop clips_by_id Builder.start results = Ok tally.
Proof.
  unfold tally.
  destruct (Builder.loop clips_by_id Builder.start results) eqn:E; [reflexivity|].
  vm_compute in E. discriminate E.
Defined.

Lemma tally_feature_bags : Forall with_feature_bag (Builder.accepted tally).
Proof.
  assert (Forall (λ rec, Builder.features rec = PDict bag) (Builder.accepted tally)) as Hb.
  { vm_compute. repeat constructor. }
  eapply Forall_impl; [exact Hb|]. intros rec Hrec. exists bag.
  split; [exact Hrec|apply bag_is_feature_bag].
Defined.

(** The eight records of the scenario are read back as eight rows. *)
Lemma calibration_round_trip_witness :
  Builder.loop clips_by_id Builder.start results = Ok tally
  ∧ Forall with_feature_bag (Builder.accepted tally)
  ∧ ∃ X, Trainer.load_calibration (Some (calibration_lines tally))
         = Ok (Some (X, [1; 1; 1; 1; 0; 0; 0; 0]))
       ∧ length X = 8%nat.
Proof.
  split; [exact tally_built|]. split; [exact tally_feature_bags|].
  destruct (calibration_round_trip clips_by_id results tally tally_built tally_feature_bags)
    as (_ & _ & _ & Hload).
  destruct Hload as (X & Hload & Hlen & _); [vm_compute; discriminate|].
  exists X. split; [|exact Hlen].
  assert (map Builder.label (Builder.accepted tally) = [1; 1; 1; 1; 0; 0; 0; 0]) as Hl
    by (vm_compute; reflexivity).
  rewrite Hload, Hl. reflexivity.
Defined.

(** The report of the scenario: four positives and four negatives, and
    the warning. *)
Lemma builder_report_witness :
  Builder.loop clips_by_id Builder.start results = Ok tally
  ∧ Report.tp_count tally + Report.neg_count tally = 8
  ∧ Report.warning tally = true.
Proof.
  split; [exact tally_built|].
  destruct (builder_report clips_by_id results tally tally_built)
    as (_ & _ & Hsum & _ & Hwarn).
  assert (Z.of_nat (length (Builder.accepted tally)) = 8) as Hlen
    by (vm_compute; reflexivity).
  split; [by rewrite Hsum|]. apply Hwarn. rewrite Hsum, Hlen. done.
Defined.

Lemma trained_25 : Trainer.train (run_inputs 25) = Ok (trained_on 25).
Proof.
  unfold trained_on. destruct (Trainer.train (run_inputs 25)) eqn:E; [reflexivity|].
  assert (is_ok (Trainer.train (run_inputs 25)) = true) as Hok by (vm_compute; reflexivity).
  rewrite E in Hok. discriminate Hok.
Defined.

(** A first model is published although it scores 0.25 on the
    calibration set. *)
Lemma first_model_is_not_gated_witness :
  Trainer.train (run_inputs 25) = Ok (trained_on 25)
  ∧ Registry.model_dir Registry.empty !! Registry.current_model = None
  ∧ Registry.training_log Registry.empty ≠ Some Registry.Audit.NotAList
  ∧ Trainer.accuracy (Trainer.new_model (trained_on 25))
      calibration_set.1 calibration_set.2 = 0.25%float
  ∧ Trainer.status (Trainer.main (run_inputs 25) Registry.empty) = Ok ()
  ∧ published (trained_on 25) Registry.empty (Trainer.main (run_inputs 25) Registry.empty).
Proof.
  assert (Registry.model_dir Registry.empty !! Registry.current_model = None) as H2
    by reflexivity.
  assert (Registry.training_log Registry.empty ≠ Some Registry.Audit.NotAList) as H3
    by discriminate.
  split; [exact trained_25|]. split; [exact H2|]. split; [exact H3|].
  split; [vm_compute; reflexivity|].
  destruct (first_model_is_not_gated (run_inputs 25) Registry.empty (trained_on 25)
              trained_25 H2 H3) as (Hst & Hpub & _).
  split; [exact Hst|exact Hpub].
Defined.



Lemma trained_25_without_calibration :
  Trainer.train (with_calibration (run_inputs 25) None) = Ok trained_without_calibration.
Proof.
  unfold trained_without_calibration.
  destruct (Trainer.train (with_calibration (run_inputs 25) None)) eqn:E; [reflexivity|].
  assert (is_ok (Trainer.train (with_calibration (run_inputs 25) None)) = true) as Hok
    by (vm_compute; reflexivity).
  rewrite E in Hok. discriminate Hok.
Defined.

(** The run of the scenario with and without its calibration file. *)
Lemma calibration_not_used_for_fitting_witness :
  Trainer.train (run_inputs 25) = Ok (trained_on 25)
  ∧ Trainer.train (with_calibration (run_inputs 25) None) = Ok trained_without_calibration
  ∧ Trainer.new_model trained_without_calibration = Trainer.new_model (trained_on 25)
  ∧ Trainer.test_acc trained_without_calibration = Trainer.test_acc (trained_on 25).
Proof.
  split; [exact trained_25|]. split; [exact trained_25_without_calibration|].
  destruct (calibration_not_used_for_fitting (run_inputs 25) None (trained_on 25)
              trained_without_calibration trained_25 trained_25_without_calibration)
    as (_ & Hmodel & _ & Hacc & _).
  split; [exact Hmodel|exact Hacc].
Defined.

(** On a tie the logistic regression is returned. *)
Lemma selection_prefers_higher_accuracy_witness :
  fit_logistic_regression [] [] = Ok 1%nat
  ∧ fit_random_forest [] [] = Ok 2%nat
  ∧ Trainer.accuracy 1%nat X_test y_test = Trainer.accuracy 2%nat X_test y_test
  ∧ ∃ best,
      Selection.train_and_pick fit_logistic_regression fit_random_forest [] [] X_test y_test
      = Ok best
      ∧ Selection.name best = "LogisticRegression"%string.
Proof.
  split; [reflexivity|]. split; [reflexivity|]. split; [vm_compute; reflexivity|].
  destruct (selection_prefers_higher_accuracy fit_logistic_regression fit_random_forest
              [] [] X_test y_test 1%nat 2%nat eq_refl eq_refl)
    as (best & Hpick & _ & _ & _ & Hname).
  exists best. split; [exact Hpick|].
  assert (PrimFloat.ltb (Trainer.accuracy 1%nat X_test y_test)
            (Trainer.accuracy 2%nat X_test y_test) = false) as Htie
    by (vm_compute; reflexivity).
  rewrite Htie in Hname. by destruct Hname.
Defined.

(** A dry run on linux is answered and starts nothing. *)
Lemma dry_run_sends_nothing_witness :
  Executor.dry_run dry_request = true
  ∧ Executor.commands (execute_on_linux dry_request) = []
  ∧ ∃ r, Executor.answer (execute_on_linux dry_request) = Executor.Response r
      ∧ Executor.executed r = false
      ∧ Executor.key_combo r = "super"%string.
Proof.
  split; [reflexivity|].
  destruct (dry_run_sends_nothing "linux" "executor/actions.yaml" actions (λ _, None)
              (λ _, Executor.Returns EmptyString) "6f1c" 0%float 0%float dry_request
              eq_refl) as (Hcmd & _ & Hresp & _).
  split; [exact Hcmd|].
  eexists. split; [reflexivity|].
  split; [|reflexivity].
  by destruct (Hresp _ eq_refl) as (_ & ? & _).
Defined.

End MoreInstances.
